(** * Tempo market maker: quote ticks, flip constraints, state store,
      reconciliation and transaction budget.

    A shallow embedding of [config.ts], [ticks.ts], [types.ts], [dex.ts]
    ([getOrder]), [strategy.ts] ([getQuoteParams]), [state.ts] and the
    quoting step of [engine.ts].

    Conventions of the embedding.
    - A JavaScript [number] is an exact rational ([Q]); a [number] that the
      code only ever produces as an integer (a tick, a counter, a
      millisecond time stamp) and a [bigint] are [Z].  IEEE rounding of
      doubles is outside the model.
    - [Math.round x] is [floor (x + 1/2)] (ties go towards +infinity).
    - [%] is the truncated remainder [Z.rem].
    - A thrown exception is the [Throw] case of [result].
    - The file system, the wall clock and the chain RPC endpoint live in a
      [World] record threaded through the effectful functions.
    - Logging is dropped. *)

From Stdlib Require Import ZArith QArith Qround Bool List String Ascii Lia.
From Stdlib Require Import DecimalString Lqa.
From Stdlib Require DecimalZ DecimalPos.
Import ListNotations.

Local Open Scope Z_scope.

(** ** Exceptions *)

Inductive Error : Type :=
| FlipConstraintViolated (isBid : bool) (tick flipTick : Z)
| InvalidTicksCalculated (bid ask : Z)
| ContractFunctionExecutionError
    (errorName : option string) (message : string) (details : option string)
| RpcError (message : string)
| SyntaxError.

Inductive result (A : Type) : Type :=
| Ok (a : A)
| Throw (e : Error).

Arguments Ok {A} a.
Arguments Throw {A} e.

Definition bindR {A B : Type} (r : result A) (k : A -> result B) : result B :=
  match r with
  | Ok a => k a
  | Throw e => Throw e
  end.

Declare Scope result_scope.
Delimit Scope result_scope with result.
Notation "'try!' x <- r ; k" := (bindR r (fun x => k))
  (at level 10, x name, r at level 100, k at level 200) : result_scope.

(** ** config.ts *)

Module Config.

Inductive TokenSymbol : Type := pathUSD | AlphaUSD | BetaUSD | ThetaUSD.

Definition TokenSymbol_eqb (a b : TokenSymbol) : bool :=
  match a, b with
  | pathUSD, pathUSD | AlphaUSD, AlphaUSD
  | BetaUSD, BetaUSD | ThetaUSD, ThetaUSD => true
  | _, _ => false
  end.

Definition TokenSymbol_name (t : TokenSymbol) : string :=
  match t with
  | pathUSD => "pathUSD"
  | AlphaUSD => "AlphaUSD"
  | BetaUSD => "BetaUSD"
  | ThetaUSD => "ThetaUSD"
  end.

(** [TICK_CONSTANTS] *)
Definition PRICE_SCALE : Z := 100000.
Definition TICK_SPACING : Z := 10.
Definition TICK_BOUNDS_MIN : Z := -2000.
Definition TICK_BOUNDS_MAX : Z := 2000.
Definition TICKS_PER_BPS : Z := 10.

(** The strategy and budget part of [config].  [ORDER_SIZE_HUMAN] is kept
    as the number [parseFloat] reads from the configured string. *)
Record Config : Type := {
  TOTAL_SPREAD_BPS : Q;
  ORDER_SIZE_HUMAN : Q;
  MAX_TX_PER_DAY : Z;
  MAX_CANCELS_PER_HOUR : Z;
  COOLDOWN_MS : Z;
  JITTER_MS : Z
}.

Definition config : Config := {|
  TOTAL_SPREAD_BPS := 10;
  ORDER_SIZE_HUMAN := 100;
  MAX_TX_PER_DAY := 100;
  MAX_CANCELS_PER_HOUR := 10;
  COOLDOWN_MS := 60000;
  JITTER_MS := 5000
|}.

End Config.

(** ** ticks.ts *)

Module Ticks.
Import Config.

Definition Math_round (x : Q) : Z := Qfloor (x + (1 # 2))%Q.

Definition bpsToTicks (bps : Q) : Q := (bps * inject_Z TICKS_PER_BPS)%Q.

Definition ticksToBps (ticks : Q) : Q := (ticks / inject_Z TICKS_PER_BPS)%Q.

Definition roundToSpacing (tick : Q) : Z :=
  let rounded := Math_round (tick / inject_Z TICK_SPACING)%Q * TICK_SPACING in
  rounded.

Definition clampTick (tick : Z) : Z :=
  Z.max TICK_BOUNDS_MIN (Z.min TICK_BOUNDS_MAX tick).

Definition isValidTick (tick : Z) : bool :=
  if (tick <? TICK_BOUNDS_MIN) || (tick >? TICK_BOUNDS_MAX) then false
  else if negb (Z.rem tick TICK_SPACING =? 0) then false
  else true.

Definition assertFlipConstraints (isBid : bool) (tick flipTick : Z)
  : result unit :=
  if isBid then
    if flipTick <=? tick
    then Throw (FlipConstraintViolated true tick flipTick)
    else Ok tt
  else
    if flipTick >=? tick
    then Throw (FlipConstraintViolated false tick flipTick)
    else Ok tt.

Definition calculateHalfSpreadTicks (totalSpreadBps : Q) : Z :=
  let halfSpreadBps := (totalSpreadBps / 2)%Q in
  let halfSpreadTicks := bpsToTicks halfSpreadBps in
  roundToSpacing halfSpreadTicks.

Record QuoteTicks : Type := {
  bidTick : Z;
  askTick : Z;
  midTick : Z;
  halfSpreadTicks : Z
}.

Definition calculateQuoteTicks (totalSpreadBps : Q) : result QuoteTicks :=
  let midTick := 0 in
  let halfSpreadTicks := calculateHalfSpreadTicks totalSpreadBps in
  let bidTick := clampTick (midTick - halfSpreadTicks) in
  let askTick := clampTick (midTick + halfSpreadTicks) in
  if negb (isValidTick bidTick) || negb (isValidTick askTick)
  then Throw (InvalidTicksCalculated bidTick askTick)
  else Ok {| bidTick := bidTick;
             askTick := askTick;
             midTick := midTick;
             halfSpreadTicks := halfSpreadTicks |}.

(** The rounding the documentation of [roundToSpacing] announces: nearest
    multiple of the spacing, an exact tie going to the even multiple.
    Follows the specification's words, for comparison with the code. *)
Definition roundHalfEvenToSpacing (tick : Q) : Z :=
  let q := (tick / inject_Z TICK_SPACING)%Q in
  let lo := Qfloor q in
  match (q - inject_Z lo ?= 1 # 2)%Q with
  | Lt => lo * TICK_SPACING
  | Gt => (lo + 1) * TICK_SPACING
  | Eq => if Z.even lo then lo * TICK_SPACING else (lo + 1) * TICK_SPACING
  end.

(** [tickToPrice] : the price multiplier of a tick. *)
Definition tickToPrice (tick : Z) : Q :=
  (1 + inject_Z tick / inject_Z PRICE_SCALE)%Q.

Section WithConfig.
Variable cfg : Config.

(** [calculateFlipTick]; an absent [spreadTicks] is twice the half
    spread of the configured total spread. *)
Definition calculateFlipTick (tick : Z) (isBid : bool)
  (spreadTicks : option Z) : result Z :=
  let spread :=
    match spreadTicks with
    | Some s => s
    | None => calculateHalfSpreadTicks (TOTAL_SPREAD_BPS cfg) * 2
    end in
  let flipTick := if isBid then tick + spread else tick - spread in
  let flipTick := roundToSpacing (inject_Z flipTick) in
  let flipTick := clampTick flipTick in
  match assertFlipConstraints isBid tick flipTick with
  | Throw e => Throw e
  | Ok _ => Ok flipTick
  end.

End WithConfig.

End Ticks.

(** ** types.ts *)

Module Types.

Inductive OrderStatus : Type := open | filled | cancelled | unknown.

Record OrderInfo : Type := {
  orderId : Z;
  maker : string;
  baseToken : string;
  quoteToken : string;
  isBid : bool;
  isFlip : bool;
  tick : Z;
  flipTick : option Z;
  amount : Z;
  remainingAmount : Z;
  status : OrderStatus
}.

(** [bigint.toString()] : the decimal numeral. *)
Definition orderIdToString (orderId : Z) : string :=
  NilZero.string_of_int (Z.to_int orderId).

(** One reading of [BigInt(str)] on plain decimal numerals; [None] is the
    [SyntaxError].  The functions below take the conversion as an
    argument, so that nothing depends on how other strings are read. *)
Definition decimalBigInt (str : string) : option Z :=
  option_map Z.of_int (NilZero.int_of_string str).

End Types.

(** ** state.ts : the persisted record *)

Module StateSchema.
Import Config.

(** A [Date], seen through the getters the code calls.  An ISO time stamp
    string stored in the state is the [Date] it was printed from. *)
Record Date : Type := {
  getTime : Z;
  getFullYear : Z;
  getMonth : Z;
  getDate : Z
}.

Record PairState : Type := {
  base : TokenSymbol;
  quote : TokenSymbol;
  bidOrderId : option string;
  askOrderId : option string;
  lastBidTick : option Z;
  lastAskTick : option Z;
  lastBidFlipTick : option Z;
  lastAskFlipTick : option Z;
  pairUpdatedAt : Date
}.

Record TxCounters : Type := {
  dailyTxCount : Z;
  dailyResetAt : Date;
  hourlyCancelCount : Z;
  hourlyResetAt : Date
}.

Record EngineState : Type := {
  schemaVersion : Z;
  makerAddress : string;
  pairs : list PairState;
  lastProcessedBlock : Z;
  txCounters : TxCounters;
  createdAt : Date;
  updatedAt : Date
}.

Definition SCHEMA_VERSION : Z := 1.

(** Field assignments. *)
Definition set_bidOrderId (v : option string) (p : PairState) : PairState :=
  {| base := base p; quote := quote p;
     bidOrderId := v; askOrderId := askOrderId p;
     lastBidTick := lastBidTick p; lastAskTick := lastAskTick p;
     lastBidFlipTick := lastBidFlipTick p;
     lastAskFlipTick := lastAskFlipTick p;
     pairUpdatedAt := pairUpdatedAt p |}.

Definition set_askOrderId (v : option string) (p : PairState) : PairState :=
  {| base := base p; quote := quote p;
     bidOrderId := bidOrderId p; askOrderId := v;
     lastBidTick := lastBidTick p; lastAskTick := lastAskTick p;
     lastBidFlipTick := lastBidFlipTick p;
     lastAskFlipTick := lastAskFlipTick p;
     pairUpdatedAt := pairUpdatedAt p |}.

Definition set_lastBidTick (v : option Z) (p : PairState) : PairState :=
  {| base := base p; quote := quote p;
     bidOrderId := bidOrderId p; askOrderId := askOrderId p;
     lastBidTick := v; lastAskTick := lastAskTick p;
     lastBidFlipTick := lastBidFlipTick p;
     lastAskFlipTick := lastAskFlipTick p;
     pairUpdatedAt := pairUpdatedAt p |}.

Definition set_lastAskTick (v : option Z) (p : PairState) : PairState :=
  {| base := base p; quote := quote p;
     bidOrderId := bidOrderId p; askOrderId := askOrderId p;
     lastBidTick := lastBidTick p; lastAskTick := v;
     lastBidFlipTick := lastBidFlipTick p;
     lastAskFlipTick := lastAskFlipTick p;
     pairUpdatedAt := pairUpdatedAt p |}.

Definition set_lastBidFlipTick (v : option Z) (p : PairState) : PairState :=
  {| base := base p; quote := quote p;
     bidOrderId := bidOrderId p; askOrderId := askOrderId p;
     lastBidTick := lastBidTick p; lastAskTick := lastAskTick p;
     lastBidFlipTick := v;
     lastAskFlipTick := lastAskFlipTick p;
     pairUpdatedAt := pairUpdatedAt p |}.

Definition set_lastAskFlipTick (v : option Z) (p : PairState) : PairState :=
  {| base := base p; quote := quote p;
     bidOrderId := bidOrderId p; askOrderId := askOrderId p;
     lastBidTick := lastBidTick p; lastAskTick := lastAskTick p;
     lastBidFlipTick := lastBidFlipTick p;
     lastAskFlipTick := v;
     pairUpdatedAt := pairUpdatedAt p |}.

Definition set_pairUpdatedAt (v : Date) (p : PairState) : PairState :=
  {| base := base p; quote := quote p;
     bidOrderId := bidOrderId p; askOrderId := askOrderId p;
     lastBidTick := lastBidTick p; lastAskTick := lastAskTick p;
     lastBidFlipTick := lastBidFlipTick p;
     lastAskFlipTick := lastAskFlipTick p;
     pairUpdatedAt := v |}.

Definition set_pairs (v : list PairState) (s : EngineState) : EngineState :=
  {| schemaVersion := schemaVersion s; makerAddress := makerAddress s;
     pairs := v; lastProcessedBlock := lastProcessedBlock s;
     txCounters := txCounters s;
     createdAt := createdAt s; updatedAt := updatedAt s |}.

Definition set_txCounters (v : TxCounters) (s : EngineState) : EngineState :=
  {| schemaVersion := schemaVersion s; makerAddress := makerAddress s;
     pairs := pairs s; lastProcessedBlock := lastProcessedBlock s;
     txCounters := v;
     createdAt := createdAt s; updatedAt := updatedAt s |}.

Definition set_updatedAt (v : Date) (s : EngineState) : EngineState :=
  {| schemaVersion := schemaVersion s; makerAddress := makerAddress s;
     pairs := pairs s; lastProcessedBlock := lastProcessedBlock s;
     txCounters := txCounters s;
     createdAt := createdAt s; updatedAt := v |}.

Definition set_lastProcessedBlock (v : Z) (s : EngineState) : EngineState :=
  {| schemaVersion := schemaVersion s; makerAddress := makerAddress s;
     pairs := pairs s; lastProcessedBlock := v;
     txCounters := txCounters s;
     createdAt := createdAt s; updatedAt := updatedAt s |}.

(** What [state.json] holds: nothing; something [readFileSync],
    [JSON.parse] or a property access on the parsed value throws on; or a
    serialised [EngineState]. *)
Inductive FileContent : Type :=
| NoFile
| Unreadable
| Stored (s : EngineState).

End StateSchema.

(** ** The environment: disk, clock, chain *)

Module Runtime.
Import Config StateSchema.

(** What [client.dex.getOrder] answers. *)
Record RawOrder : Type := {
  raw_maker : string;
  raw_bookKey : string;
  raw_isBid : bool;
  raw_isFlip : bool;
  raw_tick : Z;
  raw_flipTick : Z;
  raw_amount : Z;
  raw_remaining : Z
}.

(** The argument of [placeFlipOrder]. *)
Record FlipOrderParams : Type := {
  fo_baseToken : TokenSymbol;
  fo_amount : Z;
  fo_isBid : bool;
  fo_tick : Z;
  fo_flipTick : Z
}.

(** What [client.dex.placeFlipSync] answers; an [orderId] may be absent. *)
Record PlaceReceipt : Type := {
  transactionHash : string;
  receiptOrderId : option Z
}.

Record World : Type := {
  disk : FileContent;
  diskWritable : bool;
  wallclock : nat -> Date;
  clockReads : nat;
  chain_getOrder : Z -> result (option RawOrder);
  chain_decimals : TokenSymbol -> result Z;
  chain_placeFlipSync : FlipOrderParams -> result PlaceReceipt;
  submitted : list FlipOrderParams
}.

Definition M (A : Type) : Type := World -> A * World.

Definition ret {A : Type} (a : A) : M A := fun w => (a, w).

Definition bind {A B : Type} (m : M A) (k : A -> M B) : M B :=
  fun w => let (a, w') := m w in k a w'.

Declare Scope monad_scope.
Delimit Scope monad_scope with monad.
Notation "'let!' x := m 'in' k" := (bind m (fun x => k))
  (at level 10, x pattern, m at level 100, k at level 200) : monad_scope.

(** [new Date()] : the next reading of the wall clock. *)
Definition new_Date : M Date :=
  fun w =>
    (wallclock w (clockReads w),
     {| disk := disk w; diskWritable := diskWritable w;
        wallclock := wallclock w; clockReads := S (clockReads w);
        chain_getOrder := chain_getOrder w;
        chain_decimals := chain_decimals w;
        chain_placeFlipSync := chain_placeFlipSync w;
        submitted := submitted w |}).

(** [Date.now()] *)
Definition Date_now : M Z :=
  (let! d := new_Date in ret (getTime d))%monad.

(** [fs.writeFileSync(STATE_FILE, JSON.stringify(state))]; [false] when
    the write throws. *)
Definition writeStateFile (s : EngineState) : M bool :=
  fun w =>
    if diskWritable w then
      (true,
       {| disk := Stored s; diskWritable := diskWritable w;
          wallclock := wallclock w; clockReads := clockReads w;
          chain_getOrder := chain_getOrder w;
          chain_decimals := chain_decimals w;
          chain_placeFlipSync := chain_placeFlipSync w;
          submitted := submitted w |})
    else (false, w).

(** [client.dex.placeFlipSync(...)] : the call is recorded, whatever it
    answers. *)
Definition client_placeFlipSync (p : FlipOrderParams)
  : M (result PlaceReceipt) :=
  fun w =>
    (chain_placeFlipSync w p,
     {| disk := disk w; diskWritable := diskWritable w;
        wallclock := wallclock w; clockReads := clockReads w;
        chain_getOrder := chain_getOrder w;
        chain_decimals := chain_decimals w;
        chain_placeFlipSync := chain_placeFlipSync w;
        submitted := submitted w ++ [p] |}).

Definition client_getOrder (orderId : Z) : M (result (option RawOrder)) :=
  fun w => (chain_getOrder w orderId, w).

Definition client_decimals (t : TokenSymbol) : M (result Z) :=
  fun w => (chain_decimals w t, w).

End Runtime.

(** ** dex.ts *)

Module Dex.
Import Config Types StateSchema Runtime.

Definition ZERO_ADDRESS : string :=
  "0x0000000000000000000000000000000000000000".

Definition PATH_USD_ADDRESS : string :=
  "0x20c0000000000000000000000000000000000000".

(** [String.prototype.includes] *)
Fixpoint includes (s sub : string) : bool :=
  if String.prefix sub s then true
  else match s with
       | EmptyString => false
       | String _ rest => includes rest sub
       end.

(** [a || b] on strings: the empty string is falsy. *)
Definition orElse (a b : string) : string :=
  match a with
  | EmptyString => b
  | _ => a
  end.

Definition getOrder (orderId : Z) : M (result (option OrderInfo)) :=
  (let! reply := client_getOrder orderId in
   match reply with
   | Ok order =>
       match order with
       | None => ret (Ok None)
       | Some order =>
           if String.eqb (raw_maker order) ZERO_ADDRESS then ret (Ok None)
           else
             ret (Ok (Some
               {| orderId := orderId;
                  maker := raw_maker order;
                  baseToken := raw_bookKey order;
                  quoteToken := PATH_USD_ADDRESS;
                  isBid := raw_isBid order;
                  isFlip := raw_isFlip order;
                  tick := raw_tick order;
                  flipTick := if raw_isFlip order
                              then Some (raw_flipTick order) else None;
                  amount := raw_amount order;
                  remainingAmount := raw_remaining order;
                  status := if raw_remaining order =? 0
                            then filled else open |}))
       end
   | Throw error =>
       match error with
       | ContractFunctionExecutionError errorName message details =>
           if match errorName with
              | Some n => String.eqb n "OrderDoesNotExist"
              | None => false
              end
           then ret (Ok None)
           else
             let errorMsg :=
               orElse message
                 (orElse (match details with
                          | Some d => d
                          | None => EmptyString
                          end)
                         EmptyString) in
             if includes errorMsg "OrderDoesNotExist" then ret (Ok None)
             else ret (Throw error)
       | _ => ret (Throw error)
       end
   end)%monad.

(** [placeFlipOrder] : [null] ([None]) when the submission throws. *)
Definition placeFlipOrder (params : FlipOrderParams)
  : M (option (Z * string)) :=
  (let! r := client_placeFlipSync params in
   match r with
   | Ok result =>
       let txHash := transactionHash result in
       let orderId := match receiptOrderId result with
                      | Some i => i
                      | None => 0
                      end in
       ret (Some (orderId, txHash))
   | Throw _ => ret None
   end)%monad.

End Dex.

(** ** state.ts *)

Module State.
Import Config Types StateSchema Runtime.
Local Open Scope monad_scope.

(** A remaining allowance: a number or [Infinity]. *)
Inductive Allowance : Type :=
| Finite (n : Z)
| Infinity.

Definition Allowance_pos (a : Allowance) : bool :=
  match a with
  | Finite n => n >? 0
  | Infinity => true
  end.

Record Budget : Type := {
  allowed : bool;
  dailyRemaining : Z;
  hourlyRemaining : Allowance
}.

Record Reconciled : Type := {
  bidValid : bool;
  askValid : bool;
  staleOrderIds : list string
}.

(** The optional fields of the [updates] argument of [updatePairOrders]:
    [None] is an absent ([undefined]) field. *)
Record PairUpdates : Type := {
  upd_bidOrderId : option (option string);
  upd_askOrderId : option (option string);
  upd_lastBidTick : option (option Z);
  upd_lastAskTick : option (option Z);
  upd_lastBidFlipTick : option (option Z);
  upd_lastAskFlipTick : option (option Z)
}.

(** [String.prototype.toLowerCase], on ASCII. *)
Definition lowerAscii (c : ascii) : ascii :=
  let n := nat_of_ascii c in
  if (65 <=? n)%nat && (n <=? 90)%nat then ascii_of_nat (n + 32) else c.

Fixpoint toLowerCase (s : string) : string :=
  match s with
  | EmptyString => EmptyString
  | String c rest => String (lowerAscii c) (toLowerCase rest)
  end.

(** Truthiness of a [string | null]: [null] and the empty string are
    falsy. *)
Definition truthy (v : option string) : option string :=
  match v with
  | Some EmptyString => None
  | Some s => Some s
  | None => None
  end.

Definition createDefaultState (makerAddress : string) : M EngineState :=
  let! now := new_Date in
  ret {| schemaVersion := SCHEMA_VERSION;
         makerAddress := makerAddress;
         pairs := [];
         lastProcessedBlock := 0;
         txCounters := {| dailyTxCount := 0;
                          dailyResetAt := now;
                          hourlyCancelCount := 0;
                          hourlyResetAt := now |};
         createdAt := now;
         updatedAt := now |}.

Definition createDefaultPairState (base quote : TokenSymbol) : M PairState :=
  let! now := new_Date in
  ret {| base := base;
         quote := quote;
         bidOrderId := None;
         askOrderId := None;
         lastBidTick := None;
         lastAskTick := None;
         lastBidFlipTick := None;
         lastAskFlipTick := None;
         pairUpdatedAt := now |}.

(** [saveState] stamps [updatedAt] on the state object, then writes the
    file; a failing write is logged and swallowed.  The stamped object is
    returned, being the caller's object. *)
Definition saveState (state : EngineState) : M EngineState :=
  let! now := new_Date in
  let state := set_updatedAt now state in
  let! _ := writeStateFile state in
  ret state.

Definition loadState (makerAddress : string) : M EngineState :=
  fun w =>
    match disk w with
    | NoFile =>
        (let! state := createDefaultState makerAddress in
         saveState state) w
    | Stored state =>
        if negb (schemaVersion state =? SCHEMA_VERSION) then
          (let! newState := createDefaultState makerAddress in
           saveState newState) w
        else if negb (String.eqb (toLowerCase (StateSchema.makerAddress state))
                                 (toLowerCase makerAddress)) then
          (let! newState := createDefaultState makerAddress in
           saveState newState) w
        else (state, w)
    | Unreadable =>
        (let! state := createDefaultState makerAddress in
         saveState state) w
    end.

(** [state.pairs.find(p => p.base === base && p.quote === quote)] : the
    first matching pair and where it sits in the array. *)
Fixpoint findPair (ps : list PairState) (base quote : TokenSymbol)
  : option (nat * PairState) :=
  match ps with
  | [] => None
  | p :: rest =>
      if TokenSymbol_eqb (StateSchema.base p) base
         && TokenSymbol_eqb (StateSchema.quote p) quote
      then Some (O, p)
      else match findPair rest base quote with
           | Some (i, q) => Some (S i, q)
           | None => None
           end
  end.

(** The pair object at position [i], and assignment through that
    reference. *)
Definition pairAt (state : EngineState) (i : nat) (dflt : PairState)
  : PairState :=
  nth i (pairs state) dflt.

Fixpoint replaceAt (i : nat) (p : PairState) (ps : list PairState)
  : list PairState :=
  match ps, i with
  | [], _ => []
  | _ :: rest, O => p :: rest
  | q :: rest, S j => q :: replaceAt j p rest
  end.

Definition assignPair (i : nat) (p : PairState) (state : EngineState)
  : EngineState :=
  set_pairs (replaceAt i p (pairs state)) state.

(** [getPairState] returns the pair object, where it sits in
    [state.pairs], and the state (a fresh pair is pushed and saved). *)
Definition getPairState (state : EngineState) (base quote : TokenSymbol)
  : M (PairState * nat * EngineState) :=
  match findPair (pairs state) base quote with
  | Some (i, pairState) => ret (pairState, i, state)
  | None =>
      let! pairState := createDefaultPairState base quote in
      let i := List.length (pairs state) in
      let state := set_pairs (pairs state ++ [pairState]) state in
      let! state := saveState state in
      ret (pairState, i, state)
  end.

Definition applyUpdate {A : Type} (u : option A)
  (set : A -> PairState -> PairState) (p : PairState) : PairState :=
  match u with
  | Some v => set v p
  | None => p
  end.

Definition updatePairOrders (state : EngineState) (base quote : TokenSymbol)
  (updates : PairUpdates) : M EngineState :=
  let! (pairState, i, state) := getPairState state base quote in
  let pairState := applyUpdate (upd_bidOrderId updates) set_bidOrderId pairState in
  let pairState := applyUpdate (upd_askOrderId updates) set_askOrderId pairState in
  let pairState := applyUpdate (upd_lastBidTick updates) set_lastBidTick pairState in
  let pairState := applyUpdate (upd_lastAskTick updates) set_lastAskTick pairState in
  let pairState := applyUpdate (upd_lastBidFlipTick updates) set_lastBidFlipTick pairState in
  let pairState := applyUpdate (upd_lastAskFlipTick updates) set_lastAskFlipTick pairState in
  let! now := new_Date in
  let pairState := set_pairUpdatedAt now pairState in
  saveState (assignPair i pairState state).

Definition differentCalendarDay (now resetDate : Date) : bool :=
  negb (getDate now =? getDate resetDate)
  || negb (getMonth now =? getMonth resetDate)
  || negb (getFullYear now =? getFullYear resetDate).

Definition hoursBetween (now resetDate : Date) : Q :=
  (inject_Z (getTime now - getTime resetDate)
   / inject_Z (1000 * 60 * 60))%Q.

Section WithConfig.
Variable cfg : Config.

Definition incrementTxCounter (state : EngineState) (isCancel : bool)
  : M (Budget * EngineState) :=
  let! now := new_Date in
  let dailyResetDate := dailyResetAt (txCounters state) in
  let state :=
    if differentCalendarDay now dailyResetDate then
      set_txCounters
        {| dailyTxCount := 0;
           dailyResetAt := now;
           hourlyCancelCount := hourlyCancelCount (txCounters state);
           hourlyResetAt := hourlyResetAt (txCounters state) |} state
    else state in
  let hourlyResetDate := hourlyResetAt (txCounters state) in
  let hoursDiff := hoursBetween now hourlyResetDate in
  let state :=
    if Qle_bool 1 hoursDiff then
      set_txCounters
        {| dailyTxCount := dailyTxCount (txCounters state);
           dailyResetAt := dailyResetAt (txCounters state);
           hourlyCancelCount := 0;
           hourlyResetAt := now |} state
    else state in
  let dailyRemaining :=
    MAX_TX_PER_DAY cfg - dailyTxCount (txCounters state) in
  let hourlyRemaining :=
    if isCancel
    then Finite (MAX_CANCELS_PER_HOUR cfg
                 - hourlyCancelCount (txCounters state))
    else Infinity in
  let allowed :=
    (dailyRemaining >? 0)
    && (if isCancel then Allowance_pos hourlyRemaining else true) in
  let! state :=
    if allowed then
      let state :=
        set_txCounters
          {| dailyTxCount := dailyTxCount (txCounters state) + 1;
             dailyResetAt := dailyResetAt (txCounters state);
             hourlyCancelCount :=
               if isCancel
               then hourlyCancelCount (txCounters state) + 1
               else hourlyCancelCount (txCounters state);
             hourlyResetAt := hourlyResetAt (txCounters state) |} state in
      saveState state
    else ret state in
  ret ({| allowed := allowed;
          dailyRemaining := Z.max 0 (dailyRemaining - 1);
          hourlyRemaining :=
            if isCancel
            then match hourlyRemaining with
                 | Finite h => Finite (Z.max 0 (h - 1))
                 | Infinity => Infinity
                 end
            else Infinity |},
       state).

Definition checkTxBudget (state : EngineState) (isCancel : bool)
  : M Budget :=
  let! now := new_Date in
  let dailyResetDate := dailyResetAt (txCounters state) in
  let dailyCount := dailyTxCount (txCounters state) in
  let dailyCount :=
    if differentCalendarDay now dailyResetDate then 0 else dailyCount in
  let hourlyResetDate := hourlyResetAt (txCounters state) in
  let hourlyCount := hourlyCancelCount (txCounters state) in
  let hoursDiff := hoursBetween now hourlyResetDate in
  let hourlyCount := if Qle_bool 1 hoursDiff then 0 else hourlyCount in
  let dailyRemaining := MAX_TX_PER_DAY cfg - dailyCount in
  let hourlyRemaining :=
    if isCancel
    then Finite (MAX_CANCELS_PER_HOUR cfg - hourlyCount)
    else Infinity in
  ret {| allowed :=
           (dailyRemaining >? 0)
           && (if isCancel then Allowance_pos hourlyRemaining else true);
         dailyRemaining := dailyRemaining;
         hourlyRemaining :=
           if isCancel then hourlyRemaining else Infinity |}.

End WithConfig.

Section WithBigInt.
(** [BigInt(str)]; [None] is the [SyntaxError] it throws. *)
Variable BigInt : string -> option Z.

Definition stringToOrderId (str : string) : result Z :=
  match BigInt str with
  | Some n => Ok n
  | None => Throw SyntaxError
  end.

(** The body of the [try] of one side: convert the id and look the
    order up.  Either step may throw. *)
Definition lookupStored (idCopy : string)
  : M (result (option OrderInfo)) :=
  match stringToOrderId idCopy with
  | Ok orderId => Dex.getOrder orderId
  | Throw e => ret (Throw e)
  end.

Definition stillActive (order : option OrderInfo) : bool :=
  match order with
  | Some order => remainingAmount order >? 0
  | None => false
  end.

Definition reconcileOrders (state : EngineState) (base quote : TokenSymbol)
  : M (Reconciled * EngineState) :=
  (* [pairState] is the object inside [state.pairs]: the assignments
     below reach the state at the write-back, before it is next read. *)
  let! (pairState, i, state) := getPairState state base quote in
  let staleOrderIds : list string := [] in
  let bidValid := false in
  let askValid := false in
  (* Check bid order *)
  let! (bidValid, staleOrderIds, pairState) :=
    match truthy (bidOrderId pairState) with
    | Some bidOrderIdCopy =>
        let! r := lookupStored bidOrderIdCopy in
        match r with
        | Ok order =>
            if stillActive order
            then ret (true, staleOrderIds, pairState)
            else ret (bidValid, staleOrderIds ++ [bidOrderIdCopy],
                      set_bidOrderId None pairState)
        | Throw _ =>
            ret (bidValid, staleOrderIds ++ [bidOrderIdCopy],
                 set_bidOrderId None pairState)
        end
    | None => ret (bidValid, staleOrderIds, pairState)
    end in
  (* Check ask order *)
  let! (askValid, staleOrderIds, pairState) :=
    match truthy (askOrderId pairState) with
    | Some askOrderIdCopy =>
        let! r := lookupStored askOrderIdCopy in
        match r with
        | Ok order =>
            if stillActive order
            then ret (true, staleOrderIds, pairState)
            else ret (askValid, staleOrderIds ++ [askOrderIdCopy],
                      set_askOrderId None pairState)
        | Throw _ =>
            ret (askValid, staleOrderIds ++ [askOrderIdCopy],
                 set_askOrderId None pairState)
        end
    | None => ret (askValid, staleOrderIds, pairState)
    end in
  let state := assignPair i pairState state in
  let! state :=
    if (0 <? Z.of_nat (List.length staleOrderIds))
    then saveState state
    else ret state in
  ret ({| bidValid := bidValid;
          askValid := askValid;
          staleOrderIds := staleOrderIds |},
       state).

(** What [fullReconcile] returns; [orphanedOrders] is always empty. *)
Record FullReconciled : Type := {
  foundBid : option OrderInfo;
  foundAsk : option OrderInfo;
  orphanedOrders : list OrderInfo
}.

Definition fullReconcile (state : EngineState) (base quote : TokenSymbol)
  : M (FullReconciled * EngineState) :=
  let! (pairState, i, state) := getPairState state base quote in
  let foundBid : option OrderInfo := None in
  let foundAsk : option OrderInfo := None in
  (* Check bid order via getOrder *)
  let! (foundBid, pairState) :=
    match truthy (bidOrderId pairState) with
    | Some bidOrderIdCopy =>
        let! r := lookupStored bidOrderIdCopy in
        match r with
        | Ok (Some order) =>
            if remainingAmount order >? 0 then
              ret (Some order,
                   set_lastBidFlipTick (flipTick order)
                     (set_lastBidTick (Some (tick order)) pairState))
            else
              ret (foundBid,
                   set_lastBidFlipTick None
                     (set_lastBidTick None
                        (set_bidOrderId None pairState)))
        | Ok None =>
            ret (foundBid,
                 set_lastBidFlipTick None
                   (set_lastBidTick None (set_bidOrderId None pairState)))
        | Throw _ =>
            ret (foundBid,
                 set_lastBidFlipTick None
                   (set_lastBidTick None (set_bidOrderId None pairState)))
        end
    | None => ret (foundBid, pairState)
    end in
  (* Check ask order via getOrder *)
  let! (foundAsk, pairState) :=
    match truthy (askOrderId pairState) with
    | Some askOrderIdCopy =>
        let! r := lookupStored askOrderIdCopy in
        match r with
        | Ok (Some order) =>
            if remainingAmount order >? 0 then
              ret (Some order,
                   set_lastAskFlipTick (flipTick order)
                     (set_lastAskTick (Some (tick order)) pairState))
            else
              ret (foundAsk,
                   set_lastAskFlipTick None
                     (set_lastAskTick None
                        (set_askOrderId None pairState)))
        | Ok None =>
            ret (foundAsk,
                 set_lastAskFlipTick None
                   (set_lastAskTick None (set_askOrderId None pairState)))
        | Throw _ =>
            ret (foundAsk,
                 set_lastAskFlipTick None
                   (set_lastAskTick None (set_askOrderId None pairState)))
        end
    | None => ret (foundAsk, pairState)
    end in
  let! now := new_Date in
  let pairState := set_pairUpdatedAt now pairState in
  let! state := saveState (assignPair i pairState state) in
  ret ({| foundBid := foundBid;
          foundAsk := foundAsk;
          orphanedOrders := [] |},
       state).

End WithBigInt.

Definition updateLastBlock (state : EngineState) (blockNumber : Z)
  : M EngineState :=
  if blockNumber >? lastProcessedBlock state then
    saveState (set_lastProcessedBlock blockNumber state)
  else ret state.

Definition clearPairState (state : EngineState) (base quote : TokenSymbol)
  : M EngineState :=
  let! (pairState, i, state) := getPairState state base quote in
  let pairState := set_bidOrderId None pairState in
  let pairState := set_askOrderId None pairState in
  let pairState := set_lastBidTick None pairState in
  let pairState := set_lastAskTick None pairState in
  let pairState := set_lastBidFlipTick None pairState in
  let pairState := set_lastAskFlipTick None pairState in
  let! now := new_Date in
  let pairState := set_pairUpdatedAt now pairState in
  saveState (assignPair i pairState state).

End State.

(** ** strategy.ts *)

Module Strategy.
Import Config Ticks StateSchema Runtime.
Local Open Scope monad_scope.

Record QuoteParams : Type := {
  qp_baseToken : TokenSymbol;
  qp_quoteToken : TokenSymbol;
  qp_bidTick : Z;
  qp_askTick : Z;
  qp_bidFlipTick : Z;
  qp_askFlipTick : Z;
  qp_orderSize : Z;
  qp_decimals : Z
}.

Section WithConfig.
Variable cfg : Config.

Definition getQuoteParams (baseToken quoteToken : TokenSymbol)
  : M (result QuoteParams) :=
  match calculateQuoteTicks (TOTAL_SPREAD_BPS cfg) with
  | Throw e => ret (Throw e)
  | Ok ticks =>
      let bidTick := bidTick ticks in
      let askTick := askTick ticks in
      let bidFlipTick := askTick in
      let askFlipTick := bidTick in
      match assertFlipConstraints true bidTick bidFlipTick with
      | Throw e => ret (Throw e)
      | Ok _ =>
          match assertFlipConstraints false askTick askFlipTick with
          | Throw e => ret (Throw e)
          | Ok _ =>
              let! decimals := client_decimals baseToken in
              match decimals with
              | Throw e => ret (Throw e)
              | Ok decimals =>
                  let orderSize :=
                    Qfloor (ORDER_SIZE_HUMAN cfg * Qpower 10 decimals)%Q in
                  ret (Ok {| qp_baseToken := baseToken;
                             qp_quoteToken := quoteToken;
                             qp_bidTick := bidTick;
                             qp_askTick := askTick;
                             qp_bidFlipTick := bidFlipTick;
                             qp_askFlipTick := askFlipTick;
                             qp_orderSize := orderSize;
                             qp_decimals := decimals |})
              end
          end
      end
  end.

End WithConfig.

Record InventoryState : Type := {
  inv_baseToken : TokenSymbol;
  inv_quoteToken : TokenSymbol;
  baseWallet : Z;
  baseDex : Z;
  quoteWallet : Z;
  quoteDex : Z;
  baseDecimals : Z;
  quoteDecimals : Z
}.

Record FlipBuffer : Type := {
  baseOk : bool;
  quoteOk : bool;
  baseMissing : Z;
  quoteMissing : Z
}.

Section WithBuffer.
(** [config.MIN_INTERNAL_BUFFER_HUMAN], as the number [parseFloat]
    reads from the configured string (['120'] as shipped). *)
Variable MIN_INTERNAL_BUFFER_HUMAN : Q.

Definition hasFlipBuffer (inventory : InventoryState) (orderSize : Z)
  : FlipBuffer :=
  let minBuffer :=
    Qfloor (MIN_INTERNAL_BUFFER_HUMAN
            * Qpower 10 (baseDecimals inventory))%Q in
  let requiredBase := orderSize + minBuffer in
  let requiredQuote := orderSize + minBuffer in
  let baseOk := baseDex inventory >=? requiredBase in
  let quoteOk := quoteDex inventory >=? requiredQuote in
  {| baseOk := baseOk;
     quoteOk := quoteOk;
     baseMissing :=
       if baseOk then 0 else requiredBase - baseDex inventory;
     quoteMissing :=
       if quoteOk then 0 else requiredQuote - quoteDex inventory |}.

End WithBuffer.

End Strategy.

(** ** engine.ts : the quoting step *)

Module Engine.
Import Config Types StateSchema Runtime State Strategy.
Local Open Scope monad_scope.

Inductive EngineStatus : Type :=
| IDLE | BOOTSTRAP | RUNNING | COOLDOWN | STOPPED.

Record EngineContext : Type := {
  status : EngineStatus;
  state : EngineState;
  ctxMakerAddress : string;
  lastQuoteTime : list (string * Z);
  stopRequested : bool
}.

Definition set_state (s : EngineState) (ctx : EngineContext)
  : EngineContext :=
  {| status := status ctx; state := s;
     ctxMakerAddress := ctxMakerAddress ctx;
     lastQuoteTime := lastQuoteTime ctx;
     stopRequested := stopRequested ctx |}.

Definition set_lastQuoteTime (m : list (string * Z)) (ctx : EngineContext)
  : EngineContext :=
  {| status := status ctx; state := state ctx;
     ctxMakerAddress := ctxMakerAddress ctx;
     lastQuoteTime := m;
     stopRequested := stopRequested ctx |}.

(** [Map.prototype.get] and [set] on the pair-keyed map. *)
Fixpoint Map_get (m : list (string * Z)) (key : string) : option Z :=
  match m with
  | [] => None
  | (k, v) :: rest => if String.eqb k key then Some v else Map_get rest key
  end.

Fixpoint Map_set (m : list (string * Z)) (key : string) (v : Z)
  : list (string * Z) :=
  match m with
  | [] => [(key, v)]
  | (k, v') :: rest =>
      if String.eqb k key then (k, v) :: rest
      else (k, v') :: Map_set rest key v
  end.

Definition pairKey (base quote : TokenSymbol) : string :=
  TokenSymbol_name base ++ "/" ++ TokenSymbol_name quote.

Record Placed : Type := {
  bidPlaced : bool;
  askPlaced : bool
}.

Section WithConfig.
Variable cfg : Config.

(** One side of [quotePair]: reserve budget, submit the flip order,
    record the new order.  The jitter sleep is dropped. *)
Definition placeSide (st : EngineState) (base quote : TokenSymbol)
  (order : FlipOrderParams) (updates : Z -> PairUpdates)
  : M (bool * EngineState) :=
  let! (budgetCheck, st) := incrementTxCounter cfg st false in
  if negb (allowed budgetCheck) then ret (false, st)
  else
    let! result := Dex.placeFlipOrder order in
    match result with
    | Some (orderId, txHash) =>
        let! st := updatePairOrders st base quote (updates orderId) in
        ret (true, st)
    | None => ret (false, st)
    end.

Definition quotePair (ctx : EngineContext) (base quote : TokenSymbol)
  : M (result Placed * EngineContext) :=
  let key := pairKey base quote in
  let! (pairState, i, st) := getPairState (state ctx) base quote in
  let ctx := set_state st ctx in
  (* Check cooldown *)
  let lastQuote := match Map_get (lastQuoteTime ctx) key with
                   | Some t => t
                   | None => 0
                   end in
  let! now := Date_now in
  let elapsed := now - lastQuote in
  if elapsed <? COOLDOWN_MS cfg then
    ret (Ok {| bidPlaced := false; askPlaced := false |}, ctx)
  else
    (* Check TX budget *)
    let! budget := checkTxBudget cfg (state ctx) false in
    if negb (allowed budget) then
      ret (Ok {| bidPlaced := false; askPlaced := false |}, ctx)
    else
      let! params := getQuoteParams cfg base quote in
      match params with
      | Throw e => ret (Throw e, ctx)
      | Ok params =>
          (* Place bid if needed *)
          let! (bidPlaced, st) :=
            match truthy (bidOrderId (pairAt (state ctx) i pairState)) with
            | None =>
                placeSide (state ctx) base quote
                  {| fo_baseToken := base;
                     fo_amount := qp_orderSize params;
                     fo_isBid := true;
                     fo_tick := qp_bidTick params;
                     fo_flipTick := qp_bidFlipTick params |}
                  (fun orderId =>
                     {| upd_bidOrderId := Some (Some (orderIdToString orderId));
                        upd_askOrderId := None;
                        upd_lastBidTick := Some (Some (qp_bidTick params));
                        upd_lastAskTick := None;
                        upd_lastBidFlipTick :=
                          Some (Some (qp_bidFlipTick params));
                        upd_lastAskFlipTick := None |})
            | Some _ => ret (false, state ctx)
            end in
          let ctx := set_state st ctx in
          (* Place ask if needed *)
          let! (askPlaced, st) :=
            match truthy (askOrderId (pairAt (state ctx) i pairState)) with
            | None =>
                placeSide (state ctx) base quote
                  {| fo_baseToken := base;
                     fo_amount := qp_orderSize params;
                     fo_isBid := false;
                     fo_tick := qp_askTick params;
                     fo_flipTick := qp_askFlipTick params |}
                  (fun orderId =>
                     {| upd_bidOrderId := None;
                        upd_askOrderId := Some (Some (orderIdToString orderId));
                        upd_lastBidTick := None;
                        upd_lastAskTick := Some (Some (qp_askTick params));
                        upd_lastBidFlipTick := None;
                        upd_lastAskFlipTick :=
                          Some (Some (qp_askFlipTick params)) |})
            | Some _ => ret (false, state ctx)
            end in
          let ctx := set_state st ctx in
          (* Update last quote time *)
          let! now := Date_now in
          let ctx :=
            set_lastQuoteTime (Map_set (lastQuoteTime ctx) key now) ctx in
          ret (Ok {| bidPlaced := bidPlaced; askPlaced := askPlaced |}, ctx)
      end.

End WithConfig.

Record Filled : Type := {
  bidFilled : bool;
  askFilled : bool
}.

Definition clearBid : PairUpdates :=
  {| upd_bidOrderId := Some None; upd_askOrderId := None;
     upd_lastBidTick := None; upd_lastAskTick := None;
     upd_lastBidFlipTick := None; upd_lastAskFlipTick := None |}.

Definition clearAsk : PairUpdates :=
  {| upd_bidOrderId := None; upd_askOrderId := Some None;
     upd_lastBidTick := None; upd_lastAskTick := None;
     upd_lastBidFlipTick := None; upd_lastAskFlipTick := None |}.

Section WithBigInt.
(** [BigInt(str)]; [None] is the [SyntaxError] it throws. *)
Variable BigInt : string -> option Z.

(** [!order || order.remainingAmount === 0n] *)
Definition goneOrFilled (order : option OrderInfo) : bool :=
  match order with
  | None => true
  | Some order => remainingAmount order =? 0
  end.

(** [checkOrderStatus] : fill detection of the running loop.  An error
    of the lookup is logged and nothing else happens. *)
Definition checkOrderStatus (ctx : EngineContext) (base quote : TokenSymbol)
  : M (Filled * EngineContext) :=
  let! (pairState, i, st) := getPairState (state ctx) base quote in
  let ctx := set_state st ctx in
  let bidFilled := false in
  let askFilled := false in
  (* Check bid order *)
  let! (bidFilled, st) :=
    match truthy (bidOrderId (pairAt (state ctx) i pairState)) with
    | Some id =>
        let! r := lookupStored BigInt id in
        match r with
        | Ok order =>
            if goneOrFilled order then
              let! st := updatePairOrders (state ctx) base quote clearBid in
              ret (true, st)
            else ret (bidFilled, state ctx)
        | Throw _ => ret (bidFilled, state ctx)
        end
    | None => ret (bidFilled, state ctx)
    end in
  let ctx := set_state st ctx in
  (* Check ask order *)
  let! (askFilled, st) :=
    match truthy (askOrderId (pairAt (state ctx) i pairState)) with
    | Some id =>
        let! r := lookupStored BigInt id in
        match r with
        | Ok order =>
            if goneOrFilled order then
              let! st := updatePairOrders (state ctx) base quote clearAsk in
              ret (true, st)
            else ret (askFilled, state ctx)
        | Throw _ => ret (askFilled, state ctx)
        end
    | None => ret (askFilled, state ctx)
    end in
  let ctx := set_state st ctx in
  ret ({| bidFilled := bidFilled; askFilled := askFilled |}, ctx).

End WithBigInt.

End Engine.

(** ** Sample inputs *)

Module Examples.
Import Config Types StateSchema Runtime Engine.
Local Open Scope string_scope.

(** 2026-01-15 12:00:00 UTC, exactly one hour later, one millisecond
    short of that, and noon of the next day. *)
Definition noon : Date :=
  {| getTime := 1768478400000; getFullYear := 2026; getMonth := 0;
     getDate := 15 |}.

Definition onePm : Date :=
  {| getTime := 1768478400000 + 3600000; getFullYear := 2026;
     getMonth := 0; getDate := 15 |}.

Definition justBeforeOnePm : Date :=
  {| getTime := 1768478400000 + 3599999; getFullYear := 2026;
     getMonth := 0; getDate := 15 |}.

Definition nextDayNoon : Date :=
  {| getTime := 1768478400000 + 86400000; getFullYear := 2026;
     getMonth := 0; getDate := 16 |}.

Definition makerA : string := "0xAbCd000000000000000000000000000000000001".
Definition makerA_lower : string :=
  "0xabcd000000000000000000000000000000000001".
Definition makerB : string := "0x00000000000000000000000000000000000000b2".

(** A pair quoting both sides: bid order 7, ask order 8. *)
Definition quotedPair : PairState :=
  {| base := AlphaUSD; quote := pathUSD;
     bidOrderId := Some "7"; askOrderId := Some "8";
     lastBidTick := Some (-50); lastAskTick := Some 50;
     lastBidFlipTick := Some 50; lastAskFlipTick := Some (-50);
     pairUpdatedAt := noon |}.

(** A state last reset at noon, with both budgets used up. *)
Definition spentState : EngineState :=
  {| schemaVersion := 1;
     makerAddress := makerA;
     pairs := [quotedPair];
     lastProcessedBlock := 1200;
     txCounters := {| dailyTxCount := 100; dailyResetAt := noon;
                      hourlyCancelCount := 10; hourlyResetAt := noon |};
     createdAt := noon;
     updatedAt := noon |}.

(** The same with daily budget left and the hourly cancels used up. *)
Definition cancelSpentState : EngineState :=
  {| schemaVersion := 1;
     makerAddress := makerA;
     pairs := [quotedPair];
     lastProcessedBlock := 1200;
     txCounters := {| dailyTxCount := 5; dailyResetAt := noon;
                      hourlyCancelCount := 10; hourlyResetAt := noon |};
     createdAt := noon;
     updatedAt := noon |}.

Definition oldSchemaState : EngineState :=
  {| schemaVersion := 0;
     makerAddress := makerA;
     pairs := [quotedPair];
     lastProcessedBlock := 1200;
     txCounters := txCounters spentState;
     createdAt := noon;
     updatedAt := noon |}.

Definition liveOrder (isBid : bool) (remaining : Z) : RawOrder :=
  {| raw_maker := makerA;
     raw_bookKey := "0x20c0000000000000000000000000000000000001";
     raw_isBid := isBid; raw_isFlip := true;
     raw_tick := if isBid then -50 else 50;
     raw_flipTick := if isBid then 50 else -50;
     raw_amount := 100000000; raw_remaining := remaining |}.

(** Chains: order 7 open with 60 left, every other order reverting with
    [OrderDoesNotExist]; order 8 open, order 7 filled to the last unit;
    an endpoint that times out. *)
Definition chainBidOpen (orderId : Z) : result (option RawOrder) :=
  if (orderId =? 7)%Z then Ok (Some (liveOrder true 60))
  else Throw (ContractFunctionExecutionError
                (Some "OrderDoesNotExist") "execution reverted" None).

Definition chainAskOpen (orderId : Z) : result (option RawOrder) :=
  if (orderId =? 8)%Z then Ok (Some (liveOrder false 60))
  else if (orderId =? 7)%Z then Ok (Some (liveOrder true 0))
  else Ok None.

Definition chainTimeout (orderId : Z) : result (option RawOrder) :=
  Throw (RpcError "request timed out").

Definition world (file : FileContent) (now : Date)
  (getOrder : Z -> result (option RawOrder)) : World :=
  {| disk := file; diskWritable := true;
     wallclock := fun _ => now; clockReads := 0;
     chain_getOrder := getOrder;
     chain_decimals := fun _ => Ok 6;
     chain_placeFlipSync :=
       fun _ => Ok {| transactionHash := "0x01"; receiptOrderId := Some 9 |};
     submitted := [] |}.

Definition worldAtOnePm : World := world NoFile onePm chainTimeout.
Definition worldBeforeOnePm : World :=
  world NoFile justBeforeOnePm chainTimeout.
Definition worldNextDay : World := world NoFile nextDayNoon chainTimeout.
Definition worldBidOpen : World := world NoFile onePm chainBidOpen.
Definition worldAskOpen : World := world NoFile onePm chainAskOpen.
Definition worldStored : World :=
  world (Stored spentState) onePm chainTimeout.
Definition worldOldSchema : World :=
  world (Stored oldSchemaState) onePm chainTimeout.

(** An engine context whose state has no pair yet and that never quoted. *)
Definition idleContext : EngineContext :=
  {| status := RUNNING;
     state := {| schemaVersion := 1;
                 makerAddress := makerA;
                 pairs := [];
                 lastProcessedBlock := 1200;
                 txCounters := txCounters cancelSpentState;
                 createdAt := noon;
                 updatedAt := noon |};
     ctxMakerAddress := makerA;
     lastQuoteTime := [];
     stopRequested := false |}.

End Examples.

(** ** One side of a reconciliation, read off the lookup *)

Module ReconcileOutcome.
Import Types StateSchema Runtime State.

(** What the check of one stored order id comes to in world [w]: the
    valid flag, the ids pushed on the stale list, and the id field
    afterwards.  Used to state what [reconcileOrders] returns. *)
Definition sideOutcome (BigInt : string -> option Z) (w : World)
  (stored : option string) : bool * list string * option string :=
  match truthy stored with
  | None => (false, [], stored)
  | Some idCopy =>
      match fst (lookupStored BigInt idCopy w) with
      | Ok order =>
          if stillActive order then (true, [], stored)
          else (false, [idCopy], None)
      | Throw _ => (false, [idCopy], None)
      end
  end.

End ReconcileOutcome.

(** ** Submissions of a computation *)

Module Submissions.
Import Runtime.

(** The flip constraint on a submitted order: a bid flips to a higher
    tick, an ask to a lower one. *)
Definition flipConstraintHolds (o : FlipOrderParams) : Prop :=
  if fo_isBid o then fo_tick o < fo_flipTick o
  else fo_flipTick o < fo_tick o.

(** Every order the computation [m] hands to [placeFlipSync] satisfies
    [ok]; earlier submissions are left as they are. *)
Definition submitsOnly {A : Type} (ok : FlipOrderParams -> Prop) (m : M A)
  : Prop :=
  forall w, exists l,
    submitted (snd (m w)) = submitted w ++ l /\ Forall ok l.

End Submissions.

(** ** tokens.ts : symbols and addresses *)

Module Tokens.
Import Config State.

(** [TOKENS] *)
Definition TOKENS (symbol : TokenSymbol) : string :=
  match symbol with
  | pathUSD => "0x20c0000000000000000000000000000000000000"
  | AlphaUSD => "0x20c0000000000000000000000000000000000001"
  | BetaUSD => "0x20c0000000000000000000000000000000000002"
  | ThetaUSD => "0x20c0000000000000000000000000000000000003"
  end.

(** [Object.entries(TOKENS)], in declaration order. *)
Definition TOKENS_entries : list (TokenSymbol * string) :=
  map (fun symbol => (symbol, TOKENS symbol))
      [pathUSD; AlphaUSD; BetaUSD; ThetaUSD].

(** [getTokenAddress]; every [TokenSymbol] has an address, so the
    unknown-symbol error cannot arise. *)
Definition getTokenAddress (symbol : TokenSymbol) : string := TOKENS symbol.

Fixpoint findSymbol (entries : list (TokenSymbol * string))
  (address : string) : option TokenSymbol :=
  match entries with
  | [] => None
  | (symbol, addr) :: rest =>
      if String.eqb (toLowerCase addr) (toLowerCase address)
      then Some symbol
      else findSymbol rest address
  end.

Definition getTokenSymbol (address : string) : option TokenSymbol :=
  findSymbol TOKENS_entries address.

End Tokens.

(** ** More sample inputs *)

Module MoreExamples.
Import Config Types StateSchema Runtime Engine Examples.

(** A running context over [cancelSpentState] (bid 7 and ask 8 stored)
    that last quoted the pair at noon. *)
Definition quotedContext : EngineContext :=
  {| status := RUNNING;
     state := cancelSpentState;
     ctxMakerAddress := makerA;
     lastQuoteTime := [(pairKey AlphaUSD pathUSD, getTime noon)];
     stopRequested := false |}.

(** 30 seconds past noon. *)
Definition halfPastNoon : Date :=
  {| getTime := 1768478400000 + 30000; getFullYear := 2026;
     getMonth := 0; getDate := 15 |}.

Definition worldInCooldown : World :=
  world NoFile halfPastNoon chainTimeout.

End MoreExamples.

(** * Properties *)

(** ** Tick calculator *)

Section TickFacts.
Import Config Ticks.

Lemma roundToSpacing_on_grid (x : Q) :
  Z.rem (roundToSpacing x) TICK_SPACING = 0.
Proof.
  unfold roundToSpacing. apply Z.rem_mul. discriminate.
Qed.

Lemma clampTick_bounds (t : Z) :
  TICK_BOUNDS_MIN <= clampTick t <= TICK_BOUNDS_MAX.
Proof.
  unfold clampTick, TICK_BOUNDS_MIN, TICK_BOUNDS_MAX. lia.
Qed.

Lemma clampTick_cases (t : Z) :
  (TICK_BOUNDS_MIN <= t <= TICK_BOUNDS_MAX /\ clampTick t = t)
  \/ (t < TICK_BOUNDS_MIN /\ clampTick t = TICK_BOUNDS_MIN)
  \/ (TICK_BOUNDS_MAX < t /\ clampTick t = TICK_BOUNDS_MAX).
Proof.
  unfold clampTick, TICK_BOUNDS_MIN, TICK_BOUNDS_MAX. lia.
Qed.

Lemma clampTick_on_grid (t : Z) :
  Z.rem t TICK_SPACING = 0 -> Z.rem (clampTick t) TICK_SPACING = 0.
Proof.
  intros H.
  destruct (clampTick_cases t) as [[_ ->] | [[_ ->] | [_ ->]]];
    [exact H | reflexivity | reflexivity].
Qed.

Lemma isValidTick_true (t : Z) :
  TICK_BOUNDS_MIN <= t <= TICK_BOUNDS_MAX ->
  Z.rem t TICK_SPACING = 0 ->
  isValidTick t = true.
Proof.
  intros [Hlo Hhi] Hrem. unfold isValidTick.
  replace (t <? TICK_BOUNDS_MIN) with false by (symmetry; apply Z.ltb_ge; exact Hlo).
  replace (t >? TICK_BOUNDS_MAX) with false
    by (symmetry; rewrite Z.gtb_ltb; apply Z.ltb_ge; exact Hhi).
  rewrite Hrem. reflexivity.
Qed.

Lemma neg_on_grid (h : Z) :
  Z.rem h TICK_SPACING = 0 -> Z.rem (0 - h) TICK_SPACING = 0.
Proof.
  intros H. replace (0 - h) with (- h) by lia.
  rewrite Z.rem_opp_l by discriminate. rewrite H. reflexivity.
Qed.

Lemma isValidTick_clamped (h : Z) :
  Z.rem h TICK_SPACING = 0 -> isValidTick (clampTick h) = true.
Proof.
  intros H. apply isValidTick_true.
  - apply clampTick_bounds.
  - apply clampTick_on_grid, H.
Qed.

(** The quote ticks, spelled out: the validity test always passes. *)
Lemma calculateQuoteTicks_eq (x : Q) :
  calculateQuoteTicks x =
  Ok {| bidTick := clampTick (0 - calculateHalfSpreadTicks x);
        askTick := clampTick (0 + calculateHalfSpreadTicks x);
        midTick := 0;
        halfSpreadTicks := calculateHalfSpreadTicks x |}.
Proof.
  unfold calculateQuoteTicks.
  rewrite !isValidTick_clamped; [reflexivity | | ].
  - apply roundToSpacing_on_grid.
  - apply neg_on_grid, roundToSpacing_on_grid.
Qed.

Lemma halfSpread_multiple (x : Q) :
  calculateHalfSpreadTicks x = Math_round (x / 2) * TICK_SPACING.
Proof.
  unfold calculateHalfSpreadTicks, roundToSpacing, bpsToTicks, Math_round.
  f_equal. apply Qfloor_comp.
  unfold TICKS_PER_BPS, TICK_SPACING. field.
Qed.

Lemma Math_round_ge_1 (y : Q) : (1 # 2 <= y)%Q -> 1 <= Math_round y.
Proof.
  intros H. unfold Math_round.
  apply Z.le_trans with (Qfloor (inject_Z 1)).
  - rewrite Qfloor_Z. apply Z.le_refl.
  - apply Qfloor_resp_le. change (inject_Z 1) with 1%Q. lra.
Qed.

Lemma Math_round_lt_1 (y : Q) : (y < 1 # 2)%Q -> Math_round y < 1.
Proof.
  intros H. unfold Math_round.
  destruct (Z_lt_le_dec (Qfloor (y + (1 # 2))) 1) as [Hlt | Hge]; [exact Hlt |].
  exfalso.
  assert (Hle : (inject_Z 1 <= y + (1 # 2))%Q).
  { apply Qle_trans with (inject_Z (Qfloor (y + (1 # 2)))).
    - rewrite <- Zle_Qle. exact Hge.
    - apply Qfloor_le. }
  change (inject_Z 1) with 1%Q in Hle. lra.
Qed.

Lemma halfSpread_ge_spacing (x : Q) :
  (1 <= x)%Q -> TICK_SPACING <= calculateHalfSpreadTicks x.
Proof.
  intros H. rewrite halfSpread_multiple.
  assert (1 <= Math_round (x / 2)).
  { apply Math_round_ge_1. unfold Qdiv. change (/ 2)%Q with (1 # 2)%Q. lra. }
  unfold TICK_SPACING. lia.
Qed.

End TickFacts.

Section TickClaims.
Import Config Ticks Runtime Strategy.

(** C1. With a total spread of 10 basis points (and the tick spacing of
    10), [calculateQuoteTicks] gives a half spread of 50 ticks, a bid at
    -50 and an ask at +50; [getQuoteParams], under the shipped
    configuration, then takes the ask tick +50 as the bid's flip tick and
    the bid tick -50 as the ask's flip tick, whatever token and chain it
    runs against (it fails only when reading the token decimals fails). *)
Theorem quote_ticks_for_ten_bps
  (baseToken quoteToken : TokenSymbol) (w : World) :
  TICK_SPACING = 10
  /\ calculateQuoteTicks 10 =
     Ok {| bidTick := -50; askTick := 50; midTick := 0;
           halfSpreadTicks := 50 |}
  /\ fst (getQuoteParams config baseToken quoteToken w) =
     match chain_decimals w baseToken with
     | Ok decimals =>
         Ok {| qp_baseToken := baseToken;
               qp_quoteToken := quoteToken;
               qp_bidTick := -50;
               qp_askTick := 50;
               qp_bidFlipTick := 50;
               qp_askFlipTick := -50;
               qp_orderSize := Qfloor (100 * Qpower 10 decimals)%Q;
               qp_decimals := decimals |}
     | Throw e => Throw e
     end.
Proof.
  split; [reflexivity |]. split; [reflexivity |].
  unfold getQuoteParams, bind, client_decimals, ret. cbn.
  destruct (chain_decimals w baseToken); reflexivity.
Qed.

(** C6. For every total spread of at least one basis point,
    [calculateQuoteTicks] returns ticks with [bidTick < 0 < askTick],
    both multiples of the tick spacing, both within
    [[MIN_TICK, MAX_TICK]].  The half spread it reports is half the input
    spread in ticks ([5 * totalSpreadBps]) rounded to the nearest
    multiple of 10, a tie going up, that is
    [10 * floor (totalSpreadBps / 2 + 1/2)]; [askTick - bidTick] is twice
    that number as long as it is within the bound, and otherwise both
    ticks sit on the clamped bounds. *)
Theorem quote_ticks_straddle_mid (totalSpreadBps : Q) :
  (1 <= totalSpreadBps)%Q ->
  exists ticks,
    calculateQuoteTicks totalSpreadBps = Ok ticks
    /\ halfSpreadTicks ticks = calculateHalfSpreadTicks totalSpreadBps
    /\ halfSpreadTicks ticks = 10 * Qfloor (totalSpreadBps / 2 + (1 # 2))
    /\ (inject_Z (halfSpreadTicks ticks) - 5 <= 5 * totalSpreadBps)%Q
    /\ (5 * totalSpreadBps < inject_Z (halfSpreadTicks ticks) + 5)%Q
    /\ bidTick ticks < 0 < askTick ticks
    /\ Z.rem (bidTick ticks) TICK_SPACING = 0
    /\ Z.rem (askTick ticks) TICK_SPACING = 0
    /\ TICK_BOUNDS_MIN <= bidTick ticks <= TICK_BOUNDS_MAX
    /\ TICK_BOUNDS_MIN <= askTick ticks <= TICK_BOUNDS_MAX
    /\ (halfSpreadTicks ticks <= TICK_BOUNDS_MAX ->
        askTick ticks - bidTick ticks = 2 * halfSpreadTicks ticks
        /\ askTick ticks - bidTick ticks
           = 2 * (10 * Qfloor (totalSpreadBps / 2 + (1 # 2))))
    /\ (TICK_BOUNDS_MAX < halfSpreadTicks ticks ->
        bidTick ticks = TICK_BOUNDS_MIN /\ askTick ticks = TICK_BOUNDS_MAX).
Proof.
  intros Hx. eexists. split; [apply calculateQuoteTicks_eq |].
  cbn [bidTick askTick halfSpreadTicks].
  pose proof (halfSpread_ge_spacing totalSpreadBps Hx) as Hh.
  pose proof (roundToSpacing_on_grid
                (bpsToTicks (totalSpreadBps / 2))) as Hgrid.
  fold (calculateHalfSpreadTicks totalSpreadBps) in Hgrid.
  assert (Hval : calculateHalfSpreadTicks totalSpreadBps
                 = 10 * Qfloor (totalSpreadBps / 2 + (1 # 2))).
  { rewrite halfSpread_multiple. unfold Math_round, TICK_SPACING. lia. }
  pose proof (Qfloor_le (totalSpreadBps / 2 + (1 # 2))) as Hlo.
  pose proof (Qlt_floor (totalSpreadBps / 2 + (1 # 2))) as Hhi.
  set (f := Qfloor (totalSpreadBps / 2 + (1 # 2))) in *.
  set (h := calculateHalfSpreadTicks totalSpreadBps) in *.
  split; [reflexivity |].
  split; [exact Hval |].
  split.
  { rewrite Hval, inject_Z_mult. change (inject_Z 10) with 10%Q.
    unfold Qdiv in Hlo. change (/ 2)%Q with (1 # 2)%Q in Hlo. lra. }
  split.
  { rewrite Hval, inject_Z_mult. change (inject_Z 10) with 10%Q.
    rewrite inject_Z_plus in Hhi. change (inject_Z 1) with 1%Q in Hhi.
    unfold Qdiv in Hhi. change (/ 2)%Q with (1 # 2)%Q in Hhi. lra. }
  split; [unfold clampTick, TICK_SPACING, TICK_BOUNDS_MIN, TICK_BOUNDS_MAX in *; lia |].
  split; [apply clampTick_on_grid, neg_on_grid, Hgrid |].
  split; [apply clampTick_on_grid, Hgrid |].
  split; [apply clampTick_bounds |].
  split; [apply clampTick_bounds |].
  unfold clampTick, TICK_SPACING, TICK_BOUNDS_MIN, TICK_BOUNDS_MAX in *.
  split; intros; lia.
Qed.

Lemma quote_ticks_straddle_mid_witness :
  exists ticks,
    calculateQuoteTicks 3 = Ok ticks
    /\ halfSpreadTicks ticks = calculateHalfSpreadTicks 3
    /\ halfSpreadTicks ticks = 10 * Qfloor (3 / 2 + (1 # 2))
    /\ (inject_Z (halfSpreadTicks ticks) - 5 <= 5 * 3)%Q
    /\ (5 * 3 < inject_Z (halfSpreadTicks ticks) + 5)%Q
    /\ bidTick ticks < 0 < askTick ticks
    /\ Z.rem (bidTick ticks) TICK_SPACING = 0
    /\ Z.rem (askTick ticks) TICK_SPACING = 0
    /\ TICK_BOUNDS_MIN <= bidTick ticks <= TICK_BOUNDS_MAX
    /\ TICK_BOUNDS_MIN <= askTick ticks <= TICK_BOUNDS_MAX
    /\ (halfSpreadTicks ticks <= TICK_BOUNDS_MAX ->
        askTick ticks - bidTick ticks = 2 * halfSpreadTicks ticks
        /\ askTick ticks - bidTick ticks
           = 2 * (10 * Qfloor (3 / 2 + (1 # 2))))
    /\ (TICK_BOUNDS_MAX < halfSpreadTicks ticks ->
        bidTick ticks = TICK_BOUNDS_MIN /\ askTick ticks = TICK_BOUNDS_MAX).
Proof.
  apply (quote_ticks_straddle_mid 3). vm_compute. discriminate.
Defined.

(** Below one basis point the half spread rounds to zero and both quotes
    collapse onto the mid tick. *)
Lemma quote_ticks_collapse_below_one_bps (totalSpreadBps : Q) :
  (0 <= totalSpreadBps)%Q -> (totalSpreadBps < 1)%Q ->
  calculateQuoteTicks totalSpreadBps =
  Ok {| bidTick := 0; askTick := 0; midTick := 0; halfSpreadTicks := 0 |}.
Proof.
  intros H0 H1. rewrite calculateQuoteTicks_eq, halfSpread_multiple.
  assert (Hr : Math_round (totalSpreadBps / 2) = 0).
  { assert (Math_round (totalSpreadBps / 2) < 1).
    { apply Math_round_lt_1. unfold Qdiv. change (/ 2)%Q with (1 # 2)%Q. lra. }
    assert (0 <= Math_round (totalSpreadBps / 2)).
    { unfold Math_round. apply Z.le_trans with (Qfloor (inject_Z 0)).
      - rewrite Qfloor_Z. apply Z.le_refl.
      - apply Qfloor_resp_le. change (inject_Z 0) with 0%Q.
        unfold Qdiv. change (/ 2)%Q with (1 # 2)%Q. lra. }
    lia. }
  rewrite Hr. reflexivity.
Qed.

(** C7. [roundToSpacing] rounds an exact tie upwards, not to the even
    multiple its documentation announces: 25 goes to 30 where
    round-half-to-even gives 20 (35 goes to 40 under both).  In general
    the midpoint above any multiple [10 k] goes to [10 k + 10], whether
    [k] is even or odd. *)
Theorem roundToSpacing_tie_goes_up :
  roundToSpacing 25 = 30
  /\ roundHalfEvenToSpacing 25 = 20
  /\ roundToSpacing 35 = 40
  /\ roundHalfEvenToSpacing 35 = 40
  /\ forall k : Z,
       roundToSpacing (inject_Z (TICK_SPACING * k + 5))
       = TICK_SPACING * k + TICK_SPACING.
Proof.
  repeat (split; [reflexivity |]).
  intros k. unfold roundToSpacing, Math_round, TICK_SPACING.
  assert (H : (inject_Z (10 * k + 5) / inject_Z 10 + (1 # 2)
               == inject_Z (k + 1))%Q).
  { rewrite !inject_Z_plus, inject_Z_mult.
    change (inject_Z 10) with 10%Q. change (inject_Z 5) with 5%Q.
    change (inject_Z 1) with 1%Q. field. }
  rewrite (Qfloor_comp _ _ H), Qfloor_Z. lia.
Qed.

(** C10. For every total spread, the ticks [calculateQuoteTicks] tests
    are valid, so it never takes its error branch: the rounded half
    spread is a multiple of the spacing 10, [clampTick] stays within
    -2000 and +2000, and these bounds are themselves multiples of the
    spacing. *)
Theorem calculateQuoteTicks_never_throws (totalSpreadBps : Q) :
  Z.rem (calculateHalfSpreadTicks totalSpreadBps) TICK_SPACING = 0
  /\ Z.rem TICK_BOUNDS_MIN TICK_SPACING = 0
  /\ Z.rem TICK_BOUNDS_MAX TICK_SPACING = 0
  /\ isValidTick (clampTick (0 - calculateHalfSpreadTicks totalSpreadBps))
     = true
  /\ isValidTick (clampTick (0 + calculateHalfSpreadTicks totalSpreadBps))
     = true
  /\ (exists ticks, calculateQuoteTicks totalSpreadBps = Ok ticks)
  /\ (forall e, calculateQuoteTicks totalSpreadBps <> Throw e).
Proof.
  pose proof (roundToSpacing_on_grid
                (bpsToTicks (totalSpreadBps / 2))) as Hgrid.
  fold (calculateHalfSpreadTicks totalSpreadBps) in Hgrid.
  split; [exact Hgrid |].
  split; [reflexivity |]. split; [reflexivity |].
  split; [apply isValidTick_clamped, neg_on_grid, Hgrid |].
  split; [apply isValidTick_clamped, Hgrid |].
  split.
  - eexists. apply calculateQuoteTicks_eq.
  - intros e. rewrite calculateQuoteTicks_eq. discriminate.
Qed.

End TickClaims.

(** ** Transaction budget *)

Section BudgetFacts.
Import Config StateSchema Runtime State.

Lemma hour_elapsed_iff (now resetDate : Date) :
  Qle_bool 1 (hoursBetween now resetDate)
  = (3600000 <=? getTime now - getTime resetDate).
Proof.
  unfold hoursBetween, Qle_bool, Qdiv, Qmult, Qinv, inject_Z.
  cbn [Qnum Qden].
  change (1000 * 60 * 60) with 3600000.
  cbn [Qnum Qden Pos.mul].
  f_equal; lia.
Qed.

Lemma sameCalendarDay (now resetDate : Date) :
  getDate now = getDate resetDate ->
  getMonth now = getMonth resetDate ->
  getFullYear now = getFullYear resetDate ->
  differentCalendarDay now resetDate = false.
Proof.
  intros H1 H2 H3. unfold differentCalendarDay.
  rewrite H1, H2, H3, !Z.eqb_refl. reflexivity.
Qed.

Lemma otherCalendarDay (now resetDate : Date) :
  getDate now <> getDate resetDate
  \/ getMonth now <> getMonth resetDate
  \/ getFullYear now <> getFullYear resetDate ->
  differentCalendarDay now resetDate = true.
Proof.
  unfold differentCalendarDay.
  intros [H | [H | H]]; apply Z.eqb_neq in H; rewrite H; cbn;
    rewrite ?orb_true_r; reflexivity.
Qed.

End BudgetFacts.

Section BudgetClaims.
Import Config StateSchema Runtime State.

(** C3. With the shipped limit of 100 transactions a day: when
    [dailyResetAt] is on the current calendar day and [dailyTxCount] is
    100, [incrementTxCounter(state, false)] answers [allowed = false],
    leaves [dailyTxCount] at 100 and does not write the state file; when
    [dailyResetAt] is on another calendar day (day, month or year
    differs), the count is first reset to 0 and stamped with the current
    time, and the allowance is checked against that: the call behaves as
    on the reset state, is allowed and leaves the count at 1. *)
Theorem incrementTxCounter_daily_window (st : EngineState) (w : World) :
  let now := wallclock w (clockReads w) in
  let resetDate := dailyResetAt (txCounters st) in
  let out := incrementTxCounter config st false w in
  MAX_TX_PER_DAY config = 100
  /\ (getDate now = getDate resetDate ->
      getMonth now = getMonth resetDate ->
      getFullYear now = getFullYear resetDate ->
      dailyTxCount (txCounters st) = 100 ->
      allowed (fst (fst out)) = false
      /\ dailyTxCount (txCounters (snd (fst out))) = 100
      /\ disk (snd out) = disk w)
  /\ (getDate now <> getDate resetDate
      \/ getMonth now <> getMonth resetDate
      \/ getFullYear now <> getFullYear resetDate ->
      out = incrementTxCounter config
              (set_txCounters
                 {| dailyTxCount := 0;
                    dailyResetAt := now;
                    hourlyCancelCount := hourlyCancelCount (txCounters st);
                    hourlyResetAt := hourlyResetAt (txCounters st) |} st)
              false w
      /\ allowed (fst (fst out)) = true
      /\ dailyRemaining (fst (fst out)) = 99
      /\ dailyTxCount (txCounters (snd (fst out))) = 1
      /\ dailyResetAt (txCounters (snd (fst out))) = now).
Proof.
  intros now resetDate out.
  split; [reflexivity |]. split.
  - intros Hd Hm Hy Hcount.
    subst out. unfold incrementTxCounter, bind, new_Date, ret.
    cbn [fst snd wallclock clockReads].
    fold now. fold resetDate.
    rewrite (sameCalendarDay now resetDate Hd Hm Hy).
    destruct (Qle_bool 1 (hoursBetween now (hourlyResetAt (txCounters st))));
      cbn [txCounters set_txCounters dailyTxCount MAX_TX_PER_DAY config];
      rewrite Hcount; cbn; auto.
  - intros Hdiff.
    subst out. unfold incrementTxCounter, bind, new_Date, ret.
    cbn [fst snd wallclock clockReads].
    fold now. fold resetDate.
    rewrite (otherCalendarDay now resetDate Hdiff).
    cbn [txCounters set_txCounters dailyTxCount dailyResetAt
         hourlyResetAt hourlyCancelCount].
    rewrite (sameCalendarDay now now eq_refl eq_refl eq_refl).
    cbn [txCounters set_txCounters dailyTxCount dailyResetAt
         hourlyResetAt hourlyCancelCount].
    split; [reflexivity |].
    destruct (Qle_bool 1 (hoursBetween now (hourlyResetAt (txCounters st))));
      cbn; destruct (diskWritable w); cbn; auto.
Qed.

End BudgetClaims.

Section BudgetWitnesses.
Import Config StateSchema Runtime State Examples.

Lemma incrementTxCounter_daily_window_witness :
  (allowed (fst (fst (incrementTxCounter config spentState false
                        worldAtOnePm))) = false
   /\ dailyTxCount
        (txCounters (snd (fst (incrementTxCounter config spentState false
                                 worldAtOnePm)))) = 100
   /\ disk (snd (incrementTxCounter config spentState false worldAtOnePm))
      = disk worldAtOnePm)
  /\ (allowed (fst (fst (incrementTxCounter config spentState false
                           worldNextDay))) = true
      /\ dailyTxCount
           (txCounters (snd (fst (incrementTxCounter config spentState false
                                    worldNextDay)))) = 1).
Proof.
  split.
  - apply (proj1 (proj2 (incrementTxCounter_daily_window
                           spentState worldAtOnePm)));
      reflexivity.
  - destruct (proj2 (proj2 (incrementTxCounter_daily_window
                              spentState worldNextDay)))
      as (_ & Hallowed & _ & Hcount & _).
    + left. vm_compute. discriminate.
    + split; [exact Hallowed | exact Hcount].
Defined.

End BudgetWitnesses.

Section HourlyWindow.
Import Config StateSchema Runtime State Examples.

(** C9, as the code has it.  The hourly cancel counter is reset (counted
    as 0) exactly when at least 60 minutes (3,600,000 ms) have elapsed
    since [hourlyResetAt]; when less than 60 minutes have elapsed the
    stored [hourlyCancelCount] is in force, in [checkTxBudget] and in
    [incrementTxCounter] alike. *)
Theorem hourly_window_resets_from_sixty_minutes
  (st : EngineState) (isCancel : bool) (w : World) :
  let now := wallclock w (clockReads w) in
  let elapsed := getTime now - getTime (hourlyResetAt (txCounters st)) in
  let stored := hourlyCancelCount (txCounters st) in
  let checked := fst (checkTxBudget config st true w) in
  let out := incrementTxCounter config st isCancel w in
  let granted := isCancel && allowed (fst (fst out)) in
  (3600000 <= elapsed ->
   hourlyRemaining checked = Finite (MAX_CANCELS_PER_HOUR config - 0)
   /\ (isCancel = true ->
       hourlyRemaining (fst (fst out))
       = Finite (Z.max 0 (MAX_CANCELS_PER_HOUR config - 0 - 1)))
   /\ hourlyResetAt (txCounters (snd (fst out))) = now
   /\ hourlyCancelCount (txCounters (snd (fst out)))
      = if granted then 0 + 1 else 0)
  /\ (elapsed < 3600000 ->
      hourlyRemaining checked = Finite (MAX_CANCELS_PER_HOUR config - stored)
      /\ (isCancel = true ->
          hourlyRemaining (fst (fst out))
          = Finite (Z.max 0 (MAX_CANCELS_PER_HOUR config - stored - 1)))
      /\ hourlyResetAt (txCounters (snd (fst out)))
         = hourlyResetAt (txCounters st)
      /\ hourlyCancelCount (txCounters (snd (fst out)))
         = if granted then stored + 1 else stored).
Proof.
  intros now elapsed stored checked out granted.
  assert (Hinc :
    hourlyResetAt (txCounters
      (if differentCalendarDay now (dailyResetAt (txCounters st))
       then set_txCounters
              {| dailyTxCount := 0;
                 dailyResetAt := now;
                 hourlyCancelCount := hourlyCancelCount (txCounters st);
                 hourlyResetAt := hourlyResetAt (txCounters st) |} st
       else st)) = hourlyResetAt (txCounters st)
    /\ hourlyCancelCount (txCounters
      (if differentCalendarDay now (dailyResetAt (txCounters st))
       then set_txCounters
              {| dailyTxCount := 0;
                 dailyResetAt := now;
                 hourlyCancelCount := hourlyCancelCount (txCounters st);
                 hourlyResetAt := hourlyResetAt (txCounters st) |} st
       else st)) = stored).
  { destruct (differentCalendarDay now (dailyResetAt (txCounters st)));
      split; reflexivity. }
  destruct Hinc as [Hreset Hcount].
  subst granted out checked.
  unfold checkTxBudget, incrementTxCounter, bind, new_Date, ret.
  cbn [fst snd wallclock clockReads]. fold now.
  set (st1 := if differentCalendarDay now (dailyResetAt (txCounters st))
              then _ else st) in *.
  rewrite Hreset. rewrite !hour_elapsed_iff. fold elapsed.
  split; intros He;
    [apply Z.leb_le in He | apply Z.leb_gt in He]; rewrite He;
    cbn [txCounters set_txCounters hourlyCancelCount hourlyResetAt
         dailyTxCount dailyResetAt];
    rewrite ?Hcount;
    (split; [reflexivity |]);
    destruct isCancel;
    destruct (MAX_TX_PER_DAY config - dailyTxCount (txCounters st1) >? 0);
    cbn [andb Allowance_pos];
    try destruct (MAX_CANCELS_PER_HOUR config - stored >? 0);
    unfold saveState, bind, new_Date, writeStateFile, ret;
    cbn [fst snd wallclock clockReads diskWritable];
    destruct (diskWritable w);
    cbn [fst snd allowed hourlyRemaining txCounters set_txCounters
         set_updatedAt hourlyCancelCount hourlyResetAt andb];
    rewrite ?Hreset, ?Hcount;
    (split; [intros H; first [reflexivity | discriminate H]
            | split; reflexivity]).
Qed.

Lemma hourly_window_resets_from_sixty_minutes_witness :
  (hourlyRemaining (fst (checkTxBudget config cancelSpentState true
                           worldAtOnePm)) = Finite 10
   /\ hourlyResetAt
        (txCounters (snd (fst (incrementTxCounter config cancelSpentState
                                 true worldAtOnePm)))) = onePm)
  /\ (hourlyRemaining (fst (checkTxBudget config cancelSpentState true
                              worldBeforeOnePm)) = Finite 0
      /\ hourlyResetAt
           (txCounters (snd (fst (incrementTxCounter config cancelSpentState
                                    true worldBeforeOnePm)))) = noon).
Proof.
  split.
  - destruct (proj1 (hourly_window_resets_from_sixty_minutes
                       cancelSpentState true worldAtOnePm))
      as (H1 & _ & H2 & _).
    + vm_compute. discriminate.
    + split; [exact H1 | exact H2].
  - destruct (proj2 (hourly_window_resets_from_sixty_minutes
                       cancelSpentState true worldBeforeOnePm))
      as (H1 & _ & H2 & _).
    + vm_compute. reflexivity.
    + split; [exact H1 | exact H2].
Defined.

(** C9 as stated fails at exactly 60 minutes: with ten cancels on the
    counter and the reset stamp exactly 3,600,000 ms old, the stored
    count is not in force any more.  [checkTxBudget] reports the full
    allowance of 10 and allows a cancel, and [incrementTxCounter] grants
    it and restarts the count at 1. *)
Lemma hourly_counter_already_reset_at_sixty_minutes :
  getTime onePm - getTime (hourlyResetAt (txCounters cancelSpentState))
  = 60 * 60 * 1000
  /\ hourlyCancelCount (txCounters cancelSpentState)
     = MAX_CANCELS_PER_HOUR config
  /\ fst (checkTxBudget config cancelSpentState true
            worldAtOnePm)
     = {| allowed := true; dailyRemaining := 95;
          hourlyRemaining := Finite 10 |}
  /\ allowed (fst (fst (incrementTxCounter config cancelSpentState true
                          worldAtOnePm))) = true
  /\ hourlyCancelCount
       (txCounters
          (snd (fst (incrementTxCounter config cancelSpentState true
                       worldAtOnePm)))) = 1.
Proof. repeat split; reflexivity. Qed.

End HourlyWindow.

(** ** State store *)

Section LoadState.
Import Config StateSchema Runtime State Examples.

(** What [createDefaultState] followed by [saveState] leaves in memory:
    created at the first clock reading, stamped at the second. *)
Lemma create_and_save (makerAddress : string) (w : World) :
  let created := wallclock w (clockReads w) in
  let saved := wallclock w (S (clockReads w)) in
  let fresh :=
    {| schemaVersion := SCHEMA_VERSION;
       makerAddress := makerAddress;
       pairs := [];
       lastProcessedBlock := 0;
       txCounters := {| dailyTxCount := 0; dailyResetAt := created;
                        hourlyCancelCount := 0; hourlyResetAt := created |};
       createdAt := created;
       updatedAt := saved |} in
  let out := (let! state := createDefaultState makerAddress in
              saveState state)%monad w in
  fst out = fresh
  /\ disk (snd out) = if diskWritable w then Stored fresh else disk w.
Proof.
  unfold createDefaultState, saveState, bind, new_Date, writeStateFile, ret.
  cbn [fst snd wallclock clockReads diskWritable disk].
  destruct (diskWritable w); split; reflexivity.
Qed.

(** C8. [loadState] returns the stored state exactly when the file holds
    one whose [schemaVersion] is the expected version and whose
    [makerAddress] equals the given address up to letter case, and then
    leaves the file alone.  In every other case (no file, unreadable or
    unparseable content, another version, another maker) it returns a
    fresh default state for the given address, with no pairs and both
    counters at zero, and this state is what the file holds afterwards
    when the write succeeds. *)
Theorem loadState_stored_or_fresh (makerAddress : string) (w : World) :
  let created := wallclock w (clockReads w) in
  let saved := wallclock w (S (clockReads w)) in
  let fresh :=
    {| schemaVersion := SCHEMA_VERSION;
       makerAddress := makerAddress;
       pairs := [];
       lastProcessedBlock := 0;
       txCounters := {| dailyTxCount := 0; dailyResetAt := created;
                        hourlyCancelCount := 0; hourlyResetAt := created |};
       createdAt := created;
       updatedAt := saved |} in
  let out := loadState makerAddress w in
  let freshly :=
    fst out = fresh
    /\ disk (snd out) = (if diskWritable w then Stored fresh else disk w) in
  let matches (s : EngineState) :=
    schemaVersion s = SCHEMA_VERSION
    /\ toLowerCase (StateSchema.makerAddress s) = toLowerCase makerAddress in
  (disk w = NoFile \/ disk w = Unreadable -> freshly)
  /\ (forall s, disk w = Stored s ->
      (matches s -> fst out = s /\ snd out = w)
      /\ (~ matches s -> freshly)
      /\ (fst out = s <-> matches s)).
Proof.
  intros created saved fresh out freshly matches.
  pose proof (create_and_save makerAddress w) as Hfresh.
  cbv zeta in Hfresh. fold created saved fresh in Hfresh.
  subst freshly.
  set (after := if diskWritable w then Stored fresh else disk w) in *.
  clearbody after.
  split.
  - intros [H | H]; subst out; unfold loadState; rewrite H;
      exact Hfresh.
  - intros s Hs. subst out matches. unfold loadState. rewrite Hs.
    destruct (schemaVersion s =? SCHEMA_VERSION) eqn:Hv; cbn [negb].
    + apply Z.eqb_eq in Hv.
      destruct (String.eqb (toLowerCase (StateSchema.makerAddress s))
                           (toLowerCase makerAddress)) eqn:Ha; cbn [negb].
      * apply String.eqb_eq in Ha. cbn [fst snd].
        split; [auto |]. split; [intros Hn; exfalso; apply Hn; auto |].
        split; auto.
      * apply String.eqb_neq in Ha.
        split; [intros [_ Hm]; contradiction |].
        split; [intros _; exact Hfresh |].
        destruct Hfresh as [-> _]. split.
        -- intros <-. exfalso. apply Ha. reflexivity.
        -- intros [_ Hm]. contradiction.
    + apply Z.eqb_neq in Hv.
      split; [intros [Hm _]; contradiction |].
      split; [intros _; exact Hfresh |].
      destruct Hfresh as [-> _]. split.
      * intros <-. exfalso. apply Hv. reflexivity.
      * intros [Hm _]. contradiction.
Qed.

Lemma loadState_stored_or_fresh_witness :
  (* the maker matches up to letter case: the stored state comes back *)
  fst (loadState makerA_lower worldStored) = spentState
  (* another schema version: a fresh state, written to the file *)
  /\ pairs (fst (loadState makerA worldOldSchema)) = []
  /\ disk (snd (loadState makerA worldOldSchema))
     = Stored (fst (loadState makerA worldOldSchema))
  (* no file: a fresh state *)
  /\ dailyTxCount (txCounters (fst (loadState makerB worldAtOnePm))) = 0.
Proof.
  split; [| split; [| split]].
  - apply (proj2 (loadState_stored_or_fresh makerA_lower worldStored)
             spentState eq_refl).
    split; reflexivity.
  - destruct (proj1 (proj2 (proj2 (loadState_stored_or_fresh makerA
                                     worldOldSchema)
                              oldSchemaState eq_refl)))
      as [H _].
    + intros [Hv _]. discriminate Hv.
    + rewrite H. reflexivity.
  - destruct (proj1 (proj2 (proj2 (loadState_stored_or_fresh makerA
                                     worldOldSchema)
                              oldSchemaState eq_refl)))
      as [H1 H2].
    + intros [Hv _]. discriminate Hv.
    + rewrite H2, H1. reflexivity.
  - destruct (proj1 (loadState_stored_or_fresh makerB worldAtOnePm))
      as [H _].
    + left. reflexivity.
    + rewrite H. reflexivity.
Defined.

End LoadState.

(** ** Reconciliation *)

Section ReconcileFacts.
Import Config Types StateSchema Runtime State ReconcileOutcome.

Variable BigInt : string -> option Z.

Lemma getOrder_world (n : Z) (w : World) : snd (Dex.getOrder n w) = w.
Proof.
  unfold Dex.getOrder, bind, client_getOrder, ret.
  destruct (chain_getOrder w n) as [[o |] | e]; try reflexivity.
  - destruct (String.eqb (raw_maker o) Dex.ZERO_ADDRESS); reflexivity.
  - destruct e; try reflexivity.
    destruct errorName as [name |];
      [destruct (String.eqb name "OrderDoesNotExist") |];
      try reflexivity;
      match goal with
      | |- context [Dex.includes ?a ?b] => destruct (Dex.includes a b)
      end; reflexivity.
Qed.

Lemma lookupStored_world (idCopy : string) (w : World) :
  snd (lookupStored BigInt idCopy w) = w.
Proof.
  unfold lookupStored, stringToOrderId.
  destruct (BigInt idCopy); [apply getOrder_world | reflexivity].
Qed.

Lemma lookupStored_pair (idCopy : string) (w : World) :
  exists r, lookupStored BigInt idCopy w = (r, w)
            /\ fst (lookupStored BigInt idCopy w) = r.
Proof.
  pose proof (lookupStored_world idCopy w) as H.
  destruct (lookupStored BigInt idCopy w) as [r w'].
  cbn in H. subst w'. exists r. split; reflexivity.
Qed.

Lemma findPair_replaceAt (ps : list PairState) (b q : TokenSymbol)
  (i : nat) (p p' : PairState) :
  findPair ps b q = Some (i, p) ->
  base p' = base p -> quote p' = quote p ->
  findPair (replaceAt i p' ps) b q = Some (i, p').
Proof.
  intros Hfind Hb Hq. revert i Hfind.
  induction ps as [| p0 rest IH]; intros i Hfind; [discriminate |].
  cbn [findPair] in Hfind.
  destruct (TokenSymbol_eqb (base p0) b && TokenSymbol_eqb (quote p0) q)
    eqn:Hhead.
  - injection Hfind as <- <-. cbn [replaceAt findPair].
    rewrite Hb, Hq, Hhead. reflexivity.
  - destruct (findPair rest b q) as [[j r] |] eqn:Hrest; [| discriminate].
    injection Hfind as <- <-. cbn [replaceAt findPair].
    rewrite Hhead, (IH j eq_refl). reflexivity.
Qed.

(** What [reconcileOrders] returns for a pair the state already has. *)
Lemma reconcileOrders_found (st : EngineState) (b q : TokenSymbol)
  (w : World) (i : nat) (p : PairState) :
  findPair (pairs st) b q = Some (i, p) ->
  let out := reconcileOrders BigInt st b q w in
  let '(bv, sb, idb) := sideOutcome BigInt w (bidOrderId p) in
  let '(av, sa, ida) := sideOutcome BigInt w (askOrderId p) in
  fst (fst out)
  = {| bidValid := bv; askValid := av; staleOrderIds := sb ++ sa |}
  /\ findPair (pairs (snd (fst out))) b q
     = Some (i, set_askOrderId ida (set_bidOrderId idb p)).
Proof.
  intros Hfind out. subst out.
  unfold reconcileOrders, getPairState, sideOutcome.
  rewrite Hfind. unfold bind at 1. unfold ret at 1.
  assert (Hid : set_askOrderId (askOrderId p) (set_bidOrderId (bidOrderId p) p) = p)
    by (destruct p; reflexivity).
  assert (Hidb : forall ida, set_askOrderId ida p
                 = set_askOrderId ida (set_bidOrderId (bidOrderId p) p))
    by (destruct p; reflexivity).
  assert (Hida : forall idb, set_bidOrderId idb p
                 = set_askOrderId (askOrderId p) (set_bidOrderId idb p))
    by (destruct p; reflexivity).
  unfold bind, ret.
  destruct (truthy (bidOrderId p)) as [bidCopy |];
    [ destruct (lookupStored_pair bidCopy w) as (rb & Eb & Fb);
      rewrite Fb, Eb;
      destruct rb as [ob | eb]; [destruct (stillActive ob) |] | ];
    cbn [askOrderId set_bidOrderId];
    (destruct (truthy (askOrderId p)) as [askCopy |];
     [ destruct (lookupStored_pair askCopy w) as (ra & Ea & Fa);
       rewrite Fa, Ea;
       destruct ra as [oa | ea]; [destruct (stillActive oa) |] | ]).
  all: cbn [List.length app Z.of_nat Z.ltb Z.compare Pos.of_succ_nat].
  all: unfold saveState, bind, new_Date, writeStateFile, ret, assignPair.
  all: cbn [fst snd diskWritable]; try destruct (diskWritable w).
  all: cbn [fst snd pairs set_pairs set_updatedAt bidValid askValid
            staleOrderIds app].
  all: (split; [reflexivity |]).
  all: rewrite ?Hid, <- ?Hidb, <- ?Hida.
  all: apply findPair_replaceAt with (p := p); auto.
Qed.

End ReconcileFacts.

Section ReconcileClaims.
Import Config Types StateSchema Runtime State ReconcileOutcome Examples.
Local Open Scope string_scope.

Lemma sideOutcome_eval (BigInt : string -> option Z) (w : World)
  (id : string) (n : Z) :
  id <> EmptyString -> BigInt id = Some n ->
  sideOutcome BigInt w (Some id)
  = match fst (Dex.getOrder n w) with
    | Ok order =>
        if stillActive order then (true, [], Some id)
        else (false, [id], None)
    | Throw _ => (false, [id], None)
    end.
Proof.
  intros Hne Hn. destruct id as [| c rest]; [contradiction |].
  unfold sideOutcome, truthy, lookupStored, stringToOrderId.
  rewrite Hn. reflexivity.
Qed.

(** [getOrder] answers "not found" for a failed lookup only when the
    failure is the contract's [OrderDoesNotExist] revert; every other
    error is thrown again as it came. *)
Lemma getOrder_not_found_or_rethrow (n : Z) (w : World) (e : Error) :
  chain_getOrder w n = Throw e ->
  (fst (Dex.getOrder n w) = Ok None
   /\ exists name msg det,
        e = ContractFunctionExecutionError name msg det
        /\ (name = Some "OrderDoesNotExist"
            \/ Dex.includes
                 (Dex.orElse msg
                    (Dex.orElse (match det with
                                 | Some d => d
                                 | None => EmptyString
                                 end)
                                EmptyString))
                 "OrderDoesNotExist" = true))
  \/ fst (Dex.getOrder n w) = Throw e.
Proof.
  intros H. unfold Dex.getOrder, bind, client_getOrder, ret. rewrite H.
  destruct e as [ | | name msg det | | ]; try (right; reflexivity).
  destruct name as [name |].
  - destruct (String.eqb name "OrderDoesNotExist") eqn:E.
    + apply String.eqb_eq in E. subst name. left. split; [reflexivity |].
      do 3 eexists. split; [reflexivity | left; reflexivity].
    + destruct (Dex.includes _ "OrderDoesNotExist") eqn:I.
      * left. split; [reflexivity |].
        do 3 eexists. split; [reflexivity | right; exact I].
      * right. reflexivity.
  - destruct (Dex.includes _ "OrderDoesNotExist") eqn:I.
    + left. split; [reflexivity |].
      do 3 eexists. split; [reflexivity | right; exact I].
    + right. reflexivity.
Qed.

(** C4. Take a pair of the state with a stored order id that denotes an
    order.  If the chain reports that order as not existing, or with
    nothing remaining, [reconcileOrders] sets the id field to null and
    lists the id as stale; if the chain reports it with a remaining
    quantity above zero, the field keeps its id and the side's valid flag
    is true.  This holds for the bid and for the ask side. *)
Theorem reconcileOrders_clears_gone_keeps_live
  (BigInt : string -> option Z) (st : EngineState) (b q : TokenSymbol)
  (w : World) (i : nat) (p : PairState) :
  findPair (pairs st) b q = Some (i, p) ->
  let out := reconcileOrders BigInt st b q w in
  let res := fst (fst out) in
  exists p',
    findPair (pairs (snd (fst out))) b q = Some (i, p')
    /\ (forall id n,
        bidOrderId p = Some id -> id <> EmptyString -> BigInt id = Some n ->
        let found := fst (Dex.getOrder n w) in
        ((found = Ok None
          \/ exists o, found = Ok (Some o) /\ remainingAmount o = 0) ->
         bidOrderId p' = None /\ In id (staleOrderIds res))
        /\ ((exists o, found = Ok (Some o) /\ 0 < remainingAmount o) ->
            bidOrderId p' = Some id /\ bidValid res = true))
    /\ (forall id n,
        askOrderId p = Some id -> id <> EmptyString -> BigInt id = Some n ->
        let found := fst (Dex.getOrder n w) in
        ((found = Ok None
          \/ exists o, found = Ok (Some o) /\ remainingAmount o = 0) ->
         askOrderId p' = None /\ In id (staleOrderIds res))
        /\ ((exists o, found = Ok (Some o) /\ 0 < remainingAmount o) ->
            askOrderId p' = Some id /\ askValid res = true)).
Proof.
  intros Hfind out res.
  pose proof (reconcileOrders_found BigInt st b q w i p Hfind) as H.
  cbv zeta in H. fold out in H.
  destruct (sideOutcome BigInt w (bidOrderId p)) as [[bv sb] idb] eqn:Eb.
  destruct (sideOutcome BigInt w (askOrderId p)) as [[av sa] ida] eqn:Ea.
  destruct H as [Hres Hpair]. fold res in Hres.
  exists (set_askOrderId ida (set_bidOrderId idb p)).
  split; [exact Hpair |]. rewrite Hres.
  cbn [bidOrderId askOrderId set_askOrderId set_bidOrderId
       staleOrderIds bidValid askValid].
  split; intros id n Hid Hne Hn.
  - rewrite Hid, (sideOutcome_eval BigInt w id n Hne Hn) in Eb.
    split.
    + intros [Hgone | (o & Ho & Hzero)].
      * rewrite Hgone in Eb. cbn in Eb. injection Eb as _ <- <-.
        split; [reflexivity | apply in_or_app; left; left; reflexivity].
      * rewrite Ho in Eb. cbn [stillActive] in Eb. rewrite Hzero in Eb.
        cbn in Eb. injection Eb as _ <- <-.
        split; [reflexivity | apply in_or_app; left; left; reflexivity].
    + intros (o & Ho & Hpos). rewrite Ho in Eb. cbn [stillActive] in Eb.
      replace (remainingAmount o >? 0) with true in Eb
        by (symmetry; apply Z.gtb_lt; exact Hpos).
      injection Eb as <- _ <-. split; reflexivity.
  - rewrite Hid, (sideOutcome_eval BigInt w id n Hne Hn) in Ea.
    split.
    + intros [Hgone | (o & Ho & Hzero)].
      * rewrite Hgone in Ea. cbn in Ea. injection Ea as _ <- <-.
        split; [reflexivity | apply in_or_app; right; left; reflexivity].
      * rewrite Ho in Ea. cbn [stillActive] in Ea. rewrite Hzero in Ea.
        cbn in Ea. injection Ea as _ <- <-.
        split; [reflexivity | apply in_or_app; right; left; reflexivity].
    + intros (o & Ho & Hpos). rewrite Ho in Ea. cbn [stillActive] in Ea.
      replace (remainingAmount o >? 0) with true in Ea
        by (symmetry; apply Z.gtb_lt; exact Hpos).
      injection Ea as <- _ <-. split; reflexivity.
Qed.

(** C2, what the code does.  A transport error of the order lookup is
    thrown again by [getOrder], but [reconcileOrders] catches it: it
    returns normally, with the stored id cleared and listed as stale, on
    the bid and on the ask side alike. *)
Theorem reconcileOrders_swallows_lookup_error
  (BigInt : string -> option Z) (st : EngineState) (b q : TokenSymbol)
  (w : World) (i : nat) (p : PairState) :
  findPair (pairs st) b q = Some (i, p) ->
  let out := reconcileOrders BigInt st b q w in
  let res := fst (fst out) in
  exists p',
    findPair (pairs (snd (fst out))) b q = Some (i, p')
    /\ (forall id n msg,
        bidOrderId p = Some id -> id <> EmptyString -> BigInt id = Some n ->
        chain_getOrder w n = Throw (RpcError msg) ->
        fst (Dex.getOrder n w) = Throw (RpcError msg)
        /\ bidOrderId p' = None
        /\ In id (staleOrderIds res)
        /\ bidValid res = false)
    /\ (forall id n msg,
        askOrderId p = Some id -> id <> EmptyString -> BigInt id = Some n ->
        chain_getOrder w n = Throw (RpcError msg) ->
        fst (Dex.getOrder n w) = Throw (RpcError msg)
        /\ askOrderId p' = None
        /\ In id (staleOrderIds res)
        /\ askValid res = false).
Proof.
  intros Hfind out res.
  pose proof (reconcileOrders_found BigInt st b q w i p Hfind) as H.
  cbv zeta in H. fold out in H.
  destruct (sideOutcome BigInt w (bidOrderId p)) as [[bv sb] idb] eqn:Eb.
  destruct (sideOutcome BigInt w (askOrderId p)) as [[av sa] ida] eqn:Ea.
  destruct H as [Hres Hpair]. fold res in Hres.
  exists (set_askOrderId ida (set_bidOrderId idb p)).
  split; [exact Hpair |]. rewrite Hres.
  cbn [bidOrderId askOrderId set_askOrderId set_bidOrderId
       staleOrderIds bidValid askValid].
  assert (Hthrow : forall n msg,
            chain_getOrder w n = Throw (RpcError msg) ->
            fst (Dex.getOrder n w) = Throw (RpcError msg)).
  { intros n msg Hc. unfold Dex.getOrder, bind, client_getOrder, ret.
    rewrite Hc. reflexivity. }
  split; intros id n msg Hid Hne Hn Hc;
    (split; [apply Hthrow, Hc |]).
  - rewrite Hid, (sideOutcome_eval BigInt w id n Hne Hn),
      (Hthrow n msg Hc) in Eb.
    injection Eb as <- <- <-.
    repeat split; try reflexivity.
    apply in_or_app; left; left; reflexivity.
  - rewrite Hid, (sideOutcome_eval BigInt w id n Hne Hn),
      (Hthrow n msg Hc) in Ea.
    injection Ea as <- <- <-.
    repeat split; try reflexivity.
    apply in_or_app; right; left; reflexivity.
Qed.

End ReconcileClaims.

Section ReconcileWitnesses.
Import Config Types StateSchema Runtime State Examples.
Local Open Scope string_scope.

Lemma reconcileOrders_clears_gone_keeps_live_witness :
  (* order 7 open, order 8 reverts with OrderDoesNotExist *)
  (exists p',
      findPair (pairs (snd (fst (reconcileOrders decimalBigInt spentState
                                   AlphaUSD pathUSD worldBidOpen))))
               AlphaUSD pathUSD = Some (O, p')
      /\ bidOrderId p' = Some "7"
      /\ bidValid (fst (fst (reconcileOrders decimalBigInt spentState
                               AlphaUSD pathUSD worldBidOpen))) = true
      /\ askOrderId p' = None
      /\ In "8" (staleOrderIds
                   (fst (fst (reconcileOrders decimalBigInt spentState
                                AlphaUSD pathUSD worldBidOpen)))))
  (* order 7 with nothing remaining, order 8 open *)
  /\ (exists p',
      findPair (pairs (snd (fst (reconcileOrders decimalBigInt spentState
                                   AlphaUSD pathUSD worldAskOpen))))
               AlphaUSD pathUSD = Some (O, p')
      /\ bidOrderId p' = None
      /\ In "7" (staleOrderIds
                   (fst (fst (reconcileOrders decimalBigInt spentState
                                AlphaUSD pathUSD worldAskOpen))))
      /\ askOrderId p' = Some "8"
      /\ askValid (fst (fst (reconcileOrders decimalBigInt spentState
                               AlphaUSD pathUSD worldAskOpen))) = true).
Proof.
  split.
  - destruct (reconcileOrders_clears_gone_keeps_live
                decimalBigInt spentState AlphaUSD pathUSD
                worldBidOpen O quotedPair eq_refl)
      as (p' & Hp & Hbid & Hask).
    exists p'. split; [exact Hp |].
    destruct (Hbid "7" 7 eq_refl ltac:(discriminate) eq_refl) as [_ Hlive].
    destruct (Hask "8" 8 eq_refl ltac:(discriminate) eq_refl) as [Hgone _].
    destruct Hlive as [H1 H2].
    { eexists. split; reflexivity. }
    destruct Hgone as [H3 H4].
    { left. reflexivity. }
    repeat split; assumption.
  - destruct (reconcileOrders_clears_gone_keeps_live
                decimalBigInt spentState AlphaUSD pathUSD
                worldAskOpen O quotedPair eq_refl)
      as (p' & Hp & Hbid & Hask).
    exists p'. split; [exact Hp |].
    destruct (Hbid "7" 7 eq_refl ltac:(discriminate) eq_refl) as [Hgone _].
    destruct (Hask "8" 8 eq_refl ltac:(discriminate) eq_refl) as [_ Hlive].
    destruct Hgone as [H1 H2].
    { right. eexists. split; reflexivity. }
    destruct Hlive as [H3 H4].
    { eexists. split; reflexivity. }
    repeat split; assumption.
Defined.

Lemma reconcileOrders_swallows_lookup_error_witness :
  exists p',
    findPair (pairs (snd (fst (reconcileOrders decimalBigInt spentState
                                 AlphaUSD pathUSD worldAtOnePm))))
             AlphaUSD pathUSD = Some (O, p')
    /\ fst (Dex.getOrder 7 worldAtOnePm)
       = Throw (RpcError "request timed out")
    /\ bidOrderId p' = None
    /\ In "7" (staleOrderIds
                 (fst (fst (reconcileOrders decimalBigInt spentState
                              AlphaUSD pathUSD worldAtOnePm))))
    /\ bidValid (fst (fst (reconcileOrders decimalBigInt spentState
                             AlphaUSD pathUSD worldAtOnePm))) = false.
Proof.
  destruct (reconcileOrders_swallows_lookup_error
              decimalBigInt spentState AlphaUSD pathUSD
              worldAtOnePm O quotedPair eq_refl)
    as (p' & Hp & Hbid & _).
  exists p'. split; [exact Hp |].
  exact (Hbid "7" 7 "request timed out" eq_refl ltac:(discriminate)
           eq_refl eq_refl).
Defined.

End ReconcileWitnesses.

(** ** Flip constraints and submission *)

Section SubmissionFacts.
Import Config Ticks Types StateSchema Runtime State Strategy Engine.
Import Submissions.

Variable ok : FlipOrderParams -> Prop.

Lemma submitsOnly_silent {A : Type} (m : M A) :
  (forall w, submitted (snd (m w)) = submitted w) -> submitsOnly ok m.
Proof.
  intros H w. exists []. rewrite H, app_nil_r. split; [reflexivity | constructor].
Qed.

Lemma submitsOnly_ret {A : Type} (a : A) : submitsOnly ok (ret a).
Proof. apply submitsOnly_silent. reflexivity. Qed.

Lemma submitsOnly_bind_post {A B : Type} (Q : A -> Prop)
  (m : M A) (k : A -> M B) :
  (forall w, Q (fst (m w))) ->
  submitsOnly ok m ->
  (forall a, Q a -> submitsOnly ok (k a)) ->
  submitsOnly ok (bind m k).
Proof.
  intros HQ Hm Hk w. unfold bind.
  specialize (HQ w). destruct (Hm w) as (l1 & E1 & F1).
  destruct (m w) as [a w1]. cbn [fst snd] in *.
  destruct (Hk a HQ w1) as (l2 & E2 & F2).
  exists (l1 ++ l2). rewrite E2, E1, app_assoc.
  split; [reflexivity | apply Forall_app; split; assumption].
Qed.

Lemma submitsOnly_bind {A B : Type} (m : M A) (k : A -> M B) :
  submitsOnly ok m ->
  (forall a, submitsOnly ok (k a)) ->
  submitsOnly ok (bind m k).
Proof.
  intros Hm Hk.
  apply submitsOnly_bind_post with (Q := fun _ => True); auto.
Qed.

Lemma submitsOnly_new_Date : submitsOnly ok new_Date.
Proof. apply submitsOnly_silent. reflexivity. Qed.

Lemma submitsOnly_writeStateFile (s : EngineState) :
  submitsOnly ok (writeStateFile s).
Proof.
  apply submitsOnly_silent. intros w. unfold writeStateFile.
  destruct (diskWritable w); reflexivity.
Qed.

Lemma submitsOnly_client_decimals (t : TokenSymbol) :
  submitsOnly ok (client_decimals t).
Proof. apply submitsOnly_silent. reflexivity. Qed.

Create HintDb submits.

#[local] Hint Resolve submitsOnly_ret submitsOnly_new_Date
  submitsOnly_writeStateFile submitsOnly_client_decimals : submits.

Ltac submits :=
  repeat first
    [ solve [auto with submits]
    | apply submitsOnly_bind; [| intros]
    | match goal with
      | |- submitsOnly _ (let (_, _) := ?x in _) => destruct x
      | |- submitsOnly _ (if ?c then _ else _) => destruct c
      | |- submitsOnly _ (match ?x with _ => _ end) => destruct x
      end ].

Lemma submitsOnly_Date_now : submitsOnly ok Date_now.
Proof. unfold Date_now. submits. Qed.

Lemma submitsOnly_saveState (s : EngineState) : submitsOnly ok (saveState s).
Proof. unfold saveState. submits. Qed.

#[local] Hint Resolve submitsOnly_Date_now submitsOnly_saveState : submits.

Lemma submitsOnly_getPairState (s : EngineState) (b q : TokenSymbol) :
  submitsOnly ok (getPairState s b q).
Proof. unfold getPairState, createDefaultPairState. submits. Qed.

#[local] Hint Resolve submitsOnly_getPairState : submits.

Lemma submitsOnly_updatePairOrders (s : EngineState) (b q : TokenSymbol)
  (u : PairUpdates) :
  submitsOnly ok (updatePairOrders s b q u).
Proof. unfold updatePairOrders. submits. Qed.

Lemma submitsOnly_incrementTxCounter (cfg : Config) (s : EngineState)
  (isCancel : bool) :
  submitsOnly ok (incrementTxCounter cfg s isCancel).
Proof. unfold incrementTxCounter. submits. Qed.

Lemma submitsOnly_checkTxBudget (cfg : Config) (s : EngineState)
  (isCancel : bool) :
  submitsOnly ok (checkTxBudget cfg s isCancel).
Proof. unfold checkTxBudget. submits. Qed.

Lemma submitsOnly_getQuoteParams (cfg : Config) (b q : TokenSymbol) :
  submitsOnly ok (getQuoteParams cfg b q).
Proof. unfold getQuoteParams. submits. Qed.

Lemma submitsOnly_placeFlipOrder (o : FlipOrderParams) :
  ok o -> submitsOnly ok (Dex.placeFlipOrder o).
Proof.
  intros Ho w. exists [o].
  unfold Dex.placeFlipOrder, bind, client_placeFlipSync, ret.
  destruct (chain_placeFlipSync w o); cbn [snd submitted];
    (split; [reflexivity | repeat constructor; exact Ho]).
Qed.

#[local] Hint Resolve submitsOnly_updatePairOrders submitsOnly_incrementTxCounter
  submitsOnly_checkTxBudget submitsOnly_getQuoteParams
  submitsOnly_placeFlipOrder : submits.

Lemma submitsOnly_placeSide (cfg : Config) (s : EngineState)
  (b q : TokenSymbol) (o : FlipOrderParams) (u : Z -> PairUpdates) :
  ok o -> submitsOnly ok (placeSide cfg s b q o u).
Proof. intros Ho. unfold placeSide. submits. Qed.

End SubmissionFacts.

Section FlipClaims.
Import Config Ticks Types StateSchema Runtime State Strategy Engine.
Import Submissions Examples.

Lemma assertFlipConstraints_bid (tick flipTick : Z) :
  (exists e, assertFlipConstraints true tick flipTick = Throw e)
  <-> flipTick <= tick.
Proof.
  unfold assertFlipConstraints.
  destruct (flipTick <=? tick) eqn:E.
  - apply Z.leb_le in E. split; [intros _; exact E | intros _; eexists; reflexivity].
  - apply Z.leb_gt in E. split; [intros [e He]; discriminate He | lia].
Qed.

Lemma assertFlipConstraints_ask (tick flipTick : Z) :
  (exists e, assertFlipConstraints false tick flipTick = Throw e)
  <-> flipTick >= tick.
Proof.
  unfold assertFlipConstraints.
  destruct (flipTick >=? tick) eqn:E.
  - apply Z.geb_le in E. split; [intros _; lia | intros _; eexists; reflexivity].
  - rewrite Z.geb_leb in E. apply Z.leb_gt in E.
    split; [intros [e He]; discriminate He | lia].
Qed.

(** Parameters come out of [getQuoteParams] only past both checks. *)
Lemma getQuoteParams_checked (cfg : Config) (b q : TokenSymbol) (w : World) :
  match fst (getQuoteParams cfg b q w) with
  | Ok p =>
      qp_bidTick p < qp_bidFlipTick p /\ qp_askFlipTick p < qp_askTick p
  | Throw _ => True
  end.
Proof.
  unfold getQuoteParams.
  destruct (calculateQuoteTicks (TOTAL_SPREAD_BPS cfg)) as [t | e];
    [| exact I].
  destruct (assertFlipConstraints true (bidTick t) (askTick t)) eqn:Eb;
    [| exact I].
  destruct (assertFlipConstraints false (askTick t) (bidTick t)) eqn:Ea;
    [| exact I].
  unfold bind, client_decimals, ret.
  destruct (chain_decimals w b); [| exact I].
  cbn [fst qp_bidTick qp_bidFlipTick qp_askFlipTick qp_askTick].
  unfold assertFlipConstraints in Eb.
  destruct (askTick t <=? bidTick t) eqn:E; [discriminate Eb |].
  apply Z.leb_gt in E. split; exact E.
Qed.

Lemma quotePair_submits_checked (cfg : Config) (ctx : EngineContext)
  (b q : TokenSymbol) :
  submitsOnly flipConstraintHolds (quotePair cfg ctx b q).
Proof.
  unfold quotePair.
  apply submitsOnly_bind; [apply submitsOnly_getPairState |].
  intros [[pairState i] st].
  apply submitsOnly_bind; [apply submitsOnly_Date_now |]. intros now.
  match goal with
  | |- submitsOnly _ (if ?c then _ else _) => destruct c
  end; [apply submitsOnly_ret |].
  apply submitsOnly_bind; [apply submitsOnly_checkTxBudget |]. intros budget.
  destruct (negb (allowed budget)); [apply submitsOnly_ret |].
  apply submitsOnly_bind_post with
    (Q := fun r => match r with
                   | Ok p => qp_bidTick p < qp_bidFlipTick p
                             /\ qp_askFlipTick p < qp_askTick p
                   | Throw _ => True
                   end).
  - intros w. apply getQuoteParams_checked.
  - apply submitsOnly_getQuoteParams.
  - intros [p | e] Hp; [| apply submitsOnly_ret].
    destruct Hp as [Hbid Hask].
    apply submitsOnly_bind.
    { match goal with
      | |- submitsOnly _ (match ?x with _ => _ end) => destruct x
      end; [apply submitsOnly_ret |].
      apply submitsOnly_placeSide. exact Hbid. }
    intros [bidPlaced st1].
    apply submitsOnly_bind.
    { match goal with
      | |- submitsOnly _ (match ?x with _ => _ end) => destruct x
      end; [apply submitsOnly_ret |].
      apply submitsOnly_placeSide. exact Hask. }
    intros [askPlaced st2].
    apply submitsOnly_bind; [apply submitsOnly_Date_now |]. intros now2.
    apply submitsOnly_ret.
Qed.

(** C5. [assertFlipConstraints(true, tick, flipTick)] throws exactly when
    [flipTick <= tick], and [assertFlipConstraints(false, tick, flipTick)]
    exactly when [flipTick >= tick].  [getQuoteParams] runs both checks
    before it returns, so the parameters it returns satisfy both
    constraints, and every order [quotePair] submits (it takes ticks from
    these parameters only) has [flipTick > tick] for a bid and
    [flipTick < tick] for an ask. *)
Theorem flip_constraints_checked_before_submission :
  (forall tick flipTick,
      (exists e, assertFlipConstraints true tick flipTick = Throw e)
      <-> flipTick <= tick)
  /\ (forall tick flipTick,
      (exists e, assertFlipConstraints false tick flipTick = Throw e)
      <-> flipTick >= tick)
  /\ (forall cfg b q w,
      match fst (getQuoteParams cfg b q w) with
      | Ok p =>
          assertFlipConstraints true (qp_bidTick p) (qp_bidFlipTick p)
          = Ok tt
          /\ assertFlipConstraints false (qp_askTick p) (qp_askFlipTick p)
             = Ok tt
      | Throw _ => True
      end)
  /\ (forall cfg ctx b q w, exists sent,
      submitted (snd (quotePair cfg ctx b q w)) = submitted w ++ sent
      /\ Forall (fun o => if fo_isBid o
                          then fo_flipTick o > fo_tick o
                          else fo_flipTick o < fo_tick o) sent).
Proof.
  split; [exact assertFlipConstraints_bid |].
  split; [exact assertFlipConstraints_ask |].
  split.
  - intros cfg b q w.
    pose proof (getQuoteParams_checked cfg b q w) as H.
    destruct (fst (getQuoteParams cfg b q w)) as [p | e]; [| exact I].
    destruct H as [Hb Ha]. unfold assertFlipConstraints.
    replace (qp_bidFlipTick p <=? qp_bidTick p) with false
      by (symmetry; apply Z.leb_gt; exact Hb).
    replace (qp_askFlipTick p >=? qp_askTick p) with false
      by (symmetry; rewrite Z.geb_leb; apply Z.leb_gt; exact Ha).
    split; reflexivity.
  - intros cfg ctx b q w.
    destruct (quotePair_submits_checked cfg ctx b q w) as (sent & E & F).
    exists sent. split; [exact E |].
    eapply Forall_impl; [| exact F].
    intros o. unfold flipConstraintHolds. destruct (fo_isBid o); lia.
Qed.

Lemma flip_constraints_checked_before_submission_witness :
  (exists e, assertFlipConstraints true 50 50 = Throw e)
  /\ (exists e, assertFlipConstraints false (-50) (-50) = Throw e)
  /\ exists sent,
       submitted (snd (quotePair config idleContext AlphaUSD pathUSD
                         worldAtOnePm))
       = submitted worldAtOnePm ++ sent
       /\ Forall (fun o => if fo_isBid o
                           then fo_flipTick o > fo_tick o
                           else fo_flipTick o < fo_tick o) sent.
Proof.
  destruct flip_constraints_checked_before_submission
    as (Hbid & Hask & _ & Hquote).
  split; [apply Hbid; lia |].
  split; [apply Hask; lia |].
  apply (Hquote config idleContext AlphaUSD pathUSD worldAtOnePm).
Defined.

End FlipClaims.

(** * Further properties *)

(** ** Tick arithmetic *)

Section TickArithmetic.
Import Config Ticks.

(** [roundToSpacing] on an integer, in integer arithmetic. *)
Lemma roundToSpacing_Z (n : Z) :
  roundToSpacing (inject_Z n) = (n + 5) / 10 * 10.
Proof.
  unfold roundToSpacing, Math_round, TICK_SPACING.
  assert (H : (inject_Z n / inject_Z 10 + (1 # 2) == (n + 5) # 10)%Q).
  { unfold Qeq, Qdiv, Qplus, Qmult, Qinv, inject_Z. cbn [Qnum Qden].
    cbn [Qnum Qden Pos.mul]. lia. }
  rewrite (Qfloor_comp _ _ H). reflexivity.
Qed.

Lemma isValidTick_iff (t : Z) :
  isValidTick t = true
  <-> TICK_BOUNDS_MIN <= t <= TICK_BOUNDS_MAX /\ Z.rem t TICK_SPACING = 0.
Proof.
  unfold isValidTick. split.
  - destruct (t <? TICK_BOUNDS_MIN) eqn:Hlo; [discriminate |].
    destruct (t >? TICK_BOUNDS_MAX) eqn:Hhi; [discriminate |].
    cbn [orb].
    destruct (Z.rem t TICK_SPACING =? 0) eqn:Hrem; [| discriminate].
    intros _. apply Z.ltb_ge in Hlo. rewrite Z.gtb_ltb in Hhi.
    apply Z.ltb_ge in Hhi. apply Z.eqb_eq in Hrem. auto.
  - intros [Hb Hr]. apply isValidTick_true; assumption.
Qed.

Lemma on_grid_multiple (t : Z) :
  Z.rem t TICK_SPACING = 0 -> t = t / 10 * 10.
Proof.
  unfold TICK_SPACING. intros H.
  pose proof (Z.rem_divide t 10 ltac:(discriminate)) as Hd.
  apply Hd in H. destruct H as [k ->].
  rewrite Z.div_mul by discriminate. reflexivity.
Qed.

(** X1. [roundToSpacing x] is the multiple [r] of the spacing with
    [r - 5 <= x < r + 5]: the nearest multiple, the midpoint going up.
    A number already on the grid is returned as it is. *)
Theorem roundToSpacing_nearest_multiple (x : Q) :
  Z.rem (roundToSpacing x) TICK_SPACING = 0
  /\ (inject_Z (roundToSpacing x) - 5 <= x)%Q
  /\ (x < inject_Z (roundToSpacing x) + 5)%Q
  /\ roundToSpacing (inject_Z (roundToSpacing x)) = roundToSpacing x.
Proof.
  split; [apply roundToSpacing_on_grid |].
  assert (Hfix : roundToSpacing (inject_Z (roundToSpacing x))
                 = roundToSpacing x).
  { rewrite roundToSpacing_Z. unfold roundToSpacing, TICK_SPACING.
    set (k := Math_round _).
    replace (k * 10 + 5) with (5 + k * 10) by lia.
    rewrite Z.div_add by discriminate. reflexivity. }
  pose proof (Qfloor_le (x / inject_Z TICK_SPACING + (1 # 2))) as Hlo.
  pose proof (Qlt_floor (x / inject_Z TICK_SPACING + (1 # 2))) as Hhi.
  split; [| split; [| exact Hfix]]; clear Hfix;
    unfold roundToSpacing, Math_round;
    set (k := Qfloor (x / inject_Z TICK_SPACING + (1 # 2))) in *;
    rewrite inject_Z_plus in Hhi; rewrite inject_Z_mult;
    unfold TICK_SPACING in *;
    change (inject_Z 10) with 10%Q in *;
    change (inject_Z 1) with 1%Q in *;
    unfold Qdiv in *; change (/ 10)%Q with (1 # 10)%Q in *; lra.
Qed.

(** X2. [roundToSpacing] and [clampTick] are monotone: a larger input
    never gives a smaller tick. *)
Theorem rounding_and_clamping_monotone :
  (forall x y : Q, (x <= y)%Q -> roundToSpacing x <= roundToSpacing y)
  /\ (forall s t : Z, s <= t -> clampTick s <= clampTick t).
Proof.
  split.
  - intros x y Hxy. unfold roundToSpacing, Math_round, TICK_SPACING.
    apply Z.mul_le_mono_nonneg_r; [lia |].
    apply Qfloor_resp_le.
    change (inject_Z 10) with 10%Q.
    unfold Qdiv. change (/ 10)%Q with (1 # 10)%Q. lra.
  - intros s t Hst. unfold clampTick, TICK_BOUNDS_MIN, TICK_BOUNDS_MAX. lia.
Qed.

Lemma rounding_and_clamping_monotone_witness :
  roundToSpacing 24 <= roundToSpacing 26 /\ clampTick 1990 <= clampTick 2500.
Proof.
  split.
  - apply (proj1 rounding_and_clamping_monotone). vm_compute. discriminate.
  - apply (proj2 rounding_and_clamping_monotone). lia.
Defined.

(** X3. The valid ticks are exactly the fixed points of rounding followed
    by clamping: [isValidTick t] holds if and only if
    [clampTick (roundToSpacing t) = t]. *)
Theorem valid_ticks_are_fixed_points (t : Z) :
  isValidTick t = true <-> clampTick (roundToSpacing (inject_Z t)) = t.
Proof.
  split.
  - intros H. apply isValidTick_iff in H. destruct H as [Hb Hr].
    rewrite roundToSpacing_Z. apply on_grid_multiple in Hr.
    unfold clampTick, TICK_BOUNDS_MIN, TICK_BOUNDS_MAX in *.
    Z.div_mod_to_equations. lia.
  - intros <-. apply isValidTick_clamped, roundToSpacing_on_grid.
Qed.

Lemma valid_ticks_are_fixed_points_witness :
  clampTick (roundToSpacing (inject_Z (-1990))) = -1990
  /\ isValidTick 2000 = true.
Proof.
  split.
  - apply (proj1 (valid_ticks_are_fixed_points (-1990))). reflexivity.
  - apply (proj2 (valid_ticks_are_fixed_points 2000)). reflexivity.
Defined.

(** X4. The price multiplier grows strictly with the tick, is 1 at tick
    0, and stays within 2 percent of parity on the allowed range. *)
Theorem tickToPrice_range :
  (tickToPrice 0 == 1)%Q
  /\ (forall s t : Z, s < t -> (tickToPrice s < tickToPrice t)%Q)
  /\ (forall t : Z, TICK_BOUNDS_MIN <= t <= TICK_BOUNDS_MAX ->
      (98 # 100 <= tickToPrice t)%Q /\ (tickToPrice t <= 102 # 100)%Q).
Proof.
  unfold tickToPrice, PRICE_SCALE, TICK_BOUNDS_MIN, TICK_BOUNDS_MAX.
  split; [reflexivity |]. split.
  - intros s t Hst. rewrite Zlt_Qlt in Hst.
    change (inject_Z 100000) with 100000%Q.
    unfold Qdiv. change (/ 100000)%Q with (1 # 100000)%Q. lra.
  - intros t [Hlo Hhi]. rewrite Zle_Qle in Hlo, Hhi.
    change (inject_Z (-2000)) with (-2000)%Q in Hlo.
    change (inject_Z 2000) with 2000%Q in Hhi.
    change (inject_Z 100000) with 100000%Q.
    unfold Qdiv. change (/ 100000)%Q with (1 # 100000)%Q. lra.
Qed.

Lemma tickToPrice_range_witness :
  (tickToPrice (-50) < tickToPrice 50)%Q
  /\ (98 # 100 <= tickToPrice (-2000))%Q.
Proof.
  destruct tickToPrice_range as (_ & Hmono & Hrange).
  split.
  - apply Hmono. lia.
  - apply (Hrange (-2000)). unfold TICK_BOUNDS_MIN, TICK_BOUNDS_MAX. lia.
Defined.

End TickArithmetic.

Section FlipTick.
Import Config Ticks.

(** X5. Whatever the spread, a flip tick that [calculateFlipTick] returns
    is a valid tick on the required side of the order: above the tick
    for a bid, below it for an ask. *)
Theorem calculateFlipTick_sound (cfg : Config) (tick : Z) (isBid : bool)
  (spreadTicks : option Z) (flipTick : Z) :
  calculateFlipTick cfg tick isBid spreadTicks = Ok flipTick ->
  isValidTick flipTick = true
  /\ (if isBid then tick < flipTick else flipTick < tick).
Proof.
  unfold calculateFlipTick.
  set (raw := roundToSpacing _).
  intros H.
  destruct (assertFlipConstraints isBid tick (clampTick raw)) eqn:Ha;
    [| discriminate H].
  injection H as <-. split.
  - apply isValidTick_clamped. apply roundToSpacing_on_grid.
  - unfold assertFlipConstraints in Ha. destruct isBid.
    + destruct (clampTick raw <=? tick) eqn:E; [discriminate Ha |].
      apply Z.leb_gt in E. exact E.
    + destruct (clampTick raw >=? tick) eqn:E; [discriminate Ha |].
      rewrite Z.geb_leb in E. apply Z.leb_gt in E. exact E.
Qed.

Lemma calculateFlipTick_sound_witness :
  isValidTick 50 = true /\ -50 < 50.
Proof.
  apply (calculateFlipTick_sound config (-50) true None 50). reflexivity.
Defined.

(** X6. For a valid tick and an integer spread, [calculateFlipTick]
    succeeds for a bid exactly when the tick is below the upper bound and
    the spread is at least 5, and for an ask exactly when the tick is
    above the lower bound and the spread is more than 5 (a spread of
    exactly 5 rounds back up onto the ask's own tick). *)
Theorem calculateFlipTick_succeeds_iff (cfg : Config) (tick spread : Z) :
  isValidTick tick = true ->
  ((exists f, calculateFlipTick cfg tick true (Some spread) = Ok f)
   <-> tick < TICK_BOUNDS_MAX /\ 5 <= spread)
  /\ ((exists f, calculateFlipTick cfg tick false (Some spread) = Ok f)
      <-> TICK_BOUNDS_MIN < tick /\ 5 < spread).
Proof.
  intros Hv. apply isValidTick_iff in Hv. destruct Hv as [Hb Hr].
  apply on_grid_multiple in Hr.
  unfold calculateFlipTick, assertFlipConstraints.
  rewrite !roundToSpacing_Z.
  unfold clampTick, TICK_BOUNDS_MIN, TICK_BOUNDS_MAX in *.
  split.
  - destruct (_ <=? tick) eqn:E.
    + apply Z.leb_le in E. split; [intros [f Hf]; discriminate Hf |].
      intros [H1 H2]. exfalso. Z.div_mod_to_equations. lia.
    + apply Z.leb_gt in E. split; [| intros _; eexists; reflexivity].
      intros _. Z.div_mod_to_equations. lia.
  - destruct (_ >=? tick) eqn:E.
    + rewrite Z.geb_leb in E. apply Z.leb_le in E.
      split; [intros [f Hf]; discriminate Hf |].
      intros [H1 H2]. exfalso. Z.div_mod_to_equations. lia.
    + rewrite Z.geb_leb in E. apply Z.leb_gt in E.
      split; [| intros _; eexists; reflexivity].
      intros _. Z.div_mod_to_equations. lia.
Qed.

Lemma calculateFlipTick_succeeds_iff_witness :
  (exists f, calculateFlipTick config 1990 true (Some 5) = Ok f)
  /\ ~ (exists f, calculateFlipTick config 1990 false (Some 5) = Ok f).
Proof.
  destruct (calculateFlipTick_succeeds_iff config 1990 5 eq_refl)
    as [Hbid Hask].
  split.
  - apply Hbid. unfold TICK_BOUNDS_MAX. lia.
  - intros H. apply Hask in H. lia.
Defined.

End FlipTick.

(** ** Budget, continued *)

Section BudgetExtras.
Import Config StateSchema Runtime State Examples.

Ltac run_save :=
  unfold saveState, bind, new_Date, writeStateFile, ret;
  cbn [fst snd wallclock clockReads diskWritable disk].

(** X7. [checkTxBudget] is a faithful preview: read at the same clock
    time it gives the verdict [incrementTxCounter] gives, and the
    remaining daily allowance [incrementTxCounter] reports is the
    previewed one less the transaction itself, never below zero. *)
Theorem checkTxBudget_previews_increment
  (cfg : Config) (st : EngineState) (isCancel : bool) (w : World) :
  allowed (fst (checkTxBudget cfg st isCancel w))
  = allowed (fst (fst (incrementTxCounter cfg st isCancel w)))
  /\ dailyRemaining (fst (fst (incrementTxCounter cfg st isCancel w)))
     = Z.max 0 (dailyRemaining (fst (checkTxBudget cfg st isCancel w)) - 1)
  /\ disk (snd (checkTxBudget cfg st isCancel w)) = disk w.
Proof.
  unfold checkTxBudget, incrementTxCounter, bind, new_Date, ret.
  cbn [fst snd wallclock clockReads disk].
  set (now := wallclock w (clockReads w)).
  destruct (differentCalendarDay now (dailyResetAt (txCounters st)));
    cbn [txCounters set_txCounters hourlyResetAt dailyTxCount
         hourlyCancelCount dailyResetAt];
    destruct (Qle_bool 1 (hoursBetween now (hourlyResetAt (txCounters st))));
    cbn [txCounters set_txCounters hourlyResetAt dailyTxCount
         hourlyCancelCount dailyResetAt];
    match goal with
    | |- context [if ?c then saveState _ else _] => destruct c
    end;
    run_save; destruct (diskWritable w);
    cbn [fst snd allowed dailyRemaining];
    repeat split; reflexivity.
Qed.

(** X8. A granted transaction never takes a counter past its limit: when
    [incrementTxCounter] answers [allowed], the daily count it leaves is
    at most [MAX_TX_PER_DAY], and for a cancel the hourly count is at
    most [MAX_CANCELS_PER_HOUR].  A transaction that is not a cancel
    never raises the hourly cancel count. *)
Theorem incrementTxCounter_respects_limits
  (cfg : Config) (st : EngineState) (isCancel : bool) (w : World) :
  let out := incrementTxCounter cfg st isCancel w in
  (allowed (fst (fst out)) = true ->
   dailyTxCount (txCounters (snd (fst out))) <= MAX_TX_PER_DAY cfg
   /\ (isCancel = true ->
       hourlyCancelCount (txCounters (snd (fst out)))
       <= MAX_CANCELS_PER_HOUR cfg))
  /\ (isCancel = false ->
      hourlyCancelCount (txCounters (snd (fst out))) = 0
      \/ hourlyCancelCount (txCounters (snd (fst out)))
         = hourlyCancelCount (txCounters st)).
Proof.
  unfold incrementTxCounter, bind, new_Date, ret.
  cbn [fst snd wallclock clockReads disk].
  set (now := wallclock w (clockReads w)).
  destruct (differentCalendarDay now (dailyResetAt (txCounters st)));
    cbn [txCounters set_txCounters hourlyResetAt dailyTxCount
         hourlyCancelCount dailyResetAt];
    destruct (Qle_bool 1 (hoursBetween now (hourlyResetAt (txCounters st))));
    cbn [txCounters set_txCounters hourlyResetAt dailyTxCount
         hourlyCancelCount dailyResetAt];
    destruct isCancel; cbn [Allowance_pos];
    repeat match goal with
           | |- context [?a >? 0] =>
               let E := fresh "E" in
               destruct (a >? 0) eqn:E;
               [apply Z.gtb_lt in E | rewrite Z.gtb_ltb in E;
                                      apply Z.ltb_ge in E]
           end;
    cbn [andb]; run_save; destruct (diskWritable w);
    cbn [fst snd allowed txCounters set_txCounters set_updatedAt
         dailyTxCount hourlyCancelCount];
    (split;
     [ intros Ha;
       first [ discriminate Ha
             | split; [lia | intros Hc; first [discriminate Hc | lia]] ]
     | intros Hc; first [discriminate Hc | auto] ]).
Qed.

Lemma incrementTxCounter_respects_limits_witness :
  dailyTxCount
    (txCounters (snd (fst (incrementTxCounter config cancelSpentState true
                             worldAtOnePm)))) <= 100
  /\ hourlyCancelCount
       (txCounters (snd (fst (incrementTxCounter config cancelSpentState
                                true worldAtOnePm)))) <= 10.
Proof.
  destruct (proj1 (incrementTxCounter_respects_limits
                     config cancelSpentState true worldAtOnePm))
    as [Hd Hh].
  - reflexivity.
  - split; [exact Hd | apply Hh; reflexivity].
Defined.

(** X9. A granted transaction is on disk before [incrementTxCounter]
    returns: when the answer is [allowed] and the file can be written,
    the file holds exactly the state returned; a refused transaction
    leaves the file untouched. *)
Theorem incrementTxCounter_persists_grant
  (cfg : Config) (st : EngineState) (isCancel : bool) (w : World) :
  let out := incrementTxCounter cfg st isCancel w in
  (allowed (fst (fst out)) = true -> diskWritable w = true ->
   disk (snd out) = Stored (snd (fst out)))
  /\ (allowed (fst (fst out)) = false -> disk (snd out) = disk w).
Proof.
  unfold incrementTxCounter, bind, new_Date, ret.
  cbn [fst snd wallclock clockReads disk].
  match goal with
  | |- context [if ?c then saveState _ else _] => destruct c
  end; run_save; destruct (diskWritable w);
    cbn [fst snd allowed disk];
    (split; intros H;
     first [ discriminate H
           | reflexivity
           | intros Hw; first [discriminate Hw | reflexivity] ]).
Qed.

Lemma incrementTxCounter_persists_grant_witness :
  disk (snd (incrementTxCounter config cancelSpentState false worldAtOnePm))
  = Stored (snd (fst (incrementTxCounter config cancelSpentState false
                        worldAtOnePm)))
  /\ disk (snd (incrementTxCounter config spentState false worldAtOnePm))
     = disk worldAtOnePm.
Proof.
  split.
  - apply (proj1 (incrementTxCounter_persists_grant
                    config cancelSpentState false worldAtOnePm));
      reflexivity.
  - apply (proj2 (incrementTxCounter_persists_grant
                    config spentState false worldAtOnePm)).
    reflexivity.
Defined.

End BudgetExtras.

(** ** State store, continued *)

Section PairLookupFacts.
Import Config StateSchema Runtime State.

Lemma TokenSymbol_eqb_eq (a b : TokenSymbol) :
  TokenSymbol_eqb a b = true <-> a = b.
Proof. destruct a, b; cbn; split; intros H; congruence. Qed.

Lemma findPair_sound (ps : list PairState) (b q : TokenSymbol)
  (i : nat) (p : PairState) :
  findPair ps b q = Some (i, p) ->
  base p = b /\ quote p = q /\ nth_error ps i = Some p.
Proof.
  revert i. induction ps as [| p0 rest IH]; intros i H; [discriminate |].
  cbn [findPair] in H.
  destruct (TokenSymbol_eqb (base p0) b && TokenSymbol_eqb (quote p0) q)
    eqn:Hhead.
  - injection H as <- <-. apply andb_true_iff in Hhead.
    destruct Hhead as [Hb Hq]. apply TokenSymbol_eqb_eq in Hb, Hq. auto.
  - destruct (findPair rest b q) as [[j r] |]; [| discriminate].
    injection H as <- <-. destruct (IH j eq_refl) as (Hb & Hq & Hn). auto.
Qed.

Lemma key_mismatch (p : PairState) (b q b' q' : TokenSymbol) :
  base p = b -> quote p = q -> (b', q') <> (b, q) ->
  TokenSymbol_eqb (base p) b' && TokenSymbol_eqb (quote p) q' = false.
Proof.
  intros Hb Hq Hne. apply not_true_is_false. intros H.
  apply andb_true_iff in H. destruct H as [H1 H2].
  apply TokenSymbol_eqb_eq in H1, H2. apply Hne. congruence.
Qed.

Lemma findPair_app_new (ps : list PairState) (b q : TokenSymbol)
  (p : PairState) :
  findPair ps b q = None -> base p = b -> quote p = q ->
  findPair (ps ++ [p]) b q = Some (List.length ps, p).
Proof.
  intros Hnone Hb Hq. induction ps as [| p0 rest IH].
  - cbn. rewrite Hb, Hq.
    rewrite (proj2 (TokenSymbol_eqb_eq b b) eq_refl),
      (proj2 (TokenSymbol_eqb_eq q q) eq_refl). reflexivity.
  - cbn [findPair app List.length] in *.
    destruct (TokenSymbol_eqb (base p0) b && TokenSymbol_eqb (quote p0) q);
      [discriminate |].
    destruct (findPair rest b q) as [[j r] |]; [discriminate |].
    rewrite (IH eq_refl). reflexivity.
Qed.

Lemma findPair_app_other (ps : list PairState) (b q b' q' : TokenSymbol)
  (p : PairState) :
  base p = b -> quote p = q -> (b', q') <> (b, q) ->
  findPair (ps ++ [p]) b' q' = findPair ps b' q'.
Proof.
  intros Hb Hq Hne. induction ps as [| p0 rest IH].
  - cbn. rewrite (key_mismatch p b q b' q' Hb Hq Hne). reflexivity.
  - cbn [findPair app]. rewrite IH. reflexivity.
Qed.

Lemma findPair_replaceAt_other (ps : list PairState)
  (b q b' q' : TokenSymbol) (i : nat) (p p' : PairState) :
  findPair ps b q = Some (i, p) ->
  base p' = b -> quote p' = q -> (b', q') <> (b, q) ->
  findPair (replaceAt i p' ps) b' q' = findPair ps b' q'.
Proof.
  intros Hfind Hb Hq Hne. revert i Hfind.
  induction ps as [| p0 rest IH]; intros i Hfind; [discriminate |].
  cbn [findPair] in Hfind.
  destruct (TokenSymbol_eqb (base p0) b && TokenSymbol_eqb (quote p0) q)
    eqn:Hhead.
  - injection Hfind as <- <-. cbn [replaceAt findPair].
    apply andb_true_iff in Hhead. destruct Hhead as [H1 H2].
    apply TokenSymbol_eqb_eq in H1, H2.
    rewrite (key_mismatch p' b q b' q' Hb Hq Hne),
      (key_mismatch p0 b q b' q' H1 H2 Hne). reflexivity.
  - destruct (findPair rest b q) as [[j r] |] eqn:Hrest; [| discriminate].
    injection Hfind as <- <-. cbn [replaceAt findPair].
    rewrite (IH j eq_refl). reflexivity.
Qed.

(** What [getPairState] hands back, whether the pair was there or not. *)
Lemma getPairState_spec (st : EngineState) (b q : TokenSymbol) (w : World) :
  let out := getPairState st b q w in
  let p := fst (fst (fst out)) in
  let i := snd (fst (fst out)) in
  let st' := snd (fst out) in
  findPair (pairs st') b q = Some (i, p)
  /\ (forall b' q', (b', q') <> (b, q) ->
      findPair (pairs st') b' q' = findPair (pairs st) b' q')
  /\ submitted (snd out) = submitted w
  /\ diskWritable (snd out) = diskWritable w
  /\ txCounters st' = txCounters st
  /\ (findPair (pairs st) b q = Some (i, p) /\ st' = st /\ snd out = w
      \/ findPair (pairs st) b q = None
         /\ pairs st' = pairs st ++ [p]
         /\ bidOrderId p = None /\ askOrderId p = None
         /\ lastBidTick p = None /\ lastAskTick p = None
         /\ lastBidFlipTick p = None /\ lastAskFlipTick p = None
         /\ disk (snd out)
            = if diskWritable w then Stored st' else disk w).
Proof.
  unfold getPairState.
  destruct (findPair (pairs st) b q) as [[i p] |] eqn:Hfind.
  - cbn. repeat split; auto.
  - unfold createDefaultPairState, saveState, bind, new_Date,
      writeStateFile, ret.
    cbn [fst snd wallclock clockReads diskWritable disk].
    destruct (diskWritable w) eqn:Hw;
      cbn [fst snd pairs set_pairs set_updatedAt submitted txCounters disk
           diskWritable].
    all: split; [apply findPair_app_new; auto |].
    all: split;
      [ intros b' q' Hne;
        apply findPair_app_other with (b := b) (q := q); auto |].
    all: split; [reflexivity |].
    all: split; [auto |].
    all: split; [reflexivity |].
    all: right; repeat split; reflexivity.
Qed.

End PairLookupFacts.

Section StoreExtras.
Import Config StateSchema Runtime State Engine Examples.

(** X10. What [saveState] writes, [loadState] reads back: after a
    successful save of a state of the current schema version,
    [loadState] for the same maker (whatever the letter case of the
    address) returns exactly the saved state and writes nothing. *)
Theorem saveState_then_loadState
  (st : EngineState) (address : string) (w : World) :
  diskWritable w = true ->
  schemaVersion st = SCHEMA_VERSION ->
  toLowerCase address = toLowerCase (makerAddress st) ->
  let saved := saveState st w in
  fst saved = set_updatedAt (wallclock w (clockReads w)) st
  /\ loadState address (snd saved) = (fst saved, snd saved).
Proof.
  intros Hw Hv Ha.
  unfold saveState, bind, new_Date, writeStateFile, ret.
  cbn [fst snd wallclock clockReads diskWritable disk]. rewrite Hw.
  cbn [fst snd]. split; [reflexivity |].
  unfold loadState. cbn [disk schemaVersion set_updatedAt makerAddress].
  rewrite Hv, Z.eqb_refl, Ha, String.eqb_refl. reflexivity.
Qed.

Lemma saveState_then_loadState_witness :
  loadState makerA_lower (snd (saveState cancelSpentState worldAtOnePm))
  = (fst (saveState cancelSpentState worldAtOnePm),
     snd (saveState cancelSpentState worldAtOnePm)).
Proof.
  apply (saveState_then_loadState cancelSpentState makerA_lower
           worldAtOnePm); reflexivity.
Defined.

(** X11. [getPairState] finds what it returned: the pair it hands back is
    the one a lookup in the resulting state finds, under the requested
    base and quote, and asking again returns the same pair without
    touching state or file.  A pair that had to be created has no
    orders and no ticks, and is appended after the pairs already
    there. *)
Theorem getPairState_then_lookup
  (st : EngineState) (b q : TokenSymbol) (w : World) :
  let out := getPairState st b q w in
  let p := fst (fst (fst out)) in
  let i := snd (fst (fst out)) in
  let st' := snd (fst out) in
  findPair (pairs st') b q = Some (i, p)
  /\ base p = b /\ quote p = q
  /\ getPairState st' b q (snd out) = (p, i, st', snd out)
  /\ (findPair (pairs st) b q = None ->
      pairs st' = pairs st ++ [p]
      /\ bidOrderId p = None /\ askOrderId p = None
      /\ lastBidTick p = None /\ lastAskTick p = None
      /\ lastBidFlipTick p = None /\ lastAskFlipTick p = None).
Proof.
  intros out p i st'.
  destruct (getPairState_spec st b q w)
    as (Hfind & _ & _ & _ & _ & Hcases).
  fold out in Hfind, Hcases. fold p i st' in Hfind, Hcases.
  destruct (findPair_sound _ _ _ _ _ Hfind) as (Hb & Hq & _).
  split; [exact Hfind |]. split; [exact Hb |]. split; [exact Hq |].
  split.
  - unfold getPairState at 1. rewrite Hfind. reflexivity.
  - intros Hnone. destruct Hcases as [(Hsome & _) | (_ & H)].
    + rewrite Hnone in Hsome. discriminate Hsome.
    + destruct H as (H1 & H2 & H3 & H4 & H5 & H6 & H7 & _).
      repeat split; assumption.
Qed.

Lemma getPairState_then_lookup_witness :
  pairs (snd (fst (getPairState (state idleContext) BetaUSD pathUSD
                     worldAtOnePm)))
  = pairs (state idleContext)
    ++ [fst (fst (fst (getPairState (state idleContext) BetaUSD pathUSD
                         worldAtOnePm)))]
  /\ bidOrderId (fst (fst (fst (getPairState (state idleContext) BetaUSD
                                  pathUSD worldAtOnePm)))) = None.
Proof.
  destruct (getPairState_then_lookup (state idleContext) BetaUSD pathUSD
              worldAtOnePm)
    as (_ & _ & _ & _ & H).
  destruct (H eq_refl) as (H1 & H2 & _).
  split; [exact H1 | exact H2].
Defined.

(** X12. [updatePairOrders] changes one pair only.  Every pair under
    another base or quote is found as before; the pair addressed takes
    the fields present in the update and keeps the others (a pair that
    did not exist starts from empty fields); and when the file can be
    written it holds the state returned. *)
Theorem updatePairOrders_touches_one_pair
  (st : EngineState) (b q : TokenSymbol) (u : PairUpdates) (w : World) :
  let out := updatePairOrders st b q u w in
  let pick {A : Type} (upd : option A) (old : A) :=
    match upd with Some v => v | None => old end in
  (forall b' q', (b', q') <> (b, q) ->
   findPair (pairs (fst out)) b' q' = findPair (pairs st) b' q')
  /\ (diskWritable w = true -> disk (snd out) = Stored (fst out))
  /\ exists i p0 p',
      findPair (pairs (fst out)) b q = Some (i, p')
      /\ p0 = fst (fst (fst (getPairState st b q w)))
      /\ bidOrderId p' = pick (upd_bidOrderId u) (bidOrderId p0)
      /\ askOrderId p' = pick (upd_askOrderId u) (askOrderId p0)
      /\ lastBidTick p' = pick (upd_lastBidTick u) (lastBidTick p0)
      /\ lastAskTick p' = pick (upd_lastAskTick u) (lastAskTick p0)
      /\ lastBidFlipTick p'
         = pick (upd_lastBidFlipTick u) (lastBidFlipTick p0)
      /\ lastAskFlipTick p'
         = pick (upd_lastAskFlipTick u) (lastAskFlipTick p0).
Proof.
  intros out pick. subst out.
  pose proof (getPairState_spec st b q w) as Hspec. cbv zeta in Hspec.
  unfold updatePairOrders, bind.
  destruct (getPairState st b q w) as [[[p i] st1] w1].
  cbn [fst snd] in Hspec.
  destruct Hspec as (Hfind & Hframe & _ & Hdisk & _ & _).
  destruct (findPair_sound _ _ _ _ _ Hfind) as (Hb & Hq & _).
  unfold saveState, bind, new_Date, writeStateFile, ret, assignPair.
  cbn [fst snd wallclock clockReads diskWritable disk]. rewrite Hdisk.
  set (p' := set_pairUpdatedAt _ _).
  assert (Hkey : base p' = b /\ quote p' = q).
  { subst p'. unfold applyUpdate.
    destruct u as [[?|] [?|] [?|] [?|] [?|] [?|]]; cbn; auto. }
  destruct Hkey as [Hb' Hq'].
  assert (Hnew : findPair (replaceAt i p' (pairs st1)) b q = Some (i, p')).
  { apply findPair_replaceAt with (p := p); [exact Hfind | | ]; congruence. }
  assert (Hother : forall b' q', (b', q') <> (b, q) ->
            findPair (replaceAt i p' (pairs st1)) b' q'
            = findPair (pairs st) b' q').
  { intros b' q' Hne. rewrite <- (Hframe b' q' Hne).
    apply findPair_replaceAt_other with (b := b) (q := q) (p := p); auto. }
  destruct (diskWritable w);
    cbn [fst snd pairs set_pairs set_updatedAt disk];
    (split; [exact Hother |]);
    (split; [intros Hw; first [discriminate Hw | reflexivity] |]);
    exists i, p, p'; (split; [exact Hnew |]); (split; [reflexivity |]);
    subst p' pick; unfold applyUpdate;
    destruct u as [[?|] [?|] [?|] [?|] [?|] [?|]]; cbn;
    repeat split; reflexivity.
Qed.

Lemma updatePairOrders_touches_one_pair_witness :
  disk (snd (updatePairOrders cancelSpentState AlphaUSD pathUSD clearBid
               worldAtOnePm))
  = Stored (fst (updatePairOrders cancelSpentState AlphaUSD pathUSD
                   clearBid worldAtOnePm))
  /\ findPair (pairs (fst (updatePairOrders cancelSpentState AlphaUSD
                             pathUSD clearBid worldAtOnePm)))
              BetaUSD pathUSD
     = findPair (pairs cancelSpentState) BetaUSD pathUSD.
Proof.
  destruct (updatePairOrders_touches_one_pair cancelSpentState AlphaUSD
              pathUSD clearBid worldAtOnePm)
    as (Hframe & Hdisk & _).
  split.
  - apply Hdisk. reflexivity.
  - apply Hframe. discriminate.
Defined.

(** X13. [clearPairState] empties the pair addressed (both order ids and
    all four ticks become null), leaves every other pair as it was, and
    when the file can be written leaves the returned state in it. *)
Theorem clearPairState_empties_one_pair
  (st : EngineState) (b q : TokenSymbol) (w : World) :
  let out := clearPairState st b q w in
  (forall b' q', (b', q') <> (b, q) ->
   findPair (pairs (fst out)) b' q' = findPair (pairs st) b' q')
  /\ (diskWritable w = true -> disk (snd out) = Stored (fst out))
  /\ exists i p',
      findPair (pairs (fst out)) b q = Some (i, p')
      /\ bidOrderId p' = None /\ askOrderId p' = None
      /\ lastBidTick p' = None /\ lastAskTick p' = None
      /\ lastBidFlipTick p' = None /\ lastAskFlipTick p' = None.
Proof.
  intros out. subst out.
  pose proof (getPairState_spec st b q w) as Hspec. cbv zeta in Hspec.
  unfold clearPairState, bind.
  destruct (getPairState st b q w) as [[[p i] st1] w1].
  cbn [fst snd] in Hspec.
  destruct Hspec as (Hfind & Hframe & _ & Hdisk & _ & _).
  destruct (findPair_sound _ _ _ _ _ Hfind) as (Hb & Hq & _).
  unfold saveState, bind, new_Date, writeStateFile, ret, assignPair.
  cbn [fst snd wallclock clockReads diskWritable disk]. rewrite Hdisk.
  set (p' := set_pairUpdatedAt _ _).
  assert (Hnew : findPair (replaceAt i p' (pairs st1)) b q = Some (i, p')).
  { apply findPair_replaceAt with (p := p); [exact Hfind | | ]; reflexivity. }
  assert (Hother : forall b' q', (b', q') <> (b, q) ->
            findPair (replaceAt i p' (pairs st1)) b' q'
            = findPair (pairs st) b' q').
  { intros b' q' Hne. rewrite <- (Hframe b' q' Hne).
    apply findPair_replaceAt_other with (b := b) (q := q) (p := p); auto. }
  destruct (diskWritable w);
    cbn [fst snd pairs set_pairs set_updatedAt disk];
    (split; [exact Hother |]);
    (split; [intros Hw; first [discriminate Hw | reflexivity] |]);
    exists i, p'; (split; [exact Hnew |]);
    repeat split; reflexivity.
Qed.

Lemma clearPairState_empties_one_pair_witness :
  disk (snd (clearPairState spentState AlphaUSD pathUSD worldAtOnePm))
  = Stored (fst (clearPairState spentState AlphaUSD pathUSD worldAtOnePm)).
Proof.
  apply (proj1 (proj2 (clearPairState_empties_one_pair
                         spentState AlphaUSD pathUSD worldAtOnePm))).
  reflexivity.
Defined.

(** X14. [updateLastBlock] never moves the last processed block
    backwards: afterwards it is the larger of the old value and the
    block given.  A block that is not newer changes nothing and writes
    nothing; pairs and counters are never touched. *)
Theorem updateLastBlock_monotone
  (st : EngineState) (blockNumber : Z) (w : World) :
  let out := updateLastBlock st blockNumber w in
  lastProcessedBlock (fst out)
  = Z.max (lastProcessedBlock st) blockNumber
  /\ pairs (fst out) = pairs st
  /\ txCounters (fst out) = txCounters st
  /\ (blockNumber <= lastProcessedBlock st -> out = (st, w)).
Proof.
  unfold updateLastBlock.
  destruct (blockNumber >? lastProcessedBlock st) eqn:E.
  - apply Z.gtb_lt in E.
    unfold saveState, bind, new_Date, writeStateFile, ret.
    cbn [fst snd wallclock clockReads diskWritable disk].
    destruct (diskWritable w);
      cbn [fst snd lastProcessedBlock set_lastProcessedBlock
           set_updatedAt pairs txCounters];
      repeat split; try reflexivity; lia.
  - rewrite Z.gtb_ltb in E. apply Z.ltb_ge in E. unfold ret.
    cbn [fst snd]. repeat split; try reflexivity. lia.
Qed.

Lemma updateLastBlock_monotone_witness :
  updateLastBlock spentState 1100 worldAtOnePm = (spentState, worldAtOnePm).
Proof.
  apply (proj2 (proj2 (proj2 (updateLastBlock_monotone
                                spentState 1100 worldAtOnePm)))).
  vm_compute. discriminate.
Defined.

End StoreExtras.

(** ** Reconciliation, continued *)

Section ReconcileExtras.
Import Config Types StateSchema Runtime State ReconcileOutcome Examples.

Lemma truthy_Some (v : option string) (s : string) :
  truthy v = Some s <-> v = Some s /\ s <> EmptyString.
Proof.
  unfold truthy. destruct v as [[| c rest] |]; split.
  - intros H. discriminate H.
  - intros [H Hne]. injection H as <-. contradiction.
  - intros H. injection H as <-. split; [reflexivity | discriminate].
  - intros [H _]. exact H.
  - intros H. discriminate H.
  - intros [H _]. discriminate H.
Qed.

Lemma truthy_None_kept (v : option string) :
  truthy v = None -> forall s, truthy v <> Some s.
Proof. intros -> s H. discriminate H. Qed.

(** X15. After [reconcileOrders] a side of the pair holds a usable order
    id exactly when that side was reported valid.  The stale list names
    only ids that were stored and have been cleared, at most one per
    side; the remembered ticks are not touched. *)
Theorem reconcileOrders_valid_iff_id_kept
  (BigInt : string -> option Z) (st : EngineState) (b q : TokenSymbol)
  (w : World) (i : nat) (p : PairState) :
  findPair (pairs st) b q = Some (i, p) ->
  let out := reconcileOrders BigInt st b q w in
  let res := fst (fst out) in
  exists p',
    findPair (pairs (snd (fst out))) b q = Some (i, p')
    /\ (bidValid res = true <-> exists id, truthy (bidOrderId p') = Some id)
    /\ (askValid res = true <-> exists id, truthy (askOrderId p') = Some id)
    /\ (forall id, In id (staleOrderIds res) ->
        (bidOrderId p = Some id /\ bidOrderId p' = None)
        \/ (askOrderId p = Some id /\ askOrderId p' = None))
    /\ (List.length (staleOrderIds res) <= 2)%nat
    /\ lastBidTick p' = lastBidTick p /\ lastAskTick p' = lastAskTick p
    /\ lastBidFlipTick p' = lastBidFlipTick p
    /\ lastAskFlipTick p' = lastAskFlipTick p.
Proof.
  intros Hfind out res.
  pose proof (reconcileOrders_found BigInt st b q w i p Hfind) as H.
  cbv zeta in H. fold out in H.
  unfold sideOutcome in H.
  destruct (truthy (bidOrderId p)) as [bidCopy |] eqn:Tb;
    [ apply truthy_Some in Tb; destruct Tb as [Tb Nb];
      destruct (fst (lookupStored BigInt bidCopy w)) as [ob | eb];
      [destruct (stillActive ob) |] | ];
    (destruct (truthy (askOrderId p)) as [askCopy |] eqn:Ta;
     [ apply truthy_Some in Ta; destruct Ta as [Ta Na];
       destruct (fst (lookupStored BigInt askCopy w)) as [oa | ea];
       [destruct (stillActive oa) |] | ]);
    destruct H as [Hres Hpair]; fold res in Hres;
    eexists; (split; [exact Hpair |]); rewrite Hres;
    cbn [bidOrderId askOrderId set_askOrderId set_bidOrderId
         staleOrderIds bidValid askValid app List.length
         lastBidTick lastAskTick lastBidFlipTick lastAskFlipTick];
    rewrite ?Tb, ?Ta;
    repeat match goal with
           | |- _ /\ _ => split
           end;
    try reflexivity; try lia;
    try change (truthy None) with (@None string);
    try (split;
         [ intros Hd;
           first [ discriminate Hd
                 | eexists; apply truthy_Some; split;
                   [reflexivity | assumption] ]
         | intros [id Hid]; first [reflexivity | discriminate Hid] ]);
    try (intros id Hin; cbn [In] in Hin;
         repeat match goal with
                | Hor : _ \/ _ |- _ => destruct Hor
                | Hf : False |- _ => contradiction
                end; subst; auto).
Qed.

Lemma reconcileOrders_valid_iff_id_kept_witness :
  exists p',
    findPair (pairs (snd (fst (reconcileOrders decimalBigInt spentState
                                 AlphaUSD pathUSD worldBidOpen))))
             AlphaUSD pathUSD = Some (O, p')
    /\ (bidValid (fst (fst (reconcileOrders decimalBigInt spentState
                              AlphaUSD pathUSD worldBidOpen))) = true
        <-> exists id, truthy (bidOrderId p') = Some id)
    /\ lastBidTick p' = Some (-50).
Proof.
  destruct (reconcileOrders_valid_iff_id_kept
              decimalBigInt spentState AlphaUSD pathUSD worldBidOpen
              O quotedPair eq_refl)
    as (p' & Hp & Hbid & _ & _ & _ & Htick & _).
  exists p'. split; [exact Hp |]. split; [exact Hbid | exact Htick].
Defined.

Lemma lookupStored_getOrder (BigInt : string -> option Z)
  (id : string) (n : Z) (w : World) :
  BigInt id = Some n -> lookupStored BigInt id w = Dex.getOrder n w.
Proof.
  intros H. unfold lookupStored, stringToOrderId. rewrite H. reflexivity.
Qed.

(** X16. [fullReconcile] re-derives the remembered levels from the chain.
    For a stored id that denotes an order: when the chain shows the order
    with a positive remaining quantity, the order is returned as found,
    the id is kept and the side's last tick and flip tick become those
    of the chain's record; in every other case (order unknown, nothing
    remaining, or the lookup failing) nothing is found and the id, the
    tick and the flip tick are all cleared.  No orphaned orders are ever
    reported, and the state is always written to the file. *)
Theorem fullReconcile_refreshes_or_clears
  (BigInt : string -> option Z) (st : EngineState) (b q : TokenSymbol)
  (w : World) (i : nat) (p : PairState) :
  findPair (pairs st) b q = Some (i, p) ->
  let out := fullReconcile BigInt st b q w in
  let res := fst (fst out) in
  exists p',
    findPair (pairs (snd (fst out))) b q = Some (i, p')
    /\ orphanedOrders res = []
    /\ (diskWritable w = true -> disk (snd out) = Stored (snd (fst out)))
    /\ (forall id n,
        bidOrderId p = Some id -> id <> EmptyString -> BigInt id = Some n ->
        match fst (Dex.getOrder n w) with
        | Ok (Some o) =>
            if remainingAmount o >? 0 then
              foundBid res = Some o /\ bidOrderId p' = Some id
              /\ lastBidTick p' = Some (tick o)
              /\ lastBidFlipTick p' = flipTick o
            else
              foundBid res = None /\ bidOrderId p' = None
              /\ lastBidTick p' = None /\ lastBidFlipTick p' = None
        | _ =>
            foundBid res = None /\ bidOrderId p' = None
            /\ lastBidTick p' = None /\ lastBidFlipTick p' = None
        end)
    /\ (forall id n,
        askOrderId p = Some id -> id <> EmptyString -> BigInt id = Some n ->
        match fst (Dex.getOrder n w) with
        | Ok (Some o) =>
            if remainingAmount o >? 0 then
              foundAsk res = Some o /\ askOrderId p' = Some id
              /\ lastAskTick p' = Some (tick o)
              /\ lastAskFlipTick p' = flipTick o
            else
              foundAsk res = None /\ askOrderId p' = None
              /\ lastAskTick p' = None /\ lastAskFlipTick p' = None
        | _ =>
            foundAsk res = None /\ askOrderId p' = None
            /\ lastAskTick p' = None /\ lastAskFlipTick p' = None
        end).
Proof.
  intros Hfind out res. subst res out.
  unfold fullReconcile, getPairState. rewrite Hfind. unfold bind, ret.
  destruct (truthy (bidOrderId p)) as [bidCopy |] eqn:Tb;
    [ destruct (lookupStored_pair BigInt bidCopy w) as (rb & Eb & Fb);
      rewrite Eb;
      destruct rb as [[ob |] | eb];
      [destruct (remainingAmount ob >? 0) eqn:Cb | | ] | ];
    cbn [askOrderId set_bidOrderId set_lastBidTick set_lastBidFlipTick];
    (destruct (truthy (askOrderId p)) as [askCopy |] eqn:Ta;
     [ destruct (lookupStored_pair BigInt askCopy w) as (ra & Ea & Fa);
       rewrite Ea;
       destruct ra as [[oa |] | ea];
       [destruct (remainingAmount oa >? 0) eqn:Ca | | ] | ]).
  all: unfold saveState, bind, new_Date, writeStateFile, ret, assignPair.
  all: cbn [fst snd wallclock clockReads diskWritable disk].
  all: destruct (diskWritable w).
  all: cbn [fst snd pairs set_pairs set_updatedAt disk orphanedOrders
            foundBid foundAsk].
  all: eexists.
  all: split;
    [ apply findPair_replaceAt with (p := p);
      [exact Hfind | reflexivity | reflexivity] |].
  all: split; [reflexivity |].
  all: split; [intros Hw; first [discriminate Hw | reflexivity] |].
  all: cbn [bidOrderId askOrderId lastBidTick lastAskTick lastBidFlipTick
            lastAskFlipTick set_bidOrderId set_askOrderId set_lastBidTick
            set_lastAskTick set_lastBidFlipTick set_lastAskFlipTick
            set_pairUpdatedAt].
  all: split; intros id n Hid Hne Hn;
    pose proof (proj2 (truthy_Some _ _) (conj Hid Hne)) as Ht.
  all: try (rewrite Ht in Tb; first [discriminate Tb | injection Tb as <-]).
  all: try (rewrite Ht in Ta; first [discriminate Ta | injection Ta as <-]).
  all: try (rewrite (lookupStored_getOrder BigInt _ n w Hn) in Fb).
  all: try (rewrite (lookupStored_getOrder BigInt _ n w Hn) in Fa).
  all: try rewrite Fb; try rewrite Fa; try rewrite Cb; try rewrite Ca.
  all: repeat split; first [reflexivity | assumption].
Qed.

Lemma fullReconcile_refreshes_or_clears_witness :
  exists p',
    findPair (pairs (snd (fst (fullReconcile decimalBigInt spentState
                                 AlphaUSD pathUSD worldBidOpen))))
             AlphaUSD pathUSD = Some (O, p')
    /\ bidOrderId p' = Some "7"%string
    /\ lastBidTick p' = Some (-50)
    /\ askOrderId p' = None
    /\ lastAskTick p' = None.
Proof.
  destruct (fullReconcile_refreshes_or_clears
              decimalBigInt spentState AlphaUSD pathUSD worldBidOpen
              O quotedPair eq_refl)
    as (p' & Hp & _ & _ & Hbid & Hask).
  exists p'. split; [exact Hp |].
  pose proof (Hbid "7"%string 7 eq_refl ltac:(discriminate) eq_refl) as H7.
  pose proof (Hask "8"%string 8 eq_refl ltac:(discriminate) eq_refl) as H8.
  change (fst (Dex.getOrder 7 worldBidOpen))
    with (Ok (Some {| orderId := 7;
                      maker := makerA;
                      baseToken := raw_bookKey (liveOrder true 60);
                      quoteToken := Dex.PATH_USD_ADDRESS;
                      isBid := true; isFlip := true;
                      tick := -50; flipTick := Some 50;
                      amount := 100000000; remainingAmount := 60;
                      status := open |})) in H7.
  change (fst (Dex.getOrder 8 worldBidOpen))
    with (@Ok (option OrderInfo) None) in H8.
  cbn [remainingAmount tick Z.gtb Z.compare] in H7.
  destruct H7 as (_ & H71 & H72 & _). destruct H8 as (_ & H81 & H82 & _).
  repeat split; assumption.
Defined.

End ReconcileExtras.

(** ** Fill detection *)

Section FillDetection.
Import Config Types StateSchema Runtime State Engine Examples MoreExamples.

Lemma getOrder_reads_chain (n : Z) (w1 w2 : World) :
  chain_getOrder w1 = chain_getOrder w2 ->
  fst (Dex.getOrder n w1) = fst (Dex.getOrder n w2).
Proof.
  intros H. unfold Dex.getOrder, bind, client_getOrder, ret. rewrite H.
  destruct (chain_getOrder w2 n) as [[o |] | e]; try reflexivity.
  - destruct (String.eqb (raw_maker o) Dex.ZERO_ADDRESS); reflexivity.
  - destruct e; try reflexivity.
    destruct errorName as [name |];
      [destruct (String.eqb name "OrderDoesNotExist") |];
      try reflexivity;
      match goal with
      | |- context [Dex.includes ?a ?b] => destruct (Dex.includes a b)
      end; reflexivity.
Qed.

Lemma nth_replaceAt (ps : list PairState) (i : nat) (p x d : PairState) :
  nth_error ps i = Some p -> nth i (replaceAt i x ps) d = x.
Proof.
  revert i. induction ps as [| p0 rest IH]; intros [| j] H;
    try discriminate H; cbn [replaceAt nth]; [reflexivity |].
  apply IH. exact H.
Qed.

(** [updatePairOrders] on a pair the state has, spelled out. *)
Lemma updatePairOrders_found (st : EngineState) (b q : TokenSymbol)
  (u : PairUpdates) (w : World) (i : nat) (p : PairState) :
  findPair (pairs st) b q = Some (i, p) ->
  let p' :=
    set_pairUpdatedAt (wallclock w (clockReads w))
      (applyUpdate (upd_lastAskFlipTick u) set_lastAskFlipTick
         (applyUpdate (upd_lastBidFlipTick u) set_lastBidFlipTick
            (applyUpdate (upd_lastAskTick u) set_lastAskTick
               (applyUpdate (upd_lastBidTick u) set_lastBidTick
                  (applyUpdate (upd_askOrderId u) set_askOrderId
                     (applyUpdate (upd_bidOrderId u) set_bidOrderId
                        p)))))) in
  let out := updatePairOrders st b q u w in
  fst out
  = set_updatedAt (wallclock w (S (clockReads w)))
      (set_pairs (replaceAt i p' (pairs st)) st)
  /\ chain_getOrder (snd out) = chain_getOrder w
  /\ findPair (pairs (fst out)) b q = Some (i, p').
Proof.
  intros Hfind p' out. subst out.
  unfold updatePairOrders, getPairState. rewrite Hfind.
  unfold saveState, bind, new_Date, writeStateFile, ret, assignPair.
  cbn [fst snd wallclock clockReads diskWritable].
  fold p'.
  destruct (diskWritable w); cbn [fst snd chain_getOrder pairs set_pairs
                                  set_updatedAt];
    (split; [reflexivity |]); (split; [reflexivity |]);
    apply findPair_replaceAt with (p := p); try exact Hfind;
    subst p'; unfold applyUpdate;
    destruct u as [[?|] [?|] [?|] [?|] [?|] [?|]]; reflexivity.
Qed.

Lemma pairAt_found (st : EngineState) (b q : TokenSymbol) (i : nat)
  (p d : PairState) :
  findPair (pairs st) b q = Some (i, p) -> pairAt st i d = p.
Proof.
  intros H. destruct (findPair_sound _ _ _ _ _ H) as (_ & _ & Hn).
  unfold pairAt. apply nth_error_nth. exact Hn.
Qed.

(** The ask side of [checkOrderStatus], run from whatever the bid side
    left, and the two clauses on the result. *)
Ltac ask_side BigInt b q i p w :=
  cbn [state set_state];
  match goal with
  | HfindB : findPair (pairs ?s) b q = Some (i, ?pp) |- _ =>
      rewrite (pairAt_found s b q i pp p HfindB)
  end;
  match goal with
  | HaskB : askOrderId _ = askOrderId p |- _ => rewrite ?HaskB
  end;
  let Ta := fresh "Ta" in
  destruct (truthy (askOrderId p)) as [askCopy |] eqn:Ta;
  [ match goal with
    | HchainB : chain_getOrder ?ww = chain_getOrder w |- _ =>
        let ra := fresh "ra" in
        destruct (lookupStored_pair BigInt askCopy ww) as (ra & Ea & Fa);
        rewrite Ea;
        destruct ra as [oa | ea]; [destruct (goneOrFilled oa) eqn:Ga |]
    end | ];
  try match goal with
      | HfindB : findPair (pairs ?s) b q = Some (i, ?pp),
        HchainB : chain_getOrder ?ww = chain_getOrder w
        |- context [updatePairOrders ?s b q clearAsk ?ww] =>
          let HfindA := fresh "HfindA" in
          destruct (updatePairOrders_found s b q clearAsk ww i pp HfindB)
            as (_ & _ & HfindA);
          destruct (updatePairOrders s b q clearAsk ww) as [stA wA];
          cbn [fst snd] in HfindA
      end;
  cbn [fst snd state set_state bidFilled askFilled];
  eexists;
  (split; [first [eassumption] |]);
  cbn [bidOrderId askOrderId set_pairUpdatedAt applyUpdate clearAsk
       upd_bidOrderId upd_askOrderId upd_lastBidTick upd_lastAskTick
       upd_lastBidFlipTick upd_lastAskFlipTick
       set_bidOrderId set_askOrderId];
  (split; intros id n Hid Hne Hn;
   pose proof (proj2 (truthy_Some _ _) (conj Hid Hne)) as Ht);
  repeat match goal with
         | Ht : truthy ?v = Some _, T : truthy ?v = None |- _ =>
             rewrite Ht in T; discriminate T
         | Ht : truthy ?v = Some ?id, T : truthy ?v = Some ?c |- _ =>
             tryif constr_eq id c then fail
             else (rewrite Ht in T; injection T as <-)
         end;
  try match goal with
      | F : fst (lookupStored BigInt ?idc ?ww) = _,
        Hn : BigInt ?idc = Some ?n |- _ =>
          rewrite (lookupStored_getOrder BigInt idc n ww Hn) in F;
          try match goal with
              | Hc : chain_getOrder ww = chain_getOrder w |- _ =>
                  rewrite (getOrder_reads_chain n ww w Hc) in F
              end;
          rewrite F
      end;
  cbv beta iota;
  try match goal with
      | G : goneOrFilled ?o = _ |- context [match ?o with _ => _ end] =>
          destruct o; cbn [goneOrFilled] in G;
          first [rewrite G | discriminate G | idtac]
      end;
  (split; [reflexivity |]);
  match goal with
  | HbidB : bidOrderId _ = _, HaskB : askOrderId _ = _ |- _ =>
      rewrite ?HbidB, ?HaskB
  end;
  first [reflexivity | assumption | congruence].

(** X17. [checkOrderStatus] reports a side as filled, and clears its
    stored id, exactly when the lookup answers that the order does not
    exist or has nothing remaining.  When the lookup fails with an error
    the side is not reported filled and the stored id stays; an order
    with something remaining stays as well. *)
Theorem checkOrderStatus_clears_only_gone_orders
  (BigInt : string -> option Z) (ctx : EngineContext) (b q : TokenSymbol)
  (w : World) (i : nat) (p : PairState) :
  findPair (pairs (state ctx)) b q = Some (i, p) ->
  let out := checkOrderStatus BigInt ctx b q w in
  let res := fst (fst out) in
  exists p',
    findPair (pairs (state (snd (fst out)))) b q = Some (i, p')
    /\ (forall id n,
        bidOrderId p = Some id -> id <> EmptyString -> BigInt id = Some n ->
        match fst (Dex.getOrder n w) with
        | Ok None => bidFilled res = true /\ bidOrderId p' = None
        | Ok (Some o) =>
            if remainingAmount o =? 0
            then bidFilled res = true /\ bidOrderId p' = None
            else bidFilled res = false /\ bidOrderId p' = Some id
        | Throw _ => bidFilled res = false /\ bidOrderId p' = Some id
        end)
    /\ (forall id n,
        askOrderId p = Some id -> id <> EmptyString -> BigInt id = Some n ->
        match fst (Dex.getOrder n w) with
        | Ok None => askFilled res = true /\ askOrderId p' = None
        | Ok (Some o) =>
            if remainingAmount o =? 0
            then askFilled res = true /\ askOrderId p' = None
            else askFilled res = false /\ askOrderId p' = Some id
        | Throw _ => askFilled res = false /\ askOrderId p' = Some id
        end).
Proof.
  intros Hfind out res. subst res out.
  unfold checkOrderStatus, getPairState. rewrite Hfind.
  unfold bind, ret. cbn [state set_state].
  rewrite (pairAt_found _ _ _ _ _ p Hfind).
  (* the bid side *)
  destruct (truthy (bidOrderId p)) as [bidCopy |] eqn:Tb;
    [ destruct (lookupStored_pair BigInt bidCopy w) as (rb & Eb & Fb);
      rewrite Eb;
      destruct rb as [ob | eb]; [destruct (goneOrFilled ob) eqn:Gb |] | ].
  1: { destruct (updatePairOrders_found (state ctx) b q clearBid w i p
                   Hfind) as (_ & HchainB & HfindB).
       destruct (updatePairOrders (state ctx) b q clearBid w) as [stB wB].
       cbn [fst snd] in HchainB, HfindB.
       match type of HfindB with
       | _ = Some (_, ?x) => set (pB := x) in *
       end.
       assert (HaskB : askOrderId pB = askOrderId p) by reflexivity.
       assert (HbidB : bidOrderId pB = None) by reflexivity.
       clearbody pB.
       ask_side BigInt b q i p w. }
  all: pose proof Hfind as HfindB.
  all: pose proof (eq_refl (chain_getOrder w)) as HchainB.
  all: pose proof (eq_refl (askOrderId p)) as HaskB.
  all: pose proof (eq_refl (bidOrderId p)) as HbidB.
  all: ask_side BigInt b q i p w.
Qed.

Lemma checkOrderStatus_clears_only_gone_orders_witness :
  (* the endpoint times out: nothing is reported filled, both ids stay *)
  exists p',
    findPair (pairs (state (snd (fst (checkOrderStatus decimalBigInt
                                        quotedContext AlphaUSD pathUSD
                                        worldAtOnePm)))))
             AlphaUSD pathUSD = Some (O, p')
    /\ bidFilled (fst (fst (checkOrderStatus decimalBigInt quotedContext
                              AlphaUSD pathUSD worldAtOnePm))) = false
    /\ bidOrderId p' = Some "7"%string
    /\ askOrderId p' = Some "8"%string.
Proof.
  destruct (checkOrderStatus_clears_only_gone_orders
              decimalBigInt quotedContext AlphaUSD pathUSD worldAtOnePm
              O quotedPair eq_refl)
    as (p' & Hp & Hbid & Hask).
  exists p'. split; [exact Hp |].
  pose proof (Hbid "7"%string 7 eq_refl ltac:(discriminate) eq_refl) as H7.
  pose proof (Hask "8"%string 8 eq_refl ltac:(discriminate) eq_refl) as H8.
  change (fst (Dex.getOrder 7 worldAtOnePm))
    with (@Throw (option OrderInfo) (RpcError "request timed out")) in H7.
  change (fst (Dex.getOrder 8 worldAtOnePm))
    with (@Throw (option OrderInfo) (RpcError "request timed out")) in H8.
  cbv beta iota in H7, H8.
  destruct H7 as [H71 H72]. destruct H8 as [_ H82].
  repeat split; assumption.
Defined.

End FillDetection.

(** ** Quoting *)

Section QuotingExtras.
Import Config Ticks Types StateSchema Runtime State Strategy Engine.
Import Submissions Examples.

(** X18. [getQuoteParams] succeeds exactly when the configured total
    spread is at least one basis point and the token's decimals can be
    read.  Below one basis point it throws the bid's flip constraint
    violation, whatever the chain would answer. *)
Theorem getQuoteParams_succeeds_iff
  (cfg : Config) (b q : TokenSymbol) (w : World) :
  ((exists p, fst (getQuoteParams cfg b q w) = Ok p)
   <-> (1 <= TOTAL_SPREAD_BPS cfg)%Q /\ exists d, chain_decimals w b = Ok d)
  /\ ((TOTAL_SPREAD_BPS cfg < 1)%Q ->
      exists tick flipTick,
        fst (getQuoteParams cfg b q w)
        = Throw (FlipConstraintViolated true tick flipTick)).
Proof.
  unfold getQuoteParams. rewrite calculateQuoteTicks_eq.
  cbn [bidTick askTick].
  set (h := calculateHalfSpreadTicks (TOTAL_SPREAD_BPS cfg)).
  destruct (Qlt_le_dec (TOTAL_SPREAD_BPS cfg) 1) as [Hlt | Hge].
  - (* below one basis point: the half spread is not positive *)
    assert (Hh : h <= 0).
    { subst h. rewrite halfSpread_multiple.
      assert (Math_round (TOTAL_SPREAD_BPS cfg / 2) < 1).
      { apply Math_round_lt_1. unfold Qdiv.
        change (/ 2)%Q with (1 # 2)%Q. lra. }
      unfold TICK_SPACING. lia. }
    assert (Hthrow :
      assertFlipConstraints true (clampTick (0 - h)) (clampTick (0 + h))
      = Throw (FlipConstraintViolated true (clampTick (0 - h))
                 (clampTick (0 + h)))).
    { unfold assertFlipConstraints.
      replace (clampTick (0 + h) <=? clampTick (0 - h)) with true;
        [reflexivity |].
      symmetry. apply Z.leb_le.
      unfold clampTick, TICK_BOUNDS_MIN, TICK_BOUNDS_MAX. lia. }
    rewrite Hthrow. cbn [fst ret]. split.
    + split.
      * intros [p Hp]. discriminate Hp.
      * intros [H1 _]. exfalso. lra.
    + intros _. do 2 eexists. reflexivity.
  - pose proof (halfSpread_ge_spacing _ Hge) as Hh. fold h in Hh.
    unfold TICK_SPACING in Hh.
    unfold assertFlipConstraints.
    replace (clampTick (0 + h) <=? clampTick (0 - h)) with false
      by (symmetry; apply Z.leb_gt;
          unfold clampTick, TICK_BOUNDS_MIN, TICK_BOUNDS_MAX; lia).
    replace (clampTick (0 - h) >=? clampTick (0 + h)) with false
      by (symmetry; rewrite Z.geb_leb; apply Z.leb_gt;
          unfold clampTick, TICK_BOUNDS_MIN, TICK_BOUNDS_MAX; lia).
    unfold bind, client_decimals, ret. split.
    + destruct (chain_decimals w b) as [d | e]; cbn [fst]; split.
      * intros _. split; [exact Hge | eexists; reflexivity].
      * intros _. eexists. reflexivity.
      * intros [p Hp]. discriminate Hp.
      * intros [_ [d Hd]]. discriminate Hd.
    + intros Hlt. exfalso. lra.
Qed.

Lemma getQuoteParams_succeeds_iff_witness :
  exists tick flipTick,
    fst (getQuoteParams
           {| TOTAL_SPREAD_BPS := 1 # 2; ORDER_SIZE_HUMAN := 100;
              MAX_TX_PER_DAY := 100; MAX_CANCELS_PER_HOUR := 10;
              COOLDOWN_MS := 60000; JITTER_MS := 5000 |}
           AlphaUSD pathUSD worldAtOnePm)
    = Throw (FlipConstraintViolated true tick flipTick).
Proof.
  apply (proj2 (getQuoteParams_succeeds_iff
                  {| TOTAL_SPREAD_BPS := 1 # 2; ORDER_SIZE_HUMAN := 100;
                     MAX_TX_PER_DAY := 100; MAX_CANCELS_PER_HOUR := 10;
                     COOLDOWN_MS := 60000; JITTER_MS := 5000 |}
                  AlphaUSD pathUSD worldAtOnePm)).
  vm_compute. reflexivity.
Defined.

(** X19. [hasFlipBuffer] reports as missing exactly what separates the
    internal balance from the order size plus the buffer: a side is fine
    if and only if nothing is missing for it, the missing amount is never
    negative, and with the missing amounts added to the internal
    balances both sides are fine. *)
Theorem hasFlipBuffer_missing_is_the_shortfall
  (minBufferHuman : Q) (inventory : InventoryState) (orderSize : Z) :
  let check := hasFlipBuffer minBufferHuman inventory orderSize in
  let topped :=
    {| inv_baseToken := inv_baseToken inventory;
       inv_quoteToken := inv_quoteToken inventory;
       baseWallet := baseWallet inventory;
       baseDex := baseDex inventory + baseMissing check;
       quoteWallet := quoteWallet inventory;
       quoteDex := quoteDex inventory + quoteMissing check;
       baseDecimals := baseDecimals inventory;
       quoteDecimals := quoteDecimals inventory |} in
  0 <= baseMissing check /\ 0 <= quoteMissing check
  /\ (baseOk check = true <-> baseMissing check = 0)
  /\ (quoteOk check = true <-> quoteMissing check = 0)
  /\ baseOk (hasFlipBuffer minBufferHuman topped orderSize) = true
  /\ quoteOk (hasFlipBuffer minBufferHuman topped orderSize) = true.
Proof.
  unfold hasFlipBuffer.
  cbn [baseOk quoteOk baseMissing quoteMissing baseDex quoteDex
       baseDecimals].
  set (required := orderSize + Qfloor _).
  destruct (baseDex inventory >=? required) eqn:Eb;
    destruct (quoteDex inventory >=? required) eqn:Eq;
    rewrite Z.geb_leb in Eb, Eq;
    first [apply Z.leb_le in Eb | apply Z.leb_gt in Eb];
    first [apply Z.leb_le in Eq | apply Z.leb_gt in Eq];
    repeat split; intros; try lia; try discriminate;
    try (rewrite Z.geb_leb; apply Z.leb_le; lia).
Qed.

End QuotingExtras.

Section QuotePairGates.
Import Config Ticks Types StateSchema Runtime State Strategy Engine.
Import Submissions Examples MoreExamples.

Lemma Forall_False_nil {A : Type} (l : list A) :
  Forall (fun _ => False) l -> l = [].
Proof. intros H. destruct l; [reflexivity | inversion H; contradiction]. Qed.

(** X20. [placeSide] submits an order only against reserved budget: the
    order goes to [placeFlipSync] exactly when [incrementTxCounter]
    grants the transaction, and then exactly once; a refused
    transaction submits nothing and reports the side as not placed. *)
Theorem placeSide_submits_iff_budget_granted
  (cfg : Config) (st : EngineState) (b q : TokenSymbol)
  (order : FlipOrderParams) (updates : Z -> PairUpdates) (w : World) :
  let granted := allowed (fst (fst (incrementTxCounter cfg st false w))) in
  let out := placeSide cfg st b q order updates w in
  submitted (snd out)
  = submitted w ++ (if granted then [order] else [])
  /\ (fst (fst out) = true -> granted = true).
Proof.
  intros granted out. subst granted out. unfold placeSide, bind.
  pose proof (submitsOnly_incrementTxCounter (fun _ => False) cfg st false w)
    as (l & Hl & HF).
  apply Forall_False_nil in HF. subst l. rewrite app_nil_r in Hl.
  destruct (incrementTxCounter cfg st false w) as [[budget st1] w1].
  cbn [fst snd] in *.
  destruct (allowed budget); cbn [negb].
  - assert (Hone : submitted (snd (Dex.placeFlipOrder order w1))
                   = submitted w1 ++ [order]).
    { unfold Dex.placeFlipOrder, bind, client_placeFlipSync, ret.
      destruct (chain_placeFlipSync w1 order); reflexivity. }
    destruct (Dex.placeFlipOrder order w1) as [[[orderId txHash] |] w2];
      cbn [snd] in Hone.
    + pose proof (submitsOnly_updatePairOrders (fun _ => False) st1 b q
                    (updates orderId) w2) as (l2 & Hl2 & HF2).
      apply Forall_False_nil in HF2. subst l2. rewrite app_nil_r in Hl2.
      destruct (updatePairOrders st1 b q (updates orderId) w2)
        as [st3 w3].
      cbn [fst snd ret] in *. rewrite Hl2, Hone, Hl. auto.
    + cbn [fst snd ret]. rewrite Hone, Hl. auto.
  - cbn [fst snd ret]. rewrite Hl, app_nil_r.
    split; [reflexivity | intros H; exact H].
Qed.

Lemma placeSide_submits_iff_budget_granted_witness :
  submitted
    (snd (placeSide config spentState AlphaUSD pathUSD
            {| fo_baseToken := AlphaUSD; fo_amount := 100000000;
               fo_isBid := true; fo_tick := -50; fo_flipTick := 50 |}
            (fun _ => clearAsk) worldAtOnePm))
  = [].
Proof.
  apply (proj1 (placeSide_submits_iff_budget_granted
                  config spentState AlphaUSD pathUSD
                  {| fo_baseToken := AlphaUSD; fo_amount := 100000000;
                     fo_isBid := true; fo_tick := -50; fo_flipTick := 50 |}
                  (fun _ => clearAsk) worldAtOnePm)).
Defined.

(** X21. [quotePair] holds back in three situations, submitting nothing:
    while the pair is in its cooldown (less than [COOLDOWN_MS] since the
    last quote), where it also leaves state and file alone; when
    [checkTxBudget] refuses; and when both sides already have an order
    id stored. *)
Theorem quotePair_holds_back
  (cfg : Config) (ctx : EngineContext) (b q : TokenSymbol) (w : World)
  (i : nat) (p : PairState) :
  findPair (pairs (state ctx)) b q = Some (i, p) ->
  let now := getTime (wallclock w (clockReads w)) in
  let lastQuote := match Map_get (lastQuoteTime ctx) (pairKey b q) with
                   | Some t => t
                   | None => 0
                   end in
  let out := quotePair cfg ctx b q w in
  (now - lastQuote < COOLDOWN_MS cfg ->
   fst (fst out) = Ok {| bidPlaced := false; askPlaced := false |}
   /\ snd (fst out) = ctx
   /\ submitted (snd out) = submitted w
   /\ disk (snd out) = disk w)
  /\ (COOLDOWN_MS cfg <= now - lastQuote ->
      allowed (fst (checkTxBudget cfg (state ctx) false (snd (Date_now w))))
      = false ->
      fst (fst out) = Ok {| bidPlaced := false; askPlaced := false |}
      /\ snd (fst out) = ctx
      /\ submitted (snd out) = submitted w
      /\ disk (snd out) = disk w)
  /\ ((exists id, truthy (bidOrderId p) = Some id) ->
      (exists id, truthy (askOrderId p) = Some id) ->
      submitted (snd out) = submitted w).
Proof.
  intros Hfind now lastQuote out.
  assert (Hctx : set_state (state ctx) ctx = ctx) by (destruct ctx; reflexivity).
  assert (Hnow : Date_now w = (now, snd (Date_now w))) by reflexivity.
  assert (Hclock : submitted (snd (Date_now w)) = submitted w
                   /\ disk (snd (Date_now w)) = disk w)
    by (split; reflexivity).
  destruct Hclock as [Hs1 Hd1].
  split; [| split].
  - intros Hcool.
    assert (E : out = (Ok {| bidPlaced := false; askPlaced := false |},
                       ctx, snd (Date_now w))).
    { subst out. unfold quotePair, getPairState. rewrite Hfind.
      unfold bind. cbn [ret]. rewrite Hnow.
      change (lastQuoteTime (set_state (state ctx) ctx))
        with (lastQuoteTime ctx).
      fold lastQuote.
      replace (now - lastQuote <? COOLDOWN_MS cfg) with true
        by (symmetry; apply Z.ltb_lt; exact Hcool).
      rewrite Hctx. reflexivity. }
    rewrite E. cbn [fst snd]. auto.
  - intros Hpast Hrefused.
    pose proof (submitsOnly_checkTxBudget (fun _ => False) cfg (state ctx)
                  false (snd (Date_now w))) as (l & Hl & HF).
    apply Forall_False_nil in HF. subst l. rewrite app_nil_r in Hl.
    assert (Hd : disk (snd (checkTxBudget cfg (state ctx) false
                              (snd (Date_now w)))) = disk w)
      by reflexivity.
    assert (E : exists w2,
               out = (Ok {| bidPlaced := false; askPlaced := false |},
                      ctx, w2)
               /\ submitted w2 = submitted w /\ disk w2 = disk w).
    { subst out. unfold quotePair, getPairState. rewrite Hfind.
      unfold bind. cbn [ret]. rewrite Hnow.
      change (lastQuoteTime (set_state (state ctx) ctx))
        with (lastQuoteTime ctx).
      change (state (set_state (state ctx) ctx)) with (state ctx).
      fold lastQuote.
      replace (now - lastQuote <? COOLDOWN_MS cfg) with false
        by (symmetry; apply Z.ltb_ge; exact Hpast).
      destruct (checkTxBudget cfg (state ctx) false (snd (Date_now w)))
        as [budget w2].
      cbn [fst snd] in Hrefused, Hl, Hd. rewrite Hrefused.
      cbn [negb fst snd ret]. rewrite Hctx.
      exists w2. split; [reflexivity |].
      split; [congruence | exact Hd]. }
    destruct E as (w2 & E & Hs2 & Hd2). rewrite E. cbn [fst snd]. auto.
  - intros [idb Hb] [ida Ha].
    assert (H : submitsOnly (fun _ => False) (quotePair cfg ctx b q)).
    { unfold quotePair.
      apply submitsOnly_bind_post with
        (Q := fun r => r = (p, i, state ctx)).
      - intros w0. unfold getPairState. rewrite Hfind. reflexivity.
      - apply submitsOnly_getPairState.
      - intros r ->. cbn [set_state state lastQuoteTime].
        apply submitsOnly_bind; [apply submitsOnly_Date_now |]. intros t.
        match goal with
        | |- submitsOnly _ (if ?c then _ else _) => destruct c
        end; [apply submitsOnly_ret |].
        apply submitsOnly_bind; [apply submitsOnly_checkTxBudget |].
        intros budget.
        destruct (negb (allowed budget)); [apply submitsOnly_ret |].
        apply submitsOnly_bind; [apply submitsOnly_getQuoteParams |].
        intros [params | e]; [| apply submitsOnly_ret].
        change (state (set_state (state ctx) ctx)) with (state ctx).
        rewrite (pairAt_found _ _ _ _ _ p Hfind), Hb.
        apply submitsOnly_bind_post with
          (Q := fun r => r = (false, state ctx));
          [reflexivity | apply submitsOnly_ret |].
        intros r ->.
        change (state (set_state (state ctx) ctx)) with (state ctx).
        rewrite (pairAt_found _ _ _ _ _ p Hfind), Ha.
        apply submitsOnly_bind; [apply submitsOnly_ret |].
        intros [askPlaced st2].
        apply submitsOnly_bind; [apply submitsOnly_Date_now |]. intros t2.
        apply submitsOnly_ret. }
    destruct (H w) as (l & Hl & HF).
    apply Forall_False_nil in HF. subst l. rewrite app_nil_r in Hl.
    exact Hl.
Qed.

Lemma quotePair_holds_back_witness :
  fst (fst (quotePair config quotedContext AlphaUSD pathUSD
              worldInCooldown))
  = Ok {| bidPlaced := false; askPlaced := false |}
  /\ submitted (snd (quotePair config quotedContext AlphaUSD pathUSD
                       worldAtOnePm)) = [].
Proof.
  split.
  - destruct (proj1 (quotePair_holds_back config quotedContext AlphaUSD
                       pathUSD worldInCooldown O quotedPair eq_refl))
      as (H & _).
    + vm_compute. reflexivity.
    + exact H.
  - apply (proj2 (proj2 (quotePair_holds_back config quotedContext AlphaUSD
                           pathUSD worldAtOnePm O quotedPair eq_refl))).
    + eexists. reflexivity.
    + eexists. reflexivity.
Defined.

End QuotePairGates.

(** ** Quote ticks, order ids, lookups and tokens *)

Section MoreTickFacts.
Import Config Ticks.

(** X22. The two quotes mirror each other around the mid tick
    ([bidTick = - askTick]) whatever the spread, and widening the spread
    never narrows them: the ask never moves down and the bid never
    moves up. *)
Theorem quote_ticks_symmetric_and_monotone :
  (forall x : Q,
      exists ticks,
        calculateQuoteTicks x = Ok ticks
        /\ bidTick ticks = - askTick ticks
        /\ midTick ticks = 0)
  /\ (forall x y : Q, (x <= y)%Q ->
      forall tx ty,
        calculateQuoteTicks x = Ok tx -> calculateQuoteTicks y = Ok ty ->
        askTick tx <= askTick ty /\ bidTick ty <= bidTick tx).
Proof.
  split.
  - intros x. eexists. split; [apply calculateQuoteTicks_eq |].
    cbn [bidTick askTick midTick]. split; [| reflexivity].
    unfold clampTick, TICK_BOUNDS_MIN, TICK_BOUNDS_MAX. lia.
  - intros x y Hxy tx ty Hx Hy.
    rewrite calculateQuoteTicks_eq in Hx, Hy.
    injection Hx as <-. injection Hy as <-. cbn [bidTick askTick].
    assert (H : calculateHalfSpreadTicks x <= calculateHalfSpreadTicks y).
    { rewrite !halfSpread_multiple. unfold TICK_SPACING, Math_round.
      apply Z.mul_le_mono_nonneg_r; [lia |].
      apply Qfloor_resp_le. unfold Qdiv.
      change (/ 2)%Q with (1 # 2)%Q. lra. }
    unfold clampTick, TICK_BOUNDS_MIN, TICK_BOUNDS_MAX. lia.
Qed.

Lemma quote_ticks_symmetric_and_monotone_witness :
  exists tx ty,
    calculateQuoteTicks 10 = Ok tx /\ calculateQuoteTicks 30 = Ok ty
    /\ askTick tx <= askTick ty /\ bidTick ty <= bidTick tx.
Proof.
  eexists. eexists.
  split; [reflexivity |]. split; [reflexivity |].
  apply (proj2 quote_ticks_symmetric_and_monotone 10%Q 30%Q);
    [vm_compute; discriminate | reflexivity | reflexivity].
Defined.

End MoreTickFacts.

Section OrderIds.
Import Config Types StateSchema Runtime Dex.

(** X23. An order id written with [orderIdToString] reads back as the
    same id, so two different ids never share a stored string. *)
Theorem orderId_string_round_trip :
  (forall orderId : Z, decimalBigInt (orderIdToString orderId) = Some orderId)
  /\ (forall a b : Z, orderIdToString a = orderIdToString b -> a = b).
Proof.
  assert (H : forall n : Z, decimalBigInt (orderIdToString n) = Some n).
  { intros n. unfold decimalBigInt, orderIdToString.
    rewrite NilZero.isi.
    - cbn [option_map]. rewrite DecimalZ.of_to. reflexivity.
    - destruct n; cbn; try discriminate.
      intros E. injection E as E.
      exact (DecimalPos.Unsigned.to_uint_nonnil _ E).
    - destruct n; cbn; try discriminate.
      intros E. injection E as E.
      exact (DecimalPos.Unsigned.to_uint_nonnil _ E). }
  split; [exact H |].
  intros a b E. pose proof (H a) as Ha. rewrite E, H in Ha. congruence.
Qed.

Lemma orderId_string_round_trip_witness :
  orderIdToString 7 <> orderIdToString 8.
Proof.
  intros E. apply (proj2 orderId_string_round_trip 7 8) in E.
  discriminate E.
Defined.

(** X24. An order that [getOrder] returns carries the id asked for and a
    maker other than the zero address; it is marked filled exactly when
    nothing remains, and has a flip tick exactly when it is a flip
    order. *)
Theorem getOrder_result_wellformed (n : Z) (w : World) (o : OrderInfo) :
  fst (getOrder n w) = Ok (Some o) ->
  orderId o = n
  /\ maker o <> ZERO_ADDRESS
  /\ (status o = filled <-> remainingAmount o = 0)
  /\ (status o = filled \/ status o = open)
  /\ (isFlip o = true <-> exists f, flipTick o = Some f).
Proof.
  unfold getOrder, bind, client_getOrder, ret.
  destruct (chain_getOrder w n) as [[raw |] | e].
  - destruct (String.eqb (raw_maker raw) ZERO_ADDRESS) eqn:Em;
      cbn [fst]; intros H; [discriminate H |].
    injection H as <-.
    cbn [orderId maker status remainingAmount isFlip flipTick].
    apply String.eqb_neq in Em.
    split; [reflexivity |]. split; [exact Em |].
    destruct (raw_remaining raw =? 0) eqn:Er;
      [apply Z.eqb_eq in Er | apply Z.eqb_neq in Er];
      destruct (raw_isFlip raw);
      repeat split; auto; try discriminate; try contradiction;
      try (intros [f Hf]; discriminate Hf);
      try (intros _; eexists; reflexivity).
  - cbn [fst]. intros H. discriminate H.
  - destruct e; cbn [fst]; try (intros H; discriminate H).
    destruct errorName as [name |];
      [destruct (String.eqb name "OrderDoesNotExist") |];
      try (cbn [fst]; intros H; discriminate H);
      match goal with
      | |- context [includes ?a ?b] => destruct (includes a b)
      end; cbn [fst]; intros H; discriminate H.
Qed.

Lemma getOrder_result_wellformed_witness :
  exists o,
    fst (getOrder 7 Examples.worldBidOpen) = Ok (Some o)
    /\ orderId o = 7
    /\ maker o <> ZERO_ADDRESS
    /\ (status o = filled <-> remainingAmount o = 0)
    /\ (status o = filled \/ status o = open)
    /\ (isFlip o = true <-> exists f, flipTick o = Some f).
Proof.
  eexists. split; [reflexivity |].
  apply (getOrder_result_wellformed 7 Examples.worldBidOpen).
  reflexivity.
Defined.

End OrderIds.

Section TokenLookup.
Import Config State Tokens.

(** X25. Symbols and addresses convert back and forth: the address of a
    symbol resolves to that symbol, in any letter case, and an address
    resolves to a symbol only if it is that symbol's address up to
    letter case; every other address resolves to nothing. *)
Theorem token_address_round_trip :
  (forall symbol address,
      toLowerCase address = toLowerCase (getTokenAddress symbol) ->
      getTokenSymbol address = Some symbol)
  /\ (forall address symbol,
      getTokenSymbol address = Some symbol ->
      toLowerCase address = toLowerCase (getTokenAddress symbol)).
Proof.
  split.
  - intros symbol address H. unfold getTokenSymbol, TOKENS_entries.
    cbn [map findSymbol]. rewrite H.
    destruct symbol; reflexivity.
  - intros address symbol. unfold getTokenSymbol, TOKENS_entries.
    cbn [map findSymbol].
    repeat match goal with
           | |- context [String.eqb ?a ?b] =>
               let E := fresh "E" in
               destruct (String.eqb a b) eqn:E;
               [ apply String.eqb_eq in E;
                 intros H; injection H as <-; symmetry; exact E
               | clear E ]
           end.
    intros H. discriminate H.
Qed.

Lemma token_address_round_trip_witness :
  getTokenSymbol "0x20C0000000000000000000000000000000000001"
  = Some AlphaUSD.
Proof.
  apply (proj1 token_address_round_trip). reflexivity.
Defined.

End TokenLookup.
